(** * Calamari [ceph_refresh]: a shallow embedding and its verification

    The development follows
    [webapp/calamari/ceph/management/commands/ceph_refresh.py], in this
    order:

    - [PyStr]: the [str] methods the command uses ([split], [lower], ...);
    - exceptions, [Outcome], and the state-and-exception monad [M] in which
      the methods of [ModelAdapter] run;
    - the documents the Ceph REST API answers with, and the environment
      [Env] of the command (network, resolver, clock);
    - the Django tables ([Cluster], [Pool], [Server], [ServiceStatus]) and,
      in [Models], the ORM calls made on them;
    - [ModelAdapter], method by method: the monitor probe (with the two
      regular expressions in [Re]), the classifiers, the registry of servers
      and services, the populate steps, [refresh];
    - [Command.handle];
    - fixtures, the vocabulary of the statements, and the theorems, grouped
      by the part of the program they speak about.

    Python integers are unbounded, hence [Z].  Dictionaries are [gmap]s,
    Python sets are [gset]s, database tables are lists of rows.  The
    documents are typed: an answer that lacks a key the command reads is a
    failed request; only the [df] answer, whose keys are read at different
    steps of a pass, may lack each of them.  The database accepts every
    write. *)

From Stdlib Require Import ZArith String Ascii List Bool Lia.
From Stdlib Require Import Numbers.DecimalString.
From stdpp Require Import gmap strings list fin_maps.

Set Warnings "-register-all,-clear-no-such-hyp".

Local Open Scope string_scope.
Local Open Scope Z_scope.

(* ===================================================================== *)
(** ** Python strings *)
(* ===================================================================== *)

Module PyStr.

(** [s.startswith(p)] *)
Definition startswith (p s : string) : bool := String.prefix p s.

(** [s[1:]] *)
Definition tail1 (s : string) : string :=
  match s with
  | EmptyString => EmptyString
  | String _ s' => s'
  end.

(** Put [c] in front of the first piece of a split under construction. *)
Definition cons_head (c : ascii) (pieces : list string) : list string :=
  match pieces with
  | [] => [String c EmptyString]
  | h :: t => String c h :: t
  end.

(** [s.split(sep)] for a non-empty separator: pieces between the
    non-overlapping occurrences of [sep], scanning from the left.  [skip]
    counts the characters of a separator that was just recognised and is
    still to be dropped. *)
Fixpoint split_from (sep s : string) (skip : nat) : list string :=
  match s with
  | EmptyString => [EmptyString]
  | String c s' =>
      match skip with
      | S k => split_from sep s' k
      | O =>
          if String.prefix sep s
          then EmptyString :: split_from sep s' (Nat.pred (String.length sep))
          else cons_head c (split_from sep s' 0)
      end
  end.

Definition split (sep s : string) : list string := split_from sep s 0.

(** [s.split(sep)[0]]; [split] never returns the empty list. *)
Definition split0 (sep s : string) : string :=
  match split sep s with
  | [] => EmptyString
  | h :: _ => h
  end.

Definition lower_ascii (c : ascii) : ascii :=
  let n := nat_of_ascii c in
  if (Nat.leb 65 n && Nat.leb n 90)%bool then ascii_of_nat (n + 32) else c.

(** [s.lower()] on ASCII text. *)
Fixpoint lower (s : string) : string :=
  match s with
  | EmptyString => EmptyString
  | String c s' => String (lower_ascii c) (lower s')
  end.

(** [c in s] for a one-character [c]. *)
Fixpoint contains_char (c : ascii) (s : string) : bool :=
  match s with
  | EmptyString => false
  | String d s' => if Ascii.eqb c d then true else contains_char c s'
  end.

(** ["%s" % n] and ["%d" % n] for an integer [n]. *)
Definition of_Z (n : Z) : string := NilZero.string_of_int (Z.to_int n).

Definition is_digit (c : ascii) : bool :=
  let n := nat_of_ascii c in (Nat.leb 48 n && Nat.leb n 57)%bool.

(** [\s] of the [re] module without the UNICODE flag. *)
Definition is_space (c : ascii) : bool :=
  let n := nat_of_ascii c in
  (Nat.eqb n 32 || (Nat.leb 9 n && Nat.leb n 13))%bool.

Definition digit_val (c : ascii) : Z := Z.of_nat (nat_of_ascii c) - 48.

(** Value of a run of decimal digits, most significant first. *)
Fixpoint digits_val (acc : Z) (s : string) : option Z :=
  match s with
  | EmptyString => Some acc
  | String c s' =>
      if is_digit c then digits_val (10 * acc + digit_val c) s' else None
  end.

Fixpoint lstrip (s : string) : string :=
  match s with
  | String c s' => if is_space c then lstrip s' else s
  | EmptyString => EmptyString
  end.

Fixpoint rstrip (s : string) : string :=
  match s with
  | EmptyString => EmptyString
  | String c s' =>
      match rstrip s' with
      | EmptyString => if is_space c then EmptyString else String c EmptyString
      | r => String c r
      end
  end.

(** [int(s)]: optional surrounding blanks, optional sign, at least one
    digit.  [None] stands for the [ValueError]. *)
Definition to_int (s : string) : option Z :=
  match rstrip (lstrip s) with
  | EmptyString => None
  | String "-" (String c r) => Z.opp <$> digits_val 0 (String c r)
  | String "+" (String c r) => digits_val 0 (String c r)
  | t => digits_val 0 t
  end.

End PyStr.

(* ===================================================================== *)
(** ** Exceptions, outcomes, and the monad of the adapter's methods *)
(* ===================================================================== *)

(** The exception classes that can travel through the command.  All of them
    derive from Python's [Exception]; [RequestException] is the base class
    of everything the Requests library raises. *)
Inductive exn_class :=
  | RequestException
  | SocketError
  | KeyError
  | IndexError
  | ValueError
  | AttributeError
  | RuntimeError
  | MultipleObjectsReturned.

Record exn := Exn { exn_cls : exn_class; exn_msg : string }.

Definition exn_class_eqb (a b : exn_class) : bool :=
  match a, b with
  | RequestException, RequestException | SocketError, SocketError
  | KeyError, KeyError | IndexError, IndexError | ValueError, ValueError
  | AttributeError, AttributeError | RuntimeError, RuntimeError
  | MultipleObjectsReturned, MultipleObjectsReturned => true
  | _, _ => false
  end.

(** [isinstance(e, requests.exceptions.RequestException)] *)
Definition is_RequestException (e : exn) : bool :=
  exn_class_eqb (exn_cls e) RequestException.

(** [isinstance(e, Exception)] *)
Definition is_Exception (e : exn) : bool :=
  match exn_cls e with
  | RequestException | SocketError | KeyError | IndexError | ValueError
  | AttributeError | RuntimeError | MultipleObjectsReturned => true
  end.

(** How a Python call ends. *)
Inductive Outcome (A : Type) :=
  | Return (a : A)
  | Raise (e : exn).
Arguments Return {A} a.
Arguments Raise {A} e.

Definition returned {A} (o : Outcome A) : bool :=
  match o with Return _ => true | Raise _ => false end.

(** A method that may change the state [S] and may raise.  The state at the
    moment of the [raise] is kept: nothing is rolled back. *)
Definition M (S A : Type) : Type := S -> Outcome A * S.

Definition ret {S A} (a : A) : M S A := fun s => (Return a, s).
Definition raise {S A} (e : exn) : M S A := fun s => (Raise e, s).
Definition bind {S A B} (m : M S A) (k : A -> M S B) : M S B :=
  fun s => match m s with
           | (Return a, s') => k a s'
           | (Raise e, s') => (Raise e, s')
           end.
Definition get {S} : M S S := fun s => (Return s, s).
Definition modify {S} (f : S -> S) : M S unit := fun s => (Return tt, f s).
(** Lift a computation that cannot touch the state. *)
Definition lift {S A} (o : Outcome A) : M S A := fun s => (o, s).

Notation "x <- m ;; k" := (bind m (fun x => k))
  (at level 100, m at next level, right associativity).
Notation "m ;;; k" := (bind m (fun _ => k))
  (at level 100, right associativity).

(** [for x in xs: body(x)] *)
Fixpoint for_each {S A} (xs : list A) (body : A -> M S unit) : M S unit :=
  match xs with
  | [] => ret tt
  | x :: xs' => body x ;;; for_each xs' body
  end.

(** [d[k]] on a dictionary, with its [KeyError]. *)
Definition getitem {A} (what : string) (o : option A) : Outcome A :=
  match o with
  | Some a => Return a
  | None => Raise (Exn KeyError what)
  end.

(* ===================================================================== *)
(** ** The documents served by the Ceph REST API *)
(* ===================================================================== *)

(** Pass-through JSON payloads (health detail and summary). *)
Inductive json :=
  | JNull
  | JBool (b : bool)
  | JNum (n : Z)
  | JStr (s : string)
  | JArr (items : list json)
  | JObj (fields : list (string * json)).

(** [df]: the cluster totals in KiB under ['stats'] and the per-pool usage
    under ['pools'].  The two keys are read by different methods, one
    after the other has written, and the totals one by one: each of them
    may be missing from an answer that has the others. *)
Record DfPoolStats := { bytes_used : Z; objects : Z }.
Record DfPool := { df_id : Z; df_pool_stats : DfPoolStats }.
Record DfStats := {
  total_used : option Z; total_space : option Z; total_avail : option Z }.
Record DfDoc := { df_stats : option DfStats; df_pools : option (list DfPool) }.

(** [health?detail] *)
Record HealthDoc := { overall_status : json; detail : json; summary : json }.

(** [osd/dump] *)
Record OsdMapPool := {
  pool : Z; pool_name : string; quota_max_bytes : Z; quota_max_objects : Z }.
Record Osd := {
  osd : Z; uuid : string; up : Z; in_ : Z; up_from : Z;
  public_addr : string; cluster_addr : string;
  heartbeat_back_addr : string; heartbeat_front_addr : string }.
Record OsdDump := { od_pools : list OsdMapPool; od_osds : list Osd }.

(** [mon_status] and the [monmap] inside [status] *)
Record Mon := { rank : Z; mon_name : string; mon_addr : string }.
Record MonStatus := { monmap_mons : list Mon }.

(** [status] *)
Record MdsMap := { mds_max : Z; mds_up : Z; mds_in : Z }.
Record PgByState := { pbs_count : Z; state_name : string }.
Record StatusDoc := {
  mdsmap : MdsMap;
  status_mons : list Mon;
  quorum : list Z;
  pgs_by_state : list PgByState }.

(** [osd/lspools] *)
Record LsPool := { poolnum : Z; poolname : string }.

(** [pg/dump?dumpcontents=pgs_brief] *)
Record PgBrief := {
  pgid : string; acting : list Z; pg_up : list Z; pg_state : string }.

(** [osd/tree]; leaves carry no [children] key. *)
Record CrushNode := {
  node_id : Z; node_name : string; node_type : string;
  node_children : option (list Z) }.

(** What one [CephRestClient] answers during one pass, endpoint by
    endpoint.  [_query] is memoized on (client, endpoint), a client lives for
    one pass of one cluster, and no caller catches a failed query: so a pass
    sees at most one answer per endpoint, and a [Raise] ends it.  An answer
    that is not JSON or lacks ['output'] is a [Raise] too.  The documents
    are typed, except for the keys of [df], which are read at different
    steps of a pass. *)
Record Telemetry := {
  get_status : Outcome StatusDoc;
  get_space_stats : Outcome DfDoc;
  get_health : Outcome HealthDoc;
  get_osds : Outcome OsdDump;
  get_mon_status : Outcome MonStatus;
  get_pg_pools : Outcome (list (gmap string Z));
  get_pools : Outcome (list LsPool);
  get_pg_stats : Outcome (list PgBrief);
  get_osd_tree : Outcome (list CrushNode) }.

(** Everything outside the program: the network, the resolver, the clock,
    the interpreter's limits, and the two constants of [calamari.settings]
    (not part of this command). *)
Record Env := {
  (** [socket.gethostbyaddr]: canonical name and aliases, or [None] for
      [socket.error] *)
  gethostbyaddr : string -> option (string * list string);
  (** [socket.create_connection((host, port), timeout)]: [None] when the
      connection is established, the exception otherwise *)
  create_connection : string -> Z -> option exn;
  (** [sock.close()] on the socket connected to (host, port) *)
  sock_close : string -> Z -> option exn;
  CRUSH_OSD_TYPE : string;
  CRUSH_HOST_TYPE : string;
  (** depth at which the interpreter gives up a recursion *)
  recursion_limit : nat;
  (** [traceback.format_exc()] *)
  format_exc : exn -> string;
  (** the REST server behind a base URL *)
  rest_api : string -> Telemetry;
  (** [datetime.utcnow()] at the start of the [n]-th iteration of [handle] *)
  utcnow : nat -> Z }.

(* ===================================================================== *)
(** ** The Django models and the ORM calls made on them *)
(* ===================================================================== *)

(** [ServiceStatus.OSD] and [ServiceStatus.MON] *)
Inductive ServiceType := OSD | MON.

Definition ServiceType_eqb (a b : ServiceType) : bool :=
  match a, b with
  | OSD, OSD | MON, MON => true
  | _, _ => false
  end.

(** Modelled from the spec: [ceph.models.Server] is declared outside this
    command.  A server row belongs to a cluster and has a network address,
    unique per cluster and address, a best-effort display name and a
    best-effort hostname; [srv_id] is Django's primary key. *)
Record Server := {
  srv_id : Z; srv_cluster : Z; srv_addr : string;
  srv_name : option string; srv_hostname : option string }.

(** Modelled from the spec: [ceph.models.ServiceStatus] is declared outside
    this command.  A row has an owning server (a foreign key), a service kind,
    a service identity (OSD number or monitor rank) and a display name. *)
Record ServiceStatus := {
  ss_id : Z; ss_server : Z; ss_type : ServiceType; ss_service_id : Z;
  ss_name : option string }.

(** Modelled from the spec: [ceph.models.Pool] is declared outside this
    command.  Pool identity, name, quota (max bytes, max objects), used bytes
    and objects, keyed by pool identity within a cluster. *)
Record Pool := {
  p_pk : Z; p_cluster_id : Z; p_pool_id : Z; p_name : string;
  p_quota_max_bytes : Z; p_quota_max_objects : Z;
  p_used_bytes : Z; p_used_objects : Z }.

(** The snapshot stored on a cluster. *)
Record Space := { used_bytes : Z; capacity_bytes : Z; free_bytes : Z }.
Record Health := { h_overall_status : json; h_detail : json; h_summary : json }.
Record PgRecord := {
  pg_pgid : string; pg_acting : list Z; pg_up_set : list Z; pg_states : list string }.
Record OsdRecord := {
  o_id : Z; o_uuid : string; o_up : Z; o_in : Z; o_up_from : Z;
  o_public_addr : string; o_cluster_addr : string;
  o_heartbeat_back_addr : string; o_heartbeat_front_addr : string;
  o_pg_states : gmap string Z; o_pg_count : Z; o_pools : list string;
  o_host : string }.
Record Bucket := { count : Z; states : gmap string Z }.
Record Severity := { ok : Bucket; warn : Bucket; critical : Bucket }.
Record MdsCounters := {
  mds_total : Z; mds_up_in : Z; mds_up_not_in : Z; mds_not_up_not_in : Z }.
Record Counters := {
  c_pool : gmap string Z; c_osd : Severity; c_mds : MdsCounters;
  c_mon : Severity; c_pg : Severity }.

(** Modelled from the spec: [ceph.models.Cluster] is declared outside this
    command.  The cluster aggregate carries the snapshot fields and the
    refresh bookkeeping: last successful update time, last attempt time,
    last error flag and message. *)
Record Cluster := {
  cl_id : Z; cl_name : string; api_base_url : string;
  space : option Space;
  health : option Health;
  osds : option (list OsdRecord);
  pgs : option (list PgRecord);
  osds_by_pg_state : option (gmap string (list Z));
  counters : option Counters;
  cluster_update_time : option Z;
  cluster_update_error_isclient : bool;
  cluster_update_error_msg : option string;
  cluster_update_attempt_time : option Z }.

(** The database: one list of rows per table, and the next primary key of
    each table with an auto-incremented key. *)
Record Store := {
  servers : list Server;
  services : list ServiceStatus;
  pools : list Pool;
  clusters : list Cluster;
  next_server_pk : Z;
  next_service_pk : Z;
  next_pool_pk : Z }.

Definition set_servers (f : list Server -> list Server) (d : Store) : Store :=
  {| servers := f (servers d); services := services d; pools := pools d;
     clusters := clusters d; next_server_pk := next_server_pk d;
     next_service_pk := next_service_pk d; next_pool_pk := next_pool_pk d |}.
Definition set_services (f : list ServiceStatus -> list ServiceStatus) (d : Store) : Store :=
  {| servers := servers d; services := f (services d); pools := pools d;
     clusters := clusters d; next_server_pk := next_server_pk d;
     next_service_pk := next_service_pk d; next_pool_pk := next_pool_pk d |}.
Definition set_pools (f : list Pool -> list Pool) (d : Store) : Store :=
  {| servers := servers d; services := services d; pools := f (pools d);
     clusters := clusters d; next_server_pk := next_server_pk d;
     next_service_pk := next_service_pk d; next_pool_pk := next_pool_pk d |}.
Definition set_clusters (f : list Cluster -> list Cluster) (d : Store) : Store :=
  {| servers := servers d; services := services d; pools := pools d;
     clusters := f (clusters d); next_server_pk := next_server_pk d;
     next_service_pk := next_service_pk d; next_pool_pk := next_pool_pk d |}.

Module Models.

(** [row.save()]: UPDATE the row with this primary key; INSERT when there
    is none. *)
Definition save_row {R} (pk : R -> Z) (r : R) (rows : list R) : list R :=
  if existsb (fun x => pk x =? pk r) rows
  then map (fun x => if pk x =? pk r then r else x) rows
  else rows ++ [r].

(** [QuerySet.delete()] of the rows selected by [sel]. *)
Definition delete_rows {R} (sel : R -> bool) (rows : list R) : list R :=
  List.filter (fun x => negb (sel x)) rows.

(** [Server.objects.get_or_create(cluster=c, addr=a)] *)
Definition Server_get_or_create (cid : Z) (a : string) : M Store (Server * bool) :=
  fun d =>
    match List.filter (fun s => (srv_cluster s =? cid) && String.eqb (srv_addr s) a)
                      (servers d) with
    | [] =>
        let s := {| srv_id := next_server_pk d; srv_cluster := cid; srv_addr := a;
                    srv_name := None; srv_hostname := None |} in
        (Return (s, true),
         {| servers := servers d ++ [s]; services := services d; pools := pools d;
            clusters := clusters d; next_server_pk := next_server_pk d + 1;
            next_service_pk := next_service_pk d; next_pool_pk := next_pool_pk d |})
    | [s] => (Return (s, false), d)
    | _ => (Raise (Exn MultipleObjectsReturned "Server"), d)
    end.

(** [ServiceStatus.objects.get_or_create(server=s, type=t, service_id=i)] *)
Definition ServiceStatus_get_or_create (s : Server) (t : ServiceType) (i : Z)
  : M Store (ServiceStatus * bool) :=
  fun d =>
    match List.filter (fun x => (ss_server x =? srv_id s)
                                && ServiceType_eqb (ss_type x) t
                                && (ss_service_id x =? i))
                      (services d) with
    | [] =>
        let x := {| ss_id := next_service_pk d; ss_server := srv_id s; ss_type := t;
                    ss_service_id := i; ss_name := None |} in
        (Return (x, true),
         {| servers := servers d; services := services d ++ [x]; pools := pools d;
            clusters := clusters d; next_server_pk := next_server_pk d;
            next_service_pk := next_service_pk d + 1; next_pool_pk := next_pool_pk d |})
    | [x] => (Return (x, false), d)
    | _ => (Raise (Exn MultipleObjectsReturned "ServiceStatus"), d)
    end.

(** The join [server__cluster=c] on a service row. *)
Definition server_cluster_is (d : Store) (cid : Z) (x : ServiceStatus) : bool :=
  existsb (fun s => (srv_id s =? ss_server x) && (srv_cluster s =? cid)) (servers d).

(** [Server.objects.filter(addr__in=addrs).delete()]; the rows of
    [ServiceStatus] owned by a deleted server go with it (the default of a
    Django foreign key). *)
Definition Server_delete_addr_in (addrs : gset string) (d : Store) : Store :=
  let gone := List.filter (fun s => bool_decide (srv_addr s ∈ addrs)) (servers d) in
  let owned x := existsb (fun s => srv_id s =? ss_server x) gone in
  set_services (delete_rows owned)
    (set_servers (delete_rows (fun s => bool_decide (srv_addr s ∈ addrs))) d).

(** [Pool.objects.create(cluster_id=c, pool_id=i, **attrs)] *)
Definition Pool_create (mk : Z -> Pool) (d : Store) : Store :=
  {| servers := servers d; services := services d;
     pools := pools d ++ [mk (next_pool_pk d)];
     clusters := clusters d; next_server_pk := next_server_pk d;
     next_service_pk := next_service_pk d; next_pool_pk := next_pool_pk d + 1 |}.

End Models.

(* ===================================================================== *)
(** ** [ModelAdapter]: the monitor probe *)
(* ===================================================================== *)

(** Addresses to ignore during monitor ping test *)
Definition _MON_ADDR_IGNORES : list string := ["0.0.0.0"; "0:0:0:0:0:0:0:0"; "::"].

Module Re.

(** The longest run [\d*] at the head of [s], and what follows it. *)
Fixpoint span_digits (s : string) : string * string :=
  match s with
  | EmptyString => (EmptyString, EmptyString)
  | String c s' =>
      if PyStr.is_digit c
      then let '(d, r) := span_digits s' in (String c d, r)
      else (EmptyString, s)
  end.

(** [\d+] followed by the literal character [lit]. *)
Definition digits_then (lit : ascii) (s : string) : option (string * string) :=
  match span_digits s with
  | (EmptyString, _) => None
  | (d, String c r) => if Ascii.eqb c lit then Some (d, r) else None
  | (_, EmptyString) => None
  end.

(** [re.match(r"(?P<addr>\d+\.\d+\.\d+\.\d+):(?P<port>\d+)\/", s)]: the
    groups [addr] and [port].  A run of digits is always followed by a
    literal that is not a digit, so the greedy match is the only one. *)
Definition match_IPV4 (s : string) : option (string * string) :=
  match digits_then "." s with
  | Some (a, r1) =>
      match digits_then "." r1 with
      | Some (b, r2) =>
          match digits_then "." r2 with
          | Some (c, r3) =>
              match digits_then ":" r3 with
              | Some (d, r4) =>
                  match digits_then "/" r4 with
                  | Some (p, _) => Some (a ++ "." ++ b ++ "." ++ c ++ "." ++ d, p)
                  | None => None
                  end
              | None => None
              end
          | None => None
          end
      | None => None
      end
  | None => None
  end.

(** The tail [\]:(?P<port>\d+)\/] of the IPv6 pattern. *)
Definition match_IPV6_tail (s : string) : option string :=
  match s with
  | String "]" (String ":" r) =>
      match digits_then "/" r with
      | Some (p, _) => Some p
      | None => None
      end
  | _ => None
  end.

(** [(?P<addr>\S+)] followed by the tail: [\S+] is greedy, so the longest
    run of non-blank characters after which the tail matches is taken; the
    shorter ones are tried on backtracking. *)
Fixpoint match_IPV6_addr (s : string) : option (string * string) :=
  match s with
  | EmptyString => None
  | String c s' =>
      if PyStr.is_space c then None
      else match match_IPV6_addr s' with
           | Some (a, p) => Some (String c a, p)
           | None =>
               match match_IPV6_tail s' with
               | Some p => Some (String c EmptyString, p)
               | None => None
               end
           end
  end.

(** [re.match(r"\[(?P<addr>\S+)\]:(?P<port>\d+)\/", s)] *)
Definition match_IPV6 (s : string) : option (string * string) :=
  match s with
  | String "[" r => match_IPV6_addr r
  | _ => None
  end.

End Re.

(** What the probe does on the network. *)
Inductive event :=
  | EvConnect (host : string) (port : Z)
  | EvClose (host : string) (port : Z).

Section Probe.
Variable E : Env.

(** [m = re.match(_IPV4_RE, addr)]; [if not m: m = re.match(_IPV6_RE, addr)] *)
Definition mon_addr_match (addr : string) : option (string * string) :=
  match Re.match_IPV4 addr with
  | Some g => Some g
  | None => Re.match_IPV6 addr
  end.

(** The body of the [try] block: its outcome, the socket left in [sock]
    (named by its peer), and the network events. *)
Definition try_mon_connect_body (m : option (string * string))
  : Outcome bool * option (string * Z) * list event :=
  match m with
  | None => (Raise (Exn AttributeError "group"), None, [])
  | Some (addr, port_text) =>
      match PyStr.to_int port_text with
      | None => (Raise (Exn ValueError "int"), None, [])
      | Some port =>
          if existsb (String.eqb addr) _MON_ADDR_IGNORES
          then (Return false, None, [])
          else match create_connection E addr port with
               | None => (Return true, Some (addr, port), [EvConnect addr port])
               | Some e => (Raise e, None, [EvConnect addr port])
               end
      end
  end.

(** [except Exception as e: return False] *)
Definition except_Exception_return_False (o : Outcome bool) : Outcome bool :=
  match o with
  | Return b => Return b
  | Raise e => if is_Exception e then Return false else Raise e
  end.

(** The [finally] block: [if sock: try: sock.close() except Exception: pass].
    It yields the exception that escapes it, if any, and its events. *)
Definition try_mon_connect_finally (sock : option (string * Z))
  : option exn * list event :=
  match sock with
  | None => (None, [])
  | Some (h, p) =>
      match sock_close E h p with
      | None => (None, [EvClose h p])
      | Some e => (if is_Exception e then None else Some e, [EvClose h p])
      end
  end.

(** [try_mon_connect(mon)] *)
Definition try_mon_connect (mon : Mon) : Outcome bool * list event :=
  let m := mon_addr_match (mon_addr mon) in
  let '(o, sock, evs) := try_mon_connect_body m in
  let o := except_Exception_return_False o in
  let '(escaped, evs') := try_mon_connect_finally sock in
  match escaped with
  | Some e => (Raise e, (evs ++ evs')%list)
  | None => (o, (evs ++ evs')%list)
  end.

End Probe.

(* ===================================================================== *)
(** ** [ModelAdapter]: the classifiers *)
(* ===================================================================== *)

Definition CRIT_STATES : gset string :=
  list_to_set ["stale"; "down"; "peering"; "inconsistent"; "incomplete"].
Definition WARN_STATES : gset string :=
  list_to_set ["creating"; "recovery_wait"; "recovering"; "replay";
               "splitting"; "degraded"; "remapped"; "scrubbing"; "repair";
               "wait_backfill"; "backfilling"; "backfill_toofull"].
Definition OKAY_STATES : gset string := list_to_set ["active"; "clean"].

(** Python truthiness of a JSON number. *)
Definition truthy (n : Z) : bool := negb (n =? 0).

(** [d[k] += n] on a [defaultdict(int)] *)
Definition add_at (n : Z) (k : string) (d : gmap string Z) : gmap string Z :=
  <[k := default 0 (d !! k) + n]> d.

(** [{} if n == 0 else {label: n}] *)
Definition states_if_nonzero (label : string) (n : Z) : gmap string Z :=
  if n =? 0 then ∅ else {[label := n]}.

Definition empty_bucket : Bucket := {| count := 0; states := ∅ |}.

(** [_pg_counter_helper(states, classifier, count, stats)]: whether some
    label matched, and [stats] after the call. *)
Definition _pg_counter_helper (sts : list string) (classifier : gset string)
    (n : Z) (stats : Bucket) : bool * Bucket :=
  let matched_states : gset string := classifier ∩ list_to_set sts in
  if bool_decide (0 < size matched_states)%nat
  then (true, {| count := count stats + n;
                 states := set_fold (add_at n) (states stats) matched_states |})
  else (false, stats).

(** [map(lambda s: s.lower(), pg_state['state_name'].split("+"))] *)
Definition pg_state_labels (name : string) : list string :=
  map PyStr.lower (PyStr.split "+" name).

(** One turn of the loop of [_calculate_pg_counters] over [pgs_by_state];
    the three buckets are kept in the order (ok, warn, crit). *)
Definition pg_counters_step (acc : Bucket * Bucket * Bucket) (pg : PgByState)
    : Bucket * Bucket * Bucket :=
  let '(ok_, warn_, crit_) := acc in
  let n := pbs_count pg in
  let sts := pg_state_labels (state_name pg) in
  let '(hit, crit') := _pg_counter_helper sts CRIT_STATES n crit_ in
  if hit then (ok_, warn_, crit')
  else
    let '(hit, warn') := _pg_counter_helper sts WARN_STATES n warn_ in
    if hit then (ok_, warn', crit_)
    else
      let '(_, ok') := _pg_counter_helper sts OKAY_STATES n ok_ in
      (ok', warn_, crit_).

(** [_calculate_pg_counters()] on the [pgmap] of the status document *)
Definition _calculate_pg_counters (pgs : list PgByState) : Severity :=
  let '(ok_, warn_, crit_) :=
    fold_left pg_counters_step pgs (empty_bucket, empty_bucket, empty_bucket) in
  {| ok := ok_; warn := warn_; critical := crit_ |}.

(** The tallies kept while [_calculate_osd_counters] walks the OSD list. *)
Record OsdTally := {
  total : Z; not_up_not_in : Z; not_up_in : Z; up_not_in : Z; up_in : Z }.

Definition osd_tally_step (c : OsdTally) (o : Osd) : OsdTally :=
  let u := truthy (up o) in
  let i := truthy (in_ o) in
  if negb u && negb i then
    {| total := total c; not_up_not_in := not_up_not_in c + 1;
       not_up_in := not_up_in c; up_not_in := up_not_in c; up_in := up_in c |}
  else if negb u && i then
    {| total := total c; not_up_not_in := not_up_not_in c;
       not_up_in := not_up_in c + 1; up_not_in := up_not_in c; up_in := up_in c |}
  else if u && negb i then
    {| total := total c; not_up_not_in := not_up_not_in c;
       not_up_in := not_up_in c; up_not_in := up_not_in c + 1; up_in := up_in c |}
  else if u && i then
    {| total := total c; not_up_not_in := not_up_not_in c;
       not_up_in := not_up_in c; up_not_in := up_not_in c; up_in := up_in c + 1 |}
  else c.

Definition osd_tally (os : list Osd) : OsdTally :=
  fold_left osd_tally_step os
    {| total := Z.of_nat (length os); not_up_not_in := 0; not_up_in := 0;
       up_not_in := 0; up_in := 0 |}.

(** [_calculate_osd_counters()] on the OSD list of the OSD map *)
Definition _calculate_osd_counters (os : list Osd) : Severity :=
  let c := osd_tally os in
  let warn_count := up_not_in c + not_up_in c in
  let warn_states : gmap string Z := ∅ in
  let warn_states :=
    if 0 <? up_not_in c then <["up/out" := up_not_in c]> warn_states else warn_states in
  let warn_states :=
    if 0 <? not_up_in c then <["down/in" := not_up_in c]> warn_states else warn_states in
  {| ok := {| count := up_in c; states := states_if_nonzero "up/in" (up_in c) |};
     warn := {| count := warn_count;
                states := if warn_count =? 0 then ∅ else warn_states |};
     critical := {| count := not_up_not_in c;
                    states := states_if_nonzero "down/out" (not_up_not_in c) |} |}.

(** [_calculate_mds_counters()] on the [mdsmap] of the status document *)
Definition _calculate_mds_counters (m : MdsMap) : MdsCounters :=
  {| mds_total := mds_max m; mds_up_in := mds_in m;
     mds_up_not_in := mds_up m - mds_in m;
     mds_not_up_not_in := mds_max m - mds_up m |}.

Definition pool_counter_fields : gset string :=
  list_to_set ["num_objects_unfound"; "num_objects_missing_on_primary";
               "num_deep_scrub_errors"; "num_shallow_scrub_errors";
               "num_scrub_errors"; "num_objects_degraded"].

(** [_calculate_pool_counters()] on the [stat_sum] blocks of the pools *)
Definition _calculate_pool_counters (stat_sums : list (gmap string Z)) : gmap string Z :=
  let counts :=
    fold_left (fun counts stat_sum =>
                 map_fold (fun key value counts => add_at (Z.min value 1) key counts)
                          counts stat_sum)
              stat_sums ∅ in
  let counts := filter (fun kv => fst kv ∈ pool_counter_fields) counts in
  <["total" := Z.of_nat (length stat_sums)]> counts.

Section MonCounters.
Variable E : Env.

(** The loop of [_calculate_mon_counters]: (ok, warn, crit).  The probe
    is asked only for monitors outside the quorum; what escapes it ends
    the loop. *)
Fixpoint mon_tally (qrm : list Z) (mons : list Mon) (acc : Z * Z * Z)
  : Outcome (Z * Z * Z) :=
  match mons with
  | [] => Return acc
  | mon :: rest =>
      let '(n_ok, n_warn, n_crit) := acc in
      if existsb (Z.eqb (rank mon)) qrm
      then mon_tally qrm rest (n_ok + 1, n_warn, n_crit)
      else match fst (try_mon_connect E mon) with
           | Return true => mon_tally qrm rest (n_ok, n_warn + 1, n_crit)
           | Return false => mon_tally qrm rest (n_ok, n_warn, n_crit + 1)
           | Raise e => Raise e
           end
  end.

(** [_calculate_mon_counters()] on the status document *)
Definition _calculate_mon_counters (st : StatusDoc) : Outcome Severity :=
  match mon_tally (quorum st) (status_mons st) (0, 0, 0) with
  | Raise e => Raise e
  | Return (n_ok, n_warn, n_crit) =>
      Return {| ok := {| count := n_ok; states := states_if_nonzero "in" n_ok |};
                warn := {| count := n_warn; states := states_if_nonzero "up" n_warn |};
                critical := {| count := n_crit; states := states_if_nonzero "out" n_crit |} |}
  end.

End MonCounters.

(* ===================================================================== *)
(** ** [ModelAdapter]: the registry of servers and services *)
(* ===================================================================== *)

(** What a [ModelAdapter] works on: the database, the [Cluster] object it
    was given (shared with [Command.handle]), and its two private fields. *)
Record St := {
  db : Store;
  cluster : Cluster;
  _crush_osd_hostnames : option (gmap string string);
  _osd_name_to_server : gmap string Server }.

Definition on_db (f : Store -> Store) (s : St) : St :=
  {| db := f (db s); cluster := cluster s;
     _crush_osd_hostnames := _crush_osd_hostnames s;
     _osd_name_to_server := _osd_name_to_server s |}.
Definition on_cluster (f : Cluster -> Cluster) (s : St) : St :=
  {| db := db s; cluster := f (cluster s);
     _crush_osd_hostnames := _crush_osd_hostnames s;
     _osd_name_to_server := _osd_name_to_server s |}.
Definition on_crush (f : option (gmap string string) -> option (gmap string string))
    (s : St) : St :=
  {| db := db s; cluster := cluster s;
     _crush_osd_hostnames := f (_crush_osd_hostnames s);
     _osd_name_to_server := _osd_name_to_server s |}.
Definition on_osd_name_to_server (f : gmap string Server -> gmap string Server)
    (s : St) : St :=
  {| db := db s; cluster := cluster s;
     _crush_osd_hostnames := _crush_osd_hostnames s;
     _osd_name_to_server := f (_osd_name_to_server s) |}.

(** Run an ORM call on the database inside the adapter's state. *)
Definition orm {A} (m : M Store A) : M St A :=
  fun s => let '(o, d) := m (db s) in (o, on_db (fun _ => d) s).

Definition set_srv_hostname (h : option string) (s : Server) : Server :=
  {| srv_id := srv_id s; srv_cluster := srv_cluster s; srv_addr := srv_addr s;
     srv_name := srv_name s; srv_hostname := h |}.
Definition set_srv_name (n : option string) (s : Server) : Server :=
  {| srv_id := srv_id s; srv_cluster := srv_cluster s; srv_addr := srv_addr s;
     srv_name := n; srv_hostname := srv_hostname s |}.
Definition set_ss_name (n : option string) (x : ServiceStatus) : ServiceStatus :=
  {| ss_id := ss_id x; ss_server := ss_server x; ss_type := ss_type x;
     ss_service_id := ss_service_id x; ss_name := n |}.

(** [_short_addr(addr)]: a Ceph 192.168.0.1:6800/0 address into a naked IP
    address. *)
Definition _short_addr (addr : string) : string :=
  if PyStr.startswith "[" addr
  then (* ipv6: [<addr>]:port/nonce *)
    PyStr.tail1 (PyStr.split0 "]:" addr)
  else (* ipv4: addr:port/nonce *)
    PyStr.split0 ":" addr.

Section Registry.
Variable E : Env.
Variable T : Telemetry.

(** [dict((n["id"], n) for n in nodes)]: a later node replaces an earlier
    one with the same id. *)
Definition nodes_by_id_of (nodes : list CrushNode) : gmap Z CrushNode :=
  fold_left (fun m n => <[node_id n := n]> m) nodes ∅.

(** [find_descendants(cursor, fn)] with [fn = lambda c: c['type'] ==
    CRUSH_OSD_TYPE]; [fuel] is the depth the interpreter still allows. *)
Fixpoint find_descendants (fuel : nat) (nodes_by_id : gmap Z CrushNode)
    (cursor : CrushNode) : Outcome (list CrushNode) :=
  match fuel with
  | O => Raise (Exn RuntimeError "maximum recursion depth exceeded")
  | S fuel' =>
      if String.eqb (node_type cursor) (CRUSH_OSD_TYPE E)
      then Return [cursor]
      else
        match node_children cursor with
        | None => Raise (Exn KeyError "children")
        | Some children =>
            fold_left
              (fun (found : Outcome (list CrushNode)) child_id =>
                 match found with
                 | Raise e => Raise e
                 | Return fs =>
                     match nodes_by_id !! child_id with
                     | None => Raise (Exn KeyError "nodes_by_id")
                     | Some child =>
                         match find_descendants fuel' nodes_by_id child with
                         | Raise e => Raise e
                         | Return ds => Return (fs ++ ds)%list
                         end
                     end
                 end)
              children (Return [])
        end
  end.

(** The loop of the [crush_osd_hostnames] property over the tree nodes. *)
Definition crush_hosts_step (nodes_by_id : gmap Z CrushNode) (node : CrushNode)
  : M St unit :=
  if String.eqb (node_type node) (CRUSH_HOST_TYPE E) then
    let host := node_name node in
    if String.eqb host "localhost" then ret tt
    else
      found <- lift (find_descendants (recursion_limit E) nodes_by_id node);;
      for_each found (fun o =>
        modify (on_crush (fun c => Some (<[node_name o := host]> (default ∅ c)))))
  else ret tt.

(** The [crush_osd_hostnames] property: computed on first use. *)
Definition crush_osd_hostnames : M St (gmap string string) :=
  s <- get;;
  match _crush_osd_hostnames s with
  | Some c => ret c
  | None =>
      osd_tree <- lift (get_osd_tree T);;
      let nodes_by_id := nodes_by_id_of osd_tree in
      modify (on_crush (fun _ => Some ∅));;;
      for_each osd_tree (crush_hosts_step nodes_by_id);;;
      s' <- get;;
      ret (default ∅ (_crush_osd_hostnames s'))
  end.

(** [_reverse_dns(addr)] *)
Definition _reverse_dns (addr : string) : option string :=
  match gethostbyaddr E addr with
  | None => None
  | Some (hostname, aliaslist) =>
      let osd_names := (aliaslist ++ [hostname])%list in
      let osd_shortnames :=
        List.filter (fun name => negb (PyStr.contains_char "." name)) osd_names in
      match osd_shortnames with
      | short :: _ => Some short
      | [] =>
          match osd_names with
          | first :: _ => Some (PyStr.split0 "." first)
          | [] => None
          end
      end
  end.

Definition save_server (server : Server) : M St unit :=
  modify (on_db (set_servers (Models.save_row srv_id server))).

(** The guesses at a server's hostname when a service is first seen on
    it; the result is the [server] object after the branch. *)
Definition guess_hostname (service_addr : string) (service_type : ServiceType)
    (name : string) (server : Server) : M St Server :=
  match srv_hostname server with
  | Some _ => ret server
  | None =>
      match service_type with
      | OSD =>
          crush <- crush_osd_hostnames;;
          let server := set_srv_hostname (crush !! name) server in
          if match srv_hostname server with
             | None => true
             | Some h => String.eqb h "localhost"
             end
          then
            let hostname := default "localhost" (_reverse_dns service_addr) in
            let server := set_srv_hostname (Some hostname) server in
            let server := set_srv_name (srv_hostname server) server in
            save_server server;;; ret server
          else
            let server := set_srv_name (srv_hostname server) server in
            save_server server;;; ret server
      | MON =>
          match _reverse_dns service_addr with
          | Some hostname =>
              let server := set_srv_hostname (Some hostname) server in
              let server := set_srv_name (srv_hostname server) server in
              save_server server;;; ret server
          | None =>
              let server := set_srv_name (Some name) server in
              save_server server;;; ret server
          end
      end
  end.

(** [_register_service(service_addr, service_type, service_id, name)] *)
Definition _register_service (service_addr : string) (service_type : ServiceType)
    (service_id : Z) (name : string) : M St ServiceStatus :=
  s0 <- get;;
  let cid := cl_id (cluster s0) in
  sc <- orm (Models.Server_get_or_create cid service_addr);;
  let server := fst sc in
  xc <- orm (Models.ServiceStatus_get_or_create server service_type service_id);;
  let service_status := fst xc in
  let created := snd xc in
  r <- (if created then
          let service_status := set_ss_name (Some name) service_status in
          modify (on_db (set_services (Models.save_row ss_id service_status)));;;
          modify (on_db (fun d =>
            set_services
              (Models.delete_rows (fun x =>
                 negb (ss_server x =? srv_id server)
                 && Models.server_cluster_is d cid x
                 && ServiceType_eqb (ss_type x) OSD
                 && (ss_service_id x =? service_id))) d));;;
          server <- guess_hostname service_addr service_type name server;;
          let server :=
            match srv_name server with
            | None => set_srv_name (Some service_addr) server
            | Some _ => server
            end in
          ret (service_status, server)
        else ret (service_status, server));;
  let service_status := fst r in
  let server := snd r in
  match service_type with
  | OSD => modify (on_osd_name_to_server (<[name := server]>))
  | MON => ret tt
  end;;;
  ret service_status.

(** The two sets of deletion candidates of [_refresh_servers]. *)
Definition candidates : Type := gset Z * gset string.

Definition register_osd (old : candidates) (o : Osd) : M St candidates :=
  let addr := _short_addr (PyStr.split0 ":" (public_addr o)) in
  let osd_name := "osd." ++ PyStr.of_Z (osd o) in
  service_status <- _register_service addr OSD (osd o) osd_name;;
  ret (fst old ∖ {[ss_id service_status]}, snd old ∖ {[addr]}).

Definition register_mon (old : candidates) (m : Mon) : M St candidates :=
  let addr := _short_addr (PyStr.split0 ":" (mon_addr m)) in
  service_status <- _register_service addr MON (rank m) ("mon." ++ mon_name m);;
  ret (fst old ∖ {[ss_id service_status]}, snd old ∖ {[addr]}).

(** A [for] loop that threads local variables. *)
Fixpoint for_fold {A B} (xs : list A) (body : B -> A -> M St B) (b : B) : M St B :=
  match xs with
  | [] => ret b
  | x :: xs' => b' <- body b x;; for_fold xs' body b'
  end.

(** [_refresh_servers()] *)
Definition _refresh_servers : M St unit :=
  mon_status <- lift (get_mon_status T);;
  osd_map <- lift (get_osds T);;
  s <- get;;
  let cid := cl_id (cluster s) in
  let old_service_status_ids : gset Z :=
    list_to_set (map ss_id
      (List.filter (Models.server_cluster_is (db s) cid) (services (db s)))) in
  let old_server_addrs : gset string :=
    list_to_set (map srv_addr
      (List.filter (fun x => srv_cluster x =? cid) (servers (db s)))) in
  old <- for_fold (od_osds osd_map) register_osd
           (old_service_status_ids, old_server_addrs);;
  old <- for_fold (monmap_mons mon_status) register_mon old;;
  (* Clear out any services that were not seen in the maps *)
  modify (on_db (set_services
    (Models.delete_rows (fun x => bool_decide (ss_id x ∈ fst old)))));;;
  (* Clear out any servers that no services were reported on *)
  modify (on_db (Models.Server_delete_addr_in (snd old))).

End Registry.

(* ===================================================================== *)
(** ** [ModelAdapter]: the populate steps *)
(* ===================================================================== *)

Definition set_space (v : option Space) (c : Cluster) : Cluster :=
  {| cl_id := cl_id c; cl_name := cl_name c; api_base_url := api_base_url c;
     space := v; health := health c; osds := osds c; pgs := pgs c;
     osds_by_pg_state := osds_by_pg_state c; counters := counters c;
     cluster_update_time := cluster_update_time c;
     cluster_update_error_isclient := cluster_update_error_isclient c;
     cluster_update_error_msg := cluster_update_error_msg c;
     cluster_update_attempt_time := cluster_update_attempt_time c |}.
Definition set_health (v : option Health) (c : Cluster) : Cluster :=
  {| cl_id := cl_id c; cl_name := cl_name c; api_base_url := api_base_url c;
     space := space c; health := v; osds := osds c; pgs := pgs c;
     osds_by_pg_state := osds_by_pg_state c; counters := counters c;
     cluster_update_time := cluster_update_time c;
     cluster_update_error_isclient := cluster_update_error_isclient c;
     cluster_update_error_msg := cluster_update_error_msg c;
     cluster_update_attempt_time := cluster_update_attempt_time c |}.
Definition set_osds (v : option (list OsdRecord)) (c : Cluster) : Cluster :=
  {| cl_id := cl_id c; cl_name := cl_name c; api_base_url := api_base_url c;
     space := space c; health := health c; osds := v; pgs := pgs c;
     osds_by_pg_state := osds_by_pg_state c; counters := counters c;
     cluster_update_time := cluster_update_time c;
     cluster_update_error_isclient := cluster_update_error_isclient c;
     cluster_update_error_msg := cluster_update_error_msg c;
     cluster_update_attempt_time := cluster_update_attempt_time c |}.
Definition set_pgs (v : option (list PgRecord)) (c : Cluster) : Cluster :=
  {| cl_id := cl_id c; cl_name := cl_name c; api_base_url := api_base_url c;
     space := space c; health := health c; osds := osds c; pgs := v;
     osds_by_pg_state := osds_by_pg_state c; counters := counters c;
     cluster_update_time := cluster_update_time c;
     cluster_update_error_isclient := cluster_update_error_isclient c;
     cluster_update_error_msg := cluster_update_error_msg c;
     cluster_update_attempt_time := cluster_update_attempt_time c |}.
Definition set_osds_by_pg_state (v : option (gmap string (list Z))) (c : Cluster) : Cluster :=
  {| cl_id := cl_id c; cl_name := cl_name c; api_base_url := api_base_url c;
     space := space c; health := health c; osds := osds c; pgs := pgs c;
     osds_by_pg_state := v; counters := counters c;
     cluster_update_time := cluster_update_time c;
     cluster_update_error_isclient := cluster_update_error_isclient c;
     cluster_update_error_msg := cluster_update_error_msg c;
     cluster_update_attempt_time := cluster_update_attempt_time c |}.
Definition set_counters (v : option Counters) (c : Cluster) : Cluster :=
  {| cl_id := cl_id c; cl_name := cl_name c; api_base_url := api_base_url c;
     space := space c; health := health c; osds := osds c; pgs := pgs c;
     osds_by_pg_state := osds_by_pg_state c; counters := v;
     cluster_update_time := cluster_update_time c;
     cluster_update_error_isclient := cluster_update_error_isclient c;
     cluster_update_error_msg := cluster_update_error_msg c;
     cluster_update_attempt_time := cluster_update_attempt_time c |}.
(** The four bookkeeping fields at once. *)
Definition set_bookkeeping (t : option Z) (isclient : bool) (msg : option string)
    (attempt : option Z) (c : Cluster) : Cluster :=
  {| cl_id := cl_id c; cl_name := cl_name c; api_base_url := api_base_url c;
     space := space c; health := health c; osds := osds c; pgs := pgs c;
     osds_by_pg_state := osds_by_pg_state c; counters := counters c;
     cluster_update_time := t;
     cluster_update_error_isclient := isclient;
     cluster_update_error_msg := msg;
     cluster_update_attempt_time := attempt |}.

(** The per-OSD indexes built by [_populate_osds_and_pgs]. *)
Record PgIndexes := {
  pg_states_by_osd : gmap Z (gmap string Z);
  pg_counts_by_osd : gmap Z Z;
  pools_by_osd : gmap Z (gset string);
  osds_by_pg_state_idx : gmap string (gset Z) }.

Definition empty_indexes : PgIndexes :=
  {| pg_states_by_osd := ∅; pg_counts_by_osd := ∅; pools_by_osd := ∅;
     osds_by_pg_state_idx := ∅ |}.

(** [fixup_pg(pg)] *)
Definition fixup_pg (pg : PgBrief) : PgRecord :=
  {| pg_pgid := pgid pg; pg_acting := acting pg; pg_up_set := pg_up pg;
     pg_states := PyStr.split "+" (pg_state pg) |}.

(** The body of [for state in pg['state']] for one state. *)
Definition index_state (pools_by_id : gmap Z string) (pool_id : Z)
    (acting_set : gset Z) (ix : PgIndexes) (state : string) : PgIndexes :=
  let obs := <[state := default ∅ (osds_by_pg_state_idx ix !! state) ∪ acting_set]>
               (osds_by_pg_state_idx ix) in
  set_fold
    (fun osd_id ix =>
       {| pg_states_by_osd :=
            <[osd_id := add_at 1 state (default ∅ (pg_states_by_osd ix !! osd_id))]>
              (pg_states_by_osd ix);
          pg_counts_by_osd := pg_counts_by_osd ix;
          pools_by_osd :=
            match pools_by_id !! pool_id with
            | Some pname =>
                <[osd_id := default ∅ (pools_by_osd ix !! osd_id) ∪ {[pname]}]>
                  (pools_by_osd ix)
            | None => pools_by_osd ix
            end;
          osds_by_pg_state_idx := osds_by_pg_state_idx ix |})
    {| pg_states_by_osd := pg_states_by_osd ix;
       pg_counts_by_osd := pg_counts_by_osd ix;
       pools_by_osd := pools_by_osd ix;
       osds_by_pg_state_idx := obs |}
    acting_set.

(** The body of [for pg in self.cluster.pgs]. *)
Definition index_pg (pools_by_id : gmap Z string) (ix : PgIndexes) (pg : PgRecord)
    : Outcome PgIndexes :=
  match PyStr.to_int (PyStr.split0 "." (pg_pgid pg)) with
  | None => Raise (Exn ValueError "int")
  | Some pool_id =>
      let acting_set : gset Z := list_to_set (pg_acting pg) in
      let counts :=
        set_fold (fun osd_id m => <[osd_id := default 0 (m !! osd_id) + 1]> m)
                 (pg_counts_by_osd ix) acting_set in
      let ix := {| pg_states_by_osd := pg_states_by_osd ix;
                   pg_counts_by_osd := counts;
                   pools_by_osd := pools_by_osd ix;
                   osds_by_pg_state_idx := osds_by_pg_state_idx ix |} in
      Return (fold_left (index_state pools_by_id pool_id acting_set) (pg_states pg) ix)
  end.

Fixpoint index_pgs (pools_by_id : gmap Z string) (ix : PgIndexes) (l : list PgRecord)
    : Outcome PgIndexes :=
  match l with
  | [] => Return ix
  | pg :: l' =>
      match index_pg pools_by_id ix pg with
      | Raise e => Raise e
      | Return ix' => index_pgs pools_by_id ix' l'
      end
  end.

(** [fixup_osd(osd)] *)
Definition fixup_osd (name_to_server : gmap string Server) (ix : PgIndexes) (o : Osd)
    : Outcome OsdRecord :=
  let osd_id := osd o in
  match name_to_server !! ("osd." ++ PyStr.of_Z osd_id) with
  | None => Raise (Exn KeyError "_osd_name_to_server")
  | Some server =>
      let host :=
        match srv_hostname server with
        | Some h => if String.eqb h "" then srv_addr server else h
        | None => srv_addr server
        end in
      Return {| o_id := osd_id; o_uuid := uuid o; o_up := up o; o_in := in_ o;
                o_up_from := up_from o; o_public_addr := public_addr o;
                o_cluster_addr := cluster_addr o;
                o_heartbeat_back_addr := heartbeat_back_addr o;
                o_heartbeat_front_addr := heartbeat_front_addr o;
                o_pg_states := default ∅ (pg_states_by_osd ix !! osd_id);
                o_pg_count := default 0 (pg_counts_by_osd ix !! osd_id);
                o_pools := elements (default ∅ (pools_by_osd ix !! osd_id));
                o_host := host |}
  end.

(** [map(f, xs)] for an [f] that may raise. *)
Fixpoint map_raising {A B} (f : A -> Outcome B) (xs : list A) : Outcome (list B) :=
  match xs with
  | [] => Return []
  | x :: xs' =>
      match f x with
      | Raise e => Raise e
      | Return y =>
          match map_raising f xs' with
          | Raise e => Raise e
          | Return ys => Return (y :: ys)
          end
      end
  end.

(** The dictionary that [_populate_space] assigns: ['stats'] of the [df]
    answer, then the three totals in the order in which the literal reads
    them, each with its [KeyError]. *)
Definition space_of_stats (df : DfDoc) : Outcome Space :=
  match getitem "stats" (df_stats df) with
  | Raise e => Raise e
  | Return data =>
      match getitem "total_used" (total_used data) with
      | Raise e => Raise e
      | Return used =>
          match getitem "total_space" (total_space data) with
          | Raise e => Raise e
          | Return capacity =>
              match getitem "total_avail" (total_avail data) with
              | Raise e => Raise e
              | Return free =>
                  Return {| used_bytes := used * 1024;
                            capacity_bytes := capacity * 1024;
                            free_bytes := free * 1024 |}
              end
          end
      end
  end.

Section Populate.
Variable E : Env.
Variable T : Telemetry.

(** [_populate_space()] *)
Definition _populate_space : M St unit :=
  df <- lift (get_space_stats T);;
  space <- lift (space_of_stats df);;
  modify (on_cluster (set_space (Some space))).

(** [_populate_health()] *)
Definition _populate_health : M St unit :=
  data <- lift (get_health T);;
  modify (on_cluster (set_health (Some
    {| h_overall_status := overall_status data;
       h_detail := detail data;
       h_summary := summary data |}))).

(** The inner loop of [_populate_pools]: the statistics of the last entry
    of [df_pools] with this id. *)
Definition find_pool_stats (df : list DfPool) (pool_id : Z) : option DfPoolStats :=
  fold_left (fun stats pool_stats =>
               if df_id pool_stats =? pool_id then Some (df_pool_stats pool_stats)
               else stats)
            df None.

(** The body of [for pool in osd_map_pools], on the database. *)
Definition populate_pool (cid : Z) (df : list DfPool) (d : Store) (pl : OsdMapPool)
  : Store :=
  let pool_id := pool pl in
  match find_pool_stats df pool_id with
  | None => d
  | Some stats =>
      let attrs (pk : Z) : Pool :=
        {| p_pk := pk; p_cluster_id := cid; p_pool_id := pool_id;
           p_name := pool_name pl;
           p_quota_max_bytes := quota_max_bytes pl;
           p_quota_max_objects := quota_max_bytes pl;
           p_used_bytes := bytes_used stats;
           p_used_objects := objects stats |} in
      let hit (p : Pool) := (p_cluster_id p =? cid) && (p_pool_id p =? pool_id) in
      let updated := length (List.filter hit (pools d)) in
      let d := set_pools (map (fun p => if hit p then attrs (p_pk p) else p)) d in
      if Nat.eqb updated 0 then Models.Pool_create attrs d else d
  end.

(** [_populate_pools()] *)
Definition _populate_pools : M St unit :=
  osd_map <- lift (get_osds T);;
  let osd_map_pools := od_pools osd_map in
  df <- lift (get_space_stats T);;
  df_pools <- lift (getitem "pools" (df_pools df));;
  s <- get;;
  let cid := cl_id (cluster s) in
  (* Any pools in the database but not the OSD map are to be deleted *)
  modify (on_db (set_pools (Models.delete_rows (fun p =>
    negb (existsb (fun q => pool q =? p_pool_id p) osd_map_pools)
    && (p_cluster_id p =? cid)))));;;
  modify (on_db (fun d => fold_left (populate_pool cid df_pools) osd_map_pools d)).

(** [_populate_osds_and_pgs()] *)
Definition _populate_osds_and_pgs : M St unit :=
  brief <- lift (get_pg_stats T);;
  let cluster_pgs := map fixup_pg brief in
  modify (on_cluster (set_pgs (Some cluster_pgs)));;;
  lspools <- lift (get_pools T);;
  let pools_by_id : gmap Z string :=
    fold_left (fun m d => <[poolnum d := poolname d]> m) lspools ∅ in
  ix <- lift (index_pgs pools_by_id empty_indexes cluster_pgs);;
  modify (on_cluster (set_osds_by_pg_state
    (Some (elements <$> osds_by_pg_state_idx ix))));;;
  osd_map <- lift (get_osds T);;
  s <- get;;
  fixed <- lift (map_raising (fixup_osd (_osd_name_to_server s) ix) (od_osds osd_map));;
  modify (on_cluster (set_osds (Some fixed))).

(** The dictionary built by [_populate_counters]: the five classifiers in
    the order pool, osd, mds, mon, pg. *)
Definition calculate_counters : Outcome Counters :=
  match get_pg_pools T with
  | Raise e => Raise e
  | Return pg_pools =>
      match get_osds T with
      | Raise e => Raise e
      | Return osd_map =>
          match get_status T with
          | Raise e => Raise e
          | Return status =>
              match _calculate_mon_counters E status with
              | Raise e => Raise e
              | Return mon =>
                  Return {| c_pool := _calculate_pool_counters pg_pools;
                            c_osd := _calculate_osd_counters (od_osds osd_map);
                            c_mds := _calculate_mds_counters (mdsmap status);
                            c_mon := mon;
                            c_pg := _calculate_pg_counters (pgs_by_state status) |}
              end
          end
      end
  end.

(** [_populate_counters()] *)
Definition _populate_counters : M St unit :=
  c <- lift calculate_counters;;
  modify (on_cluster (set_counters (Some c))).

End Populate.

(* ===================================================================== *)
(** ** [ModelAdapter.refresh] and [Command.handle] *)
(* ===================================================================== *)

(** The names bound on a [ModelAdapter] instance, in the order of the class
    body and of [__init__].  The names every object has in addition begin
    with two underscores. *)
Definition ModelAdapter_names : list string :=
  [ "CRIT_STATES"; "WARN_STATES"; "OKAY_STATES"; "OSD_FIELDS"; "PG_FIELDS";
    "__init__"; "refresh";
    "_populate_space"; "_populate_health"; "_populate_pools";
    "_populate_osds_and_pgs"; "_populate_counters";
    "crush_osd_hostnames"; "_reverse_dns"; "_short_addr";
    "_register_service"; "_refresh_servers";
    "_calculate_pool_counters"; "_calculate_osd_counters";
    "_calculate_mds_counters"; "_IPV4_RE"; "_IPV6_RE"; "try_mon_connect";
    "_calculate_mon_counters"; "_pg_counter_helper"; "_calculate_pg_counters";
    "client"; "cluster"; "mon_timeout";
    "_crush_osd_hostnames"; "_osd_name_to_server" ].

Fixpoint insert_sorted (x : string) (l : list string) : list string :=
  match l with
  | [] => [x]
  | y :: l' => if String.leb x y then x :: l else y :: insert_sorted x l'
  end.

(** [dir(self)]: the names, sorted. *)
Definition dir_self : list string := fold_right insert_sorted [] ModelAdapter_names.

Section Refresh.
Variable E : Env.
Variable T : Telemetry.

(** [getattr(self, attr)()] for the names [refresh] selects. *)
Definition call_attr (attr : string) : M St unit :=
  if String.eqb attr "_populate_space" then _populate_space T
  else if String.eqb attr "_populate_health" then _populate_health T
  else if String.eqb attr "_populate_pools" then _populate_pools T
  else if String.eqb attr "_populate_osds_and_pgs" then _populate_osds_and_pgs T
  else if String.eqb attr "_populate_counters" then _populate_counters E T
  else raise (Exn AttributeError attr).

(** [self.cluster.save()] *)
Definition cluster_save : M St unit :=
  fun s => (Return tt, on_db (set_clusters (Models.save_row cl_id (cluster s))) s).

(** [refresh()]: call each _populate* method, then save the model
    instance. *)
Definition refresh : M St unit :=
  _refresh_servers E T;;;
  let attrs := List.filter (PyStr.startswith "_populate_") dir_self in
  for_each attrs call_attr;;;
  cluster_save.

(** The pipeline as the design document lists it: registry reconciler,
    space, health, pools, OSDs and PGs, counters, persist. *)
Definition spec_pipeline : M St unit :=
  _refresh_servers E T;;;
  _populate_space T;;;
  _populate_health T;;;
  _populate_pools T;;;
  _populate_osds_and_pgs T;;;
  _populate_counters E T;;;
  cluster_save.

End Refresh.

Section Command.
Variable E : Env.

(** [CephRestClient(url, timeout)]: the base URL ends with a slash. *)
Definition CephRestClient (url : string) : Outcome Telemetry :=
  match String.get (Nat.pred (String.length url)) url with
  | None => Raise (Exn IndexError "string index out of range")
  | Some c =>
      Return (rest_api E (if Ascii.eqb c "/" then url else url ++ "/"))
  end.

(** [_handle_cluster(cluster, options)] on the database [d] *)
Definition _handle_cluster (c : Cluster) (d : Store) : Outcome unit * St :=
  let s := {| db := d; cluster := c; _crush_osd_hostnames := None;
              _osd_name_to_server := ∅ |} in
  match CephRestClient (api_base_url c) with
  | Raise e => (Raise e, s)
  | Return client => refresh E client s
  end.

(** One turn of the loop of [handle], for the [i]-th cluster. *)
Definition handle_cluster_turn (i : nat) (c : Cluster) (d : Store) : Outcome Store :=
  let now := utcnow E i in
  (* reset error fields, cross fingers for success! *)
  let c := set_bookkeeping (cluster_update_time c) false None
             (cluster_update_attempt_time c) c in
  let '(o, s) := _handle_cluster c d in
  let c := cluster s in
  let caught :=
    match o with
    | Return _ =>
        (* record time of last successsful update *)
        Return (set_bookkeeping (Some now) (cluster_update_error_isclient c)
                  (cluster_update_error_msg c) (cluster_update_attempt_time c) c)
    | Raise e =>
        if is_Exception e
        then Return (set_bookkeeping (cluster_update_time c)
                       (is_RequestException e) (Some (format_exc E e))
                       (cluster_update_attempt_time c) c)
        else Raise e
    end in
  match caught with
  | Raise e => Raise e
  | Return c =>
      let c := set_bookkeeping (cluster_update_time c)
                 (cluster_update_error_isclient c) (cluster_update_error_msg c)
                 (Some now) c in
      Return (set_clusters (Models.save_row cl_id c) (db s))
  end.

Fixpoint handle_loop (i : nat) (cs : list Cluster) (d : Store) : Outcome Store :=
  match cs with
  | [] => Return d
  | c :: cs' =>
      match handle_cluster_turn i c d with
      | Raise e => Raise e
      | Return d' => handle_loop (S i) cs' d'
      end
  end.

(** [handle()]: update statistics for each registered cluster. *)
Definition handle (d : Store) : Outcome Store := handle_loop 0 (clusters d) d.

End Command.

(* ===================================================================== *)
(** ** [memoize] and [CephRestClient._query] *)
(* ===================================================================== *)

Section Memoize.
Context {K V W : Type} `{Countable K}.

(** The decorated function: it works on some world [W] and may raise. *)
Variable function : K -> M W V.

(** [memoize(function)]: the wrapper, on the dictionary [memo] of the
    closure and the world of [function].  [args] is the tuple of arguments. *)
Definition memoize (args : K) : M (gmap K V * W) V :=
  fun st =>
    let '(memo, w) := st in
    match memo !! args with
    | Some rv => (Return rv, (memo, w))
    | None =>
        match function args w with
        | (Return rv, w') => (Return rv, (<[args := rv]> memo, w'))
        | (Raise e, w') => (Raise e, (memo, w'))
        end
    end.

(** Calls of the wrapper one after the other, by a caller that goes on
    after an exception; the outcomes are dropped. *)
Fixpoint memoize_calls (calls : list K) (st : gmap K V * W) : gmap K V * W :=
  match calls with
  | [] => st
  | args :: calls' => memoize_calls calls' (snd (memoize args st))
  end.

End Memoize.

(** A [CephRestClient] object: its identity and its [__url].  Objects are
    hashed and compared by identity, so two clients for one URL are two
    keys of [memo]. *)
Definition RestClient : Type := Z * string.

Section Query.
Context {W : Type}.

(** [requests.get(url, headers=hdr, timeout=...)]: the body of the
    response, or the exception of the Requests library. *)
Variable requests_get : string -> M W string.

(** [r.json()]: [None] stands for its [ValueError]. *)
Variable json_loads : string -> option json.

(** The undecorated [_query(self, endpoint)] *)
Definition _query_function (args : RestClient * string) : M W json :=
  let '(self, endpoint) := args in
  r <- requests_get (snd self ++ endpoint);;
  match json_loads r with
  | Some j => ret j
  | None => raise (Exn ValueError "No JSON object could be decoded")
  end.

(** [_query(self, endpoint)], decorated with [memoize] *)
Definition _query (self : RestClient) (endpoint : string)
    : M (gmap (RestClient * string) json * W) json :=
  memoize _query_function (self, endpoint).

End Query.

(* ===================================================================== *)
(** ** Test fixtures *)
(* ===================================================================== *)

(** An environment in which the resolver knows no name and no monitor
    accepts connections. *)
Definition quiet_env (api : string -> Telemetry) : Env :=
  {| gethostbyaddr := fun _ => None;
     create_connection := fun _ _ => Some (Exn SocketError "Connection refused");
     sock_close := fun _ _ => None;
     CRUSH_OSD_TYPE := "osd";
     CRUSH_HOST_TYPE := "host";
     recursion_limit := 1000;
     format_exc := exn_msg;
     rest_api := api;
     utcnow := fun i => 1000 + Z.of_nat i |}.

(** An environment in which monitors accept connections and the socket
    fails when it is closed. *)
Definition close_fails_env : Env :=
  {| gethostbyaddr := fun _ => None;
     create_connection := fun _ _ => None;
     sock_close := fun _ _ => Some (Exn SocketError "close");
     CRUSH_OSD_TYPE := "osd";
     CRUSH_HOST_TYPE := "host";
     recursion_limit := 1000;
     format_exc := exn_msg;
     rest_api := fun _ =>
       {| get_status := Raise (Exn RequestException "");
          get_space_stats := Raise (Exn RequestException "");
          get_health := Raise (Exn RequestException "");
          get_osds := Raise (Exn RequestException "");
          get_mon_status := Raise (Exn RequestException "");
          get_pg_pools := Raise (Exn RequestException "");
          get_pools := Raise (Exn RequestException "");
          get_pg_stats := Raise (Exn RequestException "");
          get_osd_tree := Raise (Exn RequestException "") |};
     utcnow := fun i => Z.of_nat i |}.

(** An OSD that is up and in, with all its addresses equal to [a]. *)
Definition osd_at (i : Z) (a : string) : Osd :=
  {| osd := i; uuid := ""; up := 1; in_ := 1; up_from := 0;
     public_addr := a; cluster_addr := a;
     heartbeat_back_addr := a; heartbeat_front_addr := a |}.

(** A monitor of rank [r] and name [n] at address [a]. *)
Definition mon_at (r : Z) (n a : string) : Mon :=
  {| rank := r; mon_name := n; mon_addr := a |}.

(** A healthy cluster answering every endpoint, with the given OSDs,
    monitors (all in quorum) and pools. *)
Definition answers (os : list Osd) (ms : list Mon) (ps : list OsdMapPool)
    (df : list DfPool) : Telemetry :=
  {| get_status :=
       Return {| mdsmap := {| mds_max := 1; mds_up := 1; mds_in := 1 |};
                 status_mons := ms; quorum := map rank ms;
                 pgs_by_state := [{| pbs_count := 64; state_name := "active+clean" |}] |};
     get_space_stats :=
       Return {| df_stats := Some {| total_used := Some 10; total_space := Some 100;
                                     total_avail := Some 90 |};
                 df_pools := Some df |};
     get_health :=
       Return {| overall_status := JStr "HEALTH_OK"; detail := JArr [];
                 summary := JArr [] |};
     get_osds := Return {| od_pools := ps; od_osds := os |};
     get_mon_status := Return {| monmap_mons := ms |};
     get_pg_pools := Return [];
     get_pools := Return [];
     get_pg_stats := Return [];
     get_osd_tree := Return [] |}.

(** The same cluster when the request for [health?detail] times out. *)
Definition health_times_out (t : Telemetry) : Telemetry :=
  {| get_status := get_status t;
     get_space_stats := get_space_stats t;
     get_health := Raise (Exn RequestException "Timeout");
     get_osds := get_osds t;
     get_mon_status := get_mon_status t;
     get_pg_pools := get_pg_pools t;
     get_pools := get_pools t;
     get_pg_stats := get_pg_stats t;
     get_osd_tree := get_osd_tree t |}.

(** A cluster row that no pass has touched yet. *)
Definition never_refreshed (i : Z) (url : string) : Cluster :=
  {| cl_id := i; cl_name := "ceph"; api_base_url := url;
     space := None; health := None; osds := None; pgs := None;
     osds_by_pg_state := None; counters := None;
     cluster_update_time := None; cluster_update_error_isclient := false;
     cluster_update_error_msg := None; cluster_update_attempt_time := None |}.

(** A database without rows. *)
Definition empty_store : Store :=
  {| servers := []; services := []; pools := []; clusters := [];
     next_server_pk := 1; next_service_pk := 1; next_pool_pk := 1 |}.

(** A database with one cluster, never refreshed so far. *)
Definition one_cluster : Store :=
  {| servers := []; services := []; pools := [];
     clusters := [never_refreshed 1 "http://ceph:5000/api/v0.1"];
     next_server_pk := 1; next_service_pk := 1; next_pool_pk := 1 |}.


(** The same cluster when the [df] answer has the usage of the pools and no
    ['stats']. *)
Definition df_without_stats (t : Telemetry) (usage : list DfPool) : Telemetry :=
  {| get_status := get_status t;
     get_space_stats := Return {| df_stats := None; df_pools := Some usage |};
     get_health := get_health t;
     get_osds := get_osds t;
     get_mon_status := get_mon_status t;
     get_pg_pools := get_pg_pools t;
     get_pools := get_pools t;
     get_pg_stats := get_pg_stats t;
     get_osd_tree := get_osd_tree t |}.

(** The REST API of a small healthy cluster with the pool [data], whose
    [df] answer lacks the totals. *)
Definition no_totals_env : Env :=
  quiet_env (fun _ =>
    df_without_stats
      (answers [osd_at 0 "10.0.0.1:6800/0"] [mon_at 0 "a" "10.0.0.1:6789/0"]
         [{| pool := 0; pool_name := "data"; quota_max_bytes := 100;
             quota_max_objects := 7 |}] [])
      [{| df_id := 0; df_pool_stats := {| bytes_used := 4096; objects := 3 |} |}]).

(** A fresh adapter for cluster 1 on the database [d]. *)
Definition adapter_on (d : Store) : St :=
  {| db := d; cluster := never_refreshed 1 "http://ceph:5000/api/v0.1/";
     _crush_osd_hostnames := None; _osd_name_to_server := ∅ |}.

(** One reconciliation pass on [d], keeping the database only. *)
Definition reconcile (E : Env) (T : Telemetry) (d : Store) : Store :=
  db (snd (_refresh_servers E T (adapter_on d))).

(** The rows of [ServiceStatus] for one kind and identity. *)
Definition services_of (t : ServiceType) (i : Z) (d : Store) : list ServiceStatus :=
  List.filter (fun x => ServiceType_eqb (ss_type x) t && (ss_service_id x =? i)) (services d).

(** The database after monitor 0 was registered at 10.0.0.1. *)
Definition mon0_at_A : Store :=
  {| servers := [{| srv_id := 1; srv_cluster := 1; srv_addr := "10.0.0.1";
                    srv_name := Some "mon.a"; srv_hostname := None |}];
     services := [{| ss_id := 1; ss_server := 1; ss_type := MON;
                     ss_service_id := 0; ss_name := Some "mon.a" |}];
     pools := []; clusters := [];
     next_server_pk := 2; next_service_pk := 2; next_pool_pk := 1 |}.

(** The database after osd.0 was registered at 10.0.0.1. *)
Definition osd0_at_A : Store :=
  {| servers := [{| srv_id := 1; srv_cluster := 1; srv_addr := "10.0.0.1";
                    srv_name := Some "localhost"; srv_hostname := Some "localhost" |}];
     services := [{| ss_id := 1; ss_server := 1; ss_type := OSD;
                     ss_service_id := 0; ss_name := Some "osd.0" |}];
     pools := []; clusters := [];
     next_server_pk := 2; next_service_pk := 2; next_pool_pk := 1 |}.

(** Five monitors, of rank 0 to 4. *)
Definition five_mons : list Mon :=
  [ mon_at 0 "a" "10.0.1.10:6789/0"; mon_at 1 "b" "10.0.1.11:6789/0";
    mon_at 2 "c" "10.0.1.12:6789/0"; mon_at 3 "d" "10.0.1.13:6789/0";
    mon_at 4 "e" "10.0.1.14:6789/0" ].

(** What the first and the second pass observe: osd.5 moves from
    10.0.0.1 to 10.0.0.2 and a sixth monitor joins. *)
Definition pass1 : Telemetry := answers [osd_at 5 "10.0.0.1:6800/0"] five_mons [] [].
Definition pass2 : Telemetry :=
  answers [osd_at 5 "10.0.0.2:6800/0"]
          (five_mons ++ [mon_at 5 "f" "10.0.1.15:6789/0"]) [] [].

(** A cluster with osd.0 on one host and monitor 0 on another. *)
Definition one_osd_one_mon : Telemetry :=
  answers [osd_at 0 "10.0.0.1:6800/0"] [mon_at 0 "a" "10.0.0.2:6789/0"] [] [].

(** A cluster with the pools [data] and [rbd]; [df] knows [data] only. *)
Definition two_pools : Telemetry :=
  answers [] []
    [{| pool := 0; pool_name := "data"; quota_max_bytes := 100; quota_max_objects := 7 |};
     {| pool := 2; pool_name := "rbd"; quota_max_bytes := 0; quota_max_objects := 0 |}]
    [{| df_id := 0; df_pool_stats := {| bytes_used := 4096; objects := 3 |} |}].

(** A database with a row for a pool that is gone, and a row of another
    cluster. *)
Definition stale_pools : Store :=
  {| servers := []; services := [];
     pools := [{| p_pk := 1; p_cluster_id := 1; p_pool_id := 9; p_name := "gone";
                  p_quota_max_bytes := 0; p_quota_max_objects := 0;
                  p_used_bytes := 0; p_used_objects := 0 |};
               {| p_pk := 2; p_cluster_id := 5; p_pool_id := 9; p_name := "theirs";
                  p_quota_max_bytes := 0; p_quota_max_objects := 0;
                  p_used_bytes := 0; p_used_objects := 0 |}];
     clusters := [never_refreshed 1 "http://ceph:5000/api/v0.1"];
     next_server_pk := 1; next_service_pk := 1; next_pool_pk := 3 |}.

(** The cluster [t] with the given PGs and pools. *)
Definition with_pgs (t : Telemetry) (brief : list PgBrief) (lspools : list LsPool)
    : Telemetry :=
  {| get_status := get_status t;
     get_space_stats := get_space_stats t;
     get_health := get_health t;
     get_osds := get_osds t;
     get_mon_status := get_mon_status t;
     get_pg_pools := get_pg_pools t;
     get_pools := Return lspools;
     get_pg_stats := Return brief;
     get_osd_tree := get_osd_tree t |}.

(** Two OSDs and three PGs of the pool [data]. *)
Definition three_pgs : Telemetry :=
  with_pgs (answers [osd_at 0 "10.0.0.1:6800/0"; osd_at 1 "10.0.0.2:6800/0"]
                    [mon_at 0 "a" "10.0.0.3:6789/0"] [] [])
    [{| pgid := "0.1"; acting := [0; 1]; pg_up := [0; 1]; pg_state := "active+clean" |};
     {| pgid := "0.2"; acting := [1]; pg_up := [1]; pg_state := "active+degraded" |};
     {| pgid := "0.3"; acting := [1; 0]; pg_up := [1; 0]; pg_state := "active+clean" |}]
    [{| poolnum := 0; poolname := "data" |}].

(** The adapter on [three_pgs] after the reconciliation of its servers. *)
Definition reconciled_three_pgs : St :=
  snd (_refresh_servers (quiet_env (fun _ => three_pgs)) three_pgs
         (adapter_on one_cluster)).

(** Two clusters with a server each at one address; cluster 1 has nothing
    there any more. *)
Definition shared_address : Store :=
  {| servers := [{| srv_id := 1; srv_cluster := 1; srv_addr := "10.0.0.9";
                    srv_name := Some "old"; srv_hostname := Some "old" |};
                 {| srv_id := 2; srv_cluster := 2; srv_addr := "10.0.0.9";
                    srv_name := Some "theirs"; srv_hostname := Some "theirs" |}];
     services := [{| ss_id := 1; ss_server := 1; ss_type := OSD;
                     ss_service_id := 0; ss_name := Some "osd.0" |};
                  {| ss_id := 2; ss_server := 2; ss_type := OSD;
                     ss_service_id := 0; ss_name := Some "osd.0" |}];
     pools := []; clusters := [];
     next_server_pk := 3; next_service_pk := 3; next_pool_pk := 1 |}.

(** A new server for [osd.0]. *)
Definition new_server : Server :=
  {| srv_id := 1; srv_cluster := 1; srv_addr := "10.0.0.1";
     srv_name := None; srv_hostname := None |}.

(** A database with two clusters, the second with an unusable URL. *)
Definition two_clusters : Store :=
  {| servers := []; services := []; pools := [];
     clusters := [never_refreshed 1 "http://ceph:5000/api/v0.1";
                  never_refreshed 2 ""];
     next_server_pk := 1; next_service_pk := 1; next_pool_pk := 1 |}.

(* ===================================================================== *)
(** ** Vocabulary of the statements *)
(* ===================================================================== *)

(** *** Address normalization and the probe *)

(** The key under which [_refresh_servers] registers an address. *)
Definition server_key (raw : string) : string := _short_addr (PyStr.split0 ":" raw).

(** The text consists of decimal digits. *)
Fixpoint all_digits (s : string) : bool :=
  match s with
  | EmptyString => true
  | String c s' => PyStr.is_digit c && all_digits s'
  end.

(** The test [addr in _MON_ADDR_IGNORES]. *)
Definition ignored (ip : string) : bool := existsb (String.eqb ip) _MON_ADDR_IGNORES.
Arguments ignored : simpl never.

(** *** The classifiers *)

(** Some label of the state string belongs to the class. *)
Definition has_label (cls : gset string) (sts : list string) : Prop :=
  exists l, l ∈ sts /\ l ∈ cls.

(** Bucket [b'] is bucket [b] with [n] added to its count and to the
    sub-count of every label of [sts] in the class, and to nothing else. *)
Definition credited (cls : gset string) (sts : list string) (n : Z)
    (b b' : Bucket) : Prop :=
  count b' = count b + n
  /\ forall l,
       states b' !! l =
       if decide (l ∈ cls /\ l ∈ sts)
       then Some (default 0 (states b !! l) + n)
       else states b !! l.

(** The four cells of the (up, in) table. *)
Definition is_up_in (o : Osd) : bool := truthy (up o) && truthy (in_ o).
Definition is_up_out (o : Osd) : bool := truthy (up o) && negb (truthy (in_ o)).
Definition is_down_in (o : Osd) : bool := negb (truthy (up o)) && truthy (in_ o).
Definition is_down_out (o : Osd) : bool := negb (truthy (up o)) && negb (truthy (in_ o)).

(** Number of OSDs of [os] in a cell. *)
Definition how_many (cell : Osd -> bool) (os : list Osd) : Z :=
  Z.of_nat (length (List.filter cell os)).

(** Number of monitors whose rank is in the quorum. *)
Definition how_many_in_quorum (qrm : list Z) (mons : list Mon) : Z :=
  Z.of_nat (length (List.filter (fun m => existsb (Z.eqb (rank m)) qrm) mons)).

(** *** The registry *)

(** A method that changes neither the [Cluster] object nor the tables of
    pools and clusters nor the next key of a pool, whether it returns or
    raises. *)
Definition keeps {A} (m : M St A) : Prop :=
  forall s,
    cluster (snd (m s)) = cluster s
    /\ pools (db (snd (m s))) = pools (db s)
    /\ clusters (db (snd (m s))) = clusters (db s)
    /\ next_pool_pk (db (snd (m s))) = next_pool_pk (db s).

(** A change of the database that leaves the tables of pools and clusters
    and the next key of a pool alone. *)
Definition registry_only (f : Store -> Store) : Prop :=
  forall d, pools (f d) = pools d /\ clusters (f d) = clusters d
            /\ next_pool_pk (f d) = next_pool_pk d.

(** A method under which the states before and after are related by [R],
    whether it returns or raises. *)
Definition preserves (R : St -> St -> Prop) {A} (m : M St A) : Prop :=
  forall s, R s (snd (m s)).

(** The database is the same. *)
Definition same_db (s s' : St) : Prop := db s' = db s.

(** The rows of the server with primary key [sid] exist and are all of
    cluster [scl]. *)
Definition server_known (sid scl : Z) (rows : list Server) : Prop :=
  (exists r, In r rows /\ srv_id r = sid)
  /\ (forall r, In r rows -> srv_id r = sid -> srv_cluster r = scl).

(** The service rows are the same, and so is the cluster each of them
    belongs to, as long as server [sid] is known. *)
Definition same_services (sid scl : Z) (s s' : St) : Prop :=
  services (db s') = services (db s)
  /\ (server_known sid scl (servers (db s)) ->
      server_known sid scl (servers (db s'))
      /\ forall cid x, Models.server_cluster_is (db s') cid x
                       = Models.server_cluster_is (db s) cid x).

(** Primary keys of servers: rows with the same key are of the same
    cluster, and the next key is not in use. *)
Definition server_pks_sound (d : Store) : Prop :=
  (forall r1 r2, In r1 (servers d) -> In r2 (servers d) ->
                 srv_id r1 = srv_id r2 -> srv_cluster r1 = srv_cluster r2)
  /\ (forall r, In r (servers d) -> srv_id r <> next_server_pk d).

(** The rows of kind [t] and identity [i] in cluster [cid] that are owned by
    another server than [srv]. *)
Definition rows_elsewhere (d : Store) (cid : Z) (t : ServiceType) (i : Z) (srv : Z)
    : list ServiceStatus :=
  List.filter (fun x => negb (ss_server x =? srv)
                        && Models.server_cluster_is d cid x
                        && ServiceType_eqb (ss_type x) t
                        && (ss_service_id x =? i))
              (services d).

(** The services observed in a pass: address key, kind, identity. *)
Definition observed (om : OsdDump) (ms : MonStatus) : list (string * ServiceType * Z) :=
  (map (fun o => (server_key (public_addr o), OSD, osd o)) (od_osds om)
   ++ map (fun m => (server_key (mon_addr m), MON, rank m)) (monmap_mons ms))%list.

(** The one server of the cluster at an address and the one row it owns
    for a service, if there are just one of each. *)
Definition lookup_row (d : Store) (cid : Z) (a : string) (t : ServiceType) (i : Z)
    : option (Server * ServiceStatus) :=
  match List.filter (fun s => (srv_cluster s =? cid) && String.eqb (srv_addr s) a)
                    (servers d) with
  | [srv] =>
      match List.filter (fun x => (ss_server x =? srv_id srv)
                                  && ServiceType_eqb (ss_type x) t
                                  && (ss_service_id x =? i))
                        (services d) with
      | [x] => Some (srv, x)
      | _ => None
      end
  | _ => None
  end.

(** The observed service has its server and its row. *)
Definition has_row (d : Store) (cid : Z) (o : string * ServiceType * Z) : bool :=
  match lookup_row d cid (fst (fst o)) (snd (fst o)) (snd o) with
  | Some _ => true
  | None => false
  end.

(** The row [x] is the row of the observed service. *)
Definition is_row_of (d : Store) (cid : Z) (x : ServiceStatus)
    (o : string * ServiceType * Z) : bool :=
  match lookup_row d cid (fst (fst o)) (snd (fst o)) (snd o) with
  | Some (_, y) => ss_id y =? ss_id x
  | None => false
  end.

(** The registry of cluster [cid] holds what is observed and nothing else:
    every observed service has its server and its row, every row of the
    cluster is the row of an observed service, and every server of the
    cluster is at an observed address. *)
Definition settled (d : Store) (cid : Z) (obs : list (string * ServiceType * Z)) : bool :=
  forallb (has_row d cid) obs
  && forallb (fun x => negb (Models.server_cluster_is d cid x)
                       || existsb (is_row_of d cid x) obs) (services d)
  && forallb (fun s => negb (srv_cluster s =? cid)
                       || existsb (fun o => String.eqb (fst (fst o)) (srv_addr s)) obs)
             (servers d).

(** The shape shared by the bodies of the two loops of
    [_refresh_servers]. *)
Definition register_with (E : Env) (T : Telemetry) {X} (kind : ServiceType)
    (addr_of : X -> string) (ident_of : X -> Z) (name_of : X -> string)
    (old : candidates) (x : X) : M St candidates :=
  service_status <- _register_service E T (addr_of x) kind (ident_of x) (name_of x);;
  ret (fst old ∖ {[ss_id service_status]}, snd old ∖ {[addr_of x]}).

(** *** A pass *)

(** The pass the way [refresh] runs it: [dir] hands the populate methods
    over in the alphabetical order of their names. *)
Definition pass_in_dir_order (E : Env) (T : Telemetry) : M St unit :=
  _refresh_servers E T;;;
  _populate_counters E T;;;
  _populate_health T;;;
  _populate_osds_and_pgs T;;;
  _populate_pools T;;;
  _populate_space T;;;
  cluster_save.

(** The state in which [handle] starts the pass of cluster [c] on the
    database [d]: the error fields reset, nothing cached yet. *)
Definition pass_start (c : Cluster) (d : Store) : St :=
  {| db := d;
     cluster := set_bookkeeping (cluster_update_time c) false None
                  (cluster_update_attempt_time c) c;
     _crush_osd_hostnames := None;
     _osd_name_to_server := ∅ |}.

(** [_osd_name_to_server] as registry reconciliation leaves it in that
    pass. *)
Definition names_registered (E : Env) (T : Telemetry) (c : Cluster) (d : Store)
    : gmap string Server :=
  _osd_name_to_server (snd (_refresh_servers E T (pass_start c d))).

(** The database after [_populate_pools] when both documents arrived. *)
Definition pools_populated (cid : Z) (om : OsdDump) (usage : list DfPool)
    (d : Store) : Store :=
  fold_left (populate_pool cid usage) (od_pools om)
    (set_pools (Models.delete_rows (fun p =>
       negb (existsb (fun q => pool q =? p_pool_id p) (od_pools om))
       && (p_cluster_id p =? cid))) d).

(** The snapshot of a cluster: the fields of its row and its pool rows, in
    the order in which a pass writes them. *)
Inductive snapshot_field :=
  | F_counters | F_health | F_pgs | F_osds_by_pg_state | F_osds | F_pools | F_space.

Definition assignment_order : list snapshot_field :=
  [F_counters; F_health; F_pgs; F_osds_by_pg_state; F_osds; F_pools; F_space].


(** The field has the value this pass computes for it from the answers [T]
    of the REST API: the PG indexes are those of the PG list of [T], the
    servers of the OSDs those registered by this pass, the pool rows those
    written on the table of before. *)
Definition freshly_assigned (E : Env) (T : Telemetry) (c : Cluster) (d : Store)
    (saved : Cluster) (d' : Store) (f : snapshot_field) : Prop :=
  match f with
  | F_counters =>
      exists v, calculate_counters E T = Return v /\ counters saved = Some v
  | F_health =>
      exists data, get_health T = Return data
        /\ health saved = Some {| h_overall_status := overall_status data;
                                  h_detail := detail data;
                                  h_summary := summary data |}
  | F_pgs =>
      exists brief, get_pg_stats T = Return brief
        /\ pgs saved = Some (map fixup_pg brief)
  | F_osds_by_pg_state =>
      exists brief lspools ix,
        get_pg_stats T = Return brief /\ get_pools T = Return lspools
        /\ index_pgs (fold_left (fun m d => <[poolnum d := poolname d]> m) lspools ∅)
                     empty_indexes (map fixup_pg brief) = Return ix
        /\ osds_by_pg_state saved = Some (elements <$> osds_by_pg_state_idx ix)
  | F_osds =>
      exists osd_map brief lspools ix fixed,
        get_osds T = Return osd_map
        /\ get_pg_stats T = Return brief /\ get_pools T = Return lspools
        /\ index_pgs (fold_left (fun m d => <[poolnum d := poolname d]> m) lspools ∅)
                     empty_indexes (map fixup_pg brief) = Return ix
        /\ map_raising (fixup_osd (names_registered E T c d) ix) (od_osds osd_map)
           = Return fixed
        /\ osds saved = Some fixed
  | F_pools =>
      exists osd_map df usage,
        get_osds T = Return osd_map /\ get_space_stats T = Return df
        /\ df_pools df = Some usage
        /\ pools d' = pools (pools_populated (cl_id c) osd_map usage d)
  | F_space =>
      exists df v, get_space_stats T = Return df /\ space_of_stats df = Return v
        /\ space saved = Some v
  end.

(** How the pass of [handle] for cluster [c] on database [d] ends. *)
Definition pass_outcome (E : Env) (c : Cluster) (d : Store) : Outcome unit :=
  fst (_handle_cluster E
         (set_bookkeeping (cluster_update_time c) false None
            (cluster_update_attempt_time c) c) d).


(** The cluster has counters at all. *)
Definition has_counters (c : Cluster) : bool :=
  match counters c with Some _ => true | None => false end.

(** *** The CRUSH tree *)

(** One round of the loop over the children in [find_descendants]. *)
Definition descend (E : Env) (fuel : nat) (nodes_by_id : gmap Z CrushNode)
    (found : Outcome (list CrushNode)) (child_id : Z) : Outcome (list CrushNode) :=
  match found with
  | Raise e => Raise e
  | Return fs =>
      match nodes_by_id !! child_id with
      | None => Raise (Exn KeyError "nodes_by_id")
      | Some child =>
          match find_descendants E fuel nodes_by_id child with
          | Raise e => Raise e
          | Return ds => Return (fs ++ ds)%list
          end
      end
  end.

(** The node [o] is [n] itself or is reached from [n] through the
    [children] lists and [nodes_by_id]. *)
Inductive below (nodes_by_id : gmap Z CrushNode) : CrushNode -> CrushNode -> Prop :=
  | below_self (n : CrushNode) : below nodes_by_id n n
  | below_child (n : CrushNode) (children : list Z) (c : Z) (m o : CrushNode) :
      node_children n = Some children -> In c children ->
      nodes_by_id !! c = Some m -> below nodes_by_id m o ->
      below nodes_by_id n o.

(** The cached dictionary [c] maps names of OSD nodes of the tree to names
    of host nodes of the tree, none of them ['localhost']: every entry
    comes from an OSD node found below a host node. *)
Definition crush_sound (E : Env) (osd_tree : list CrushNode)
    (c : gmap string string) : Prop :=
  forall osd_name host,
    c !! osd_name = Some host ->
    host <> "localhost"
    /\ exists node o,
         In node osd_tree
         /\ node_type node = CRUSH_HOST_TYPE E /\ node_name node = host
         /\ In o osd_tree
         /\ node_type o = CRUSH_OSD_TYPE E /\ node_name o = osd_name
         /\ below (nodes_by_id_of osd_tree) node o.

(** The cache stays computed, and sound if it was. *)
Definition crush_grows (E : Env) (osd_tree : list CrushNode) (s s' : St) : Prop :=
  forall c, _crush_osd_hostnames s = Some c ->
    exists c', _crush_osd_hostnames s' = Some c'
               /\ (crush_sound E osd_tree c -> crush_sound E osd_tree c').

(** *** The pool counters *)

(** The pool reports the counter [key] in its [stat_sum]. *)
Definition reports (key : string) (stat_sum : gmap string Z) : bool :=
  bool_decide (is_Some (stat_sum !! key)).

(** What one pool adds to the counter [key]: its value, but 1 at most. *)
Definition clamped (key : string) (stat_sum : gmap string Z) : Z :=
  match stat_sum !! key with
  | Some value => Z.min value 1
  | None => 0
  end.

Definition sum_clamped (key : string) (stat_sums : list (gmap string Z)) : Z :=
  foldr (fun stat_sum acc => clamped key stat_sum + acc) 0 stat_sums.

(** Number of pools in which the counter [key] is positive. *)
Definition affected (key : string) (stat_sums : list (gmap string Z)) : Z :=
  Z.of_nat (length (List.filter
    (fun stat_sum => bool_decide (0 < default 0 (stat_sum !! key))) stat_sums)).

(** The entry of [key] in [counts] after the loop over one pool's items. *)
Definition count_pool (key : string) (acc : option Z) (stat_sum : gmap string Z)
    : option Z :=
  match stat_sum !! key with
  | Some value => Some (default 0 acc + Z.min value 1)
  | None => acc
  end.

(** *** The table of pools *)

(** The filter [cluster_id=cid, pool_id=pool_id] on a row of [Pool]. *)
Definition pool_row_of (cid pool_id : Z) (p : Pool) : bool :=
  (p_cluster_id p =? cid) && (p_pool_id p =? pool_id).

(** The rows of other clusters. *)
Definition pool_of_other_cluster (cid : Z) (p : Pool) : bool :=
  negb (p_cluster_id p =? cid).

(** The row that [_populate_pools] writes for a pool of the OSD map that
    has statistics: the keywords of [update] and of [create]. *)
Definition pool_attrs (cid : Z) (pl : OsdMapPool) (stats : DfPoolStats) (pk : Z)
    : Pool :=
  {| p_pk := pk; p_cluster_id := cid; p_pool_id := pool pl;
     p_name := pool_name pl;
     p_quota_max_bytes := quota_max_bytes pl;
     p_quota_max_objects := quota_max_bytes pl;
     p_used_bytes := bytes_used stats;
     p_used_objects := objects stats |}.

(** *** The indexes of [_populate_osds_and_pgs] *)

(** The entries of the four [defaultdict]s, with their defaults. *)
Definition pg_count_of (ix : PgIndexes) (osd_id : Z) : Z :=
  default 0 (pg_counts_by_osd ix !! osd_id).
Definition pg_states_of (ix : PgIndexes) (osd_id : Z) (state : string) : Z :=
  default 0 (default ∅ (pg_states_by_osd ix !! osd_id) !! state).
Definition pools_of (ix : PgIndexes) (osd_id : Z) : gset string :=
  default ∅ (pools_by_osd ix !! osd_id).
Definition osds_in_state (ix : PgIndexes) (state : string) : gset Z :=
  default ∅ (osds_by_pg_state_idx ix !! state).

(** The OSD is in the acting set of the PG. *)
Definition acts_in (osd_id : Z) (pg : PgRecord) : bool :=
  bool_decide (osd_id ∈ pg_acting pg).

(** Number of PGs the OSD acts in. *)
Definition pgs_of (osd_id : Z) (pgs : list PgRecord) : Z :=
  Z.of_nat (length (List.filter (acts_in osd_id) pgs)).

(** How often a label occurs in a state list. *)
Definition occurrences (state : string) (l : list string) : Z :=
  Z.of_nat (length (List.filter (String.eqb state) l)).

(** Number of PGs in a state that the OSD acts in. *)
Definition pgs_of_in_state (osd_id : Z) (state : string) (pgs : list PgRecord) : Z :=
  foldr (fun pg acc =>
           (if acts_in osd_id pg then occurrences state (pg_states pg) else 0) + acc)
        0 pgs.

(** The name of the pool of a PG, when [lspools] knows the pool. *)
Definition pool_name_of (pools_by_id : gmap Z string) (pg : PgRecord) : option string :=
  match PyStr.to_int (PyStr.split0 "." (pg_pgid pg)) with
  | Some pool_id => if decide (pg_states pg = []) then None else pools_by_id !! pool_id
  | None => None
  end.

(** [dict((d['poolnum'], d['poolname']) for d in pools)] *)
Definition pools_by_id_of (lspools : list LsPool) : gmap Z string :=
  fold_left (fun m d => <[poolnum d := poolname d]> m) lspools ∅.

(** *** The classifiers over the whole input *)

(** Some label of the entry is in the class. *)
Definition labelled (cls : gset string) (pg : PgByState) : bool :=
  existsb (fun l => bool_decide (l ∈ cls)) (pg_state_labels (state_name pg)).

(** The bucket an entry of [pgs_by_state] goes to: the first class, in the
    order critical, warn, ok, one of whose labels it has. *)
Definition counted_critical (pg : PgByState) : bool := labelled CRIT_STATES pg.
Definition counted_warn (pg : PgByState) : bool :=
  negb (labelled CRIT_STATES pg) && labelled WARN_STATES pg.
Definition counted_ok (pg : PgByState) : bool :=
  negb (labelled CRIT_STATES pg) && negb (labelled WARN_STATES pg)
  && labelled OKAY_STATES pg.

(** The entry has the label [l], and [l] is in the class. *)
Definition with_label (l : string) (cls : gset string) (pg : PgByState) : bool :=
  bool_decide (l ∈ cls) && bool_decide (l ∈ pg_state_labels (state_name pg)).

(** The PGs of the entries selected by [sel]. *)
Definition sum_counts (sel : PgByState -> bool) (pgs : list PgByState) : Z :=
  foldr (fun pg acc => (if sel pg then pbs_count pg else 0) + acc) 0 pgs.

(** *** The reconciliation *)

(** The addresses at which a pass saw an OSD or a monitor. *)
Definition observed_addrs (om : OsdDump) (ms : MonStatus) : list string :=
  (map (fun o => server_key (public_addr o)) (od_osds om)
   ++ map (fun m => server_key (mon_addr m)) (monmap_mons ms))%list.

(** The entries of [_osd_name_to_server] stay. *)
Definition names_kept (s s' : St) : Prop :=
  forall n, is_Some (_osd_name_to_server s !! n) ->
            is_Some (_osd_name_to_server s' !! n).

(** *** The bookkeeping of [handle] *)

(** The identity of a cluster and its four bookkeeping fields. *)
Definition same_bookkeeping (c c' : Cluster) : Prop :=
  cl_id c' = cl_id c /\ cl_name c' = cl_name c
  /\ api_base_url c' = api_base_url c
  /\ cluster_update_time c' = cluster_update_time c
  /\ cluster_update_error_isclient c' = cluster_update_error_isclient c
  /\ cluster_update_error_msg c' = cluster_update_error_msg c
  /\ cluster_update_attempt_time c' = cluster_update_attempt_time c.

(** A method that writes to the snapshot of the [Cluster] object only: the
    table of clusters and the bookkeeping of the object are as before. *)
Definition snapshot_only (s s' : St) : Prop :=
  clusters (db s') = clusters (db s) /\ same_bookkeeping (cluster s) (cluster s').

(** The stamps of one turn of [handle]: [c] is the row on which the turn
    starts, [d] the database on which it runs, [c'] the row that is saved.
    The time [now] of the attempt is noted; when the pass of [c] on [d]
    completed there is no error and the time of the last update is [now];
    when it raised [e], the text of [e] is kept, the flag tells whether [e]
    came from Requests, and the time of the last update is the old one. *)
Definition stamped (E : Env) (now : Z) (c : Cluster) (d : Store) (c' : Cluster)
    : Prop :=
  cl_id c' = cl_id c /\ cl_name c' = cl_name c
  /\ api_base_url c' = api_base_url c
  /\ cluster_update_attempt_time c' = Some now
  /\ match pass_outcome E c d with
     | Return _ =>
         cluster_update_error_msg c' = None
         /\ cluster_update_error_isclient c' = false
         /\ cluster_update_time c' = Some now
     | Raise e =>
         cluster_update_error_msg c' = Some (format_exc E e)
         /\ cluster_update_error_isclient c' = is_RequestException e
         /\ cluster_update_time c' = cluster_update_time c
     end.

(** *** The registry after a pass *)

(** Primary keys as a database hands them out: no two servers and no two
    service rows share a key, and the keys in use are below the next ones. *)
Definition keys_sound (d : Store) : Prop :=
  NoDup (map srv_id (servers d))
  /\ (forall r, In r (servers d) -> srv_id r < next_server_pk d)
  /\ NoDup (map ss_id (services d))
  /\ (forall x, In x (services d) -> ss_id x < next_service_pk d).

(** The service of kind [t] and identity [i] is registered at address [a]
    in cluster [cid], by the row with key [k]. *)
Definition registered (d : Store) (cid : Z) (a : string) (t : ServiceType) (i k : Z)
    : Prop :=
  exists srv x,
    In srv (servers d) /\ srv_cluster srv = cid /\ srv_addr srv = a
    /\ In x (services d) /\ ss_id x = k
    /\ ss_server x = srv_id srv /\ ss_type x = t /\ ss_service_id x = i.

(** A step on the database under which what is registered stays. *)
Definition keeps_registered (d d' : Store) : Prop :=
  forall cid a t i k, registered d cid a t i k -> registered d' cid a t i k.

(** *** The monitors outside the quorum *)

(** The rank of the monitor is in the quorum. *)
Definition in_quorum (qrm : list Z) (mon : Mon) : bool :=
  existsb (Z.eqb (rank mon)) qrm.

(** The address of the monitor can be parsed, is not one of the unset
    addresses, and a connection to it succeeds. *)
Definition accepts (E : Env) (mon : Mon) : bool :=
  match mon_addr_match (mon_addr mon) with
  | Some (ip, port_text) =>
      match PyStr.to_int port_text with
      | Some port =>
          negb (ignored ip)
          && match create_connection E ip port with
             | None => true
             | Some _ => false
             end
      | None => false
      end
  | None => false
  end.

(** Number of monitors selected by [sel]. *)
Definition how_many_mons (sel : Mon -> bool) (mons : list Mon) : Z :=
  Z.of_nat (length (List.filter sel mons)).

(* ===================================================================== *)
(** ** Sanity checks of the embedding *)
(* ===================================================================== *)

Example split_ipv4 : PyStr.split ":" "192.168.0.1:6800/0" = ["192.168.0.1"; "6800/0"].
Proof. reflexivity. Qed.

Example split_ipv6 : PyStr.split ":" "[fe80::1]:6800/0" = ["[fe80"; ""; "1]"; "6800/0"].
Proof. reflexivity. Qed.

Example split_two_chars : PyStr.split "]:" "[fe80::1]:6800/0" = ["[fe80::1"; "6800/0"].
Proof. reflexivity. Qed.

Example split_trailing : PyStr.split "+" "active+" = ["active"; ""].
Proof. reflexivity. Qed.

Example of_Z_examples : (PyStr.of_Z 0, PyStr.of_Z 12, PyStr.of_Z (-3)) = ("0", "12", "-3").
Proof. reflexivity. Qed.

Example to_int_examples :
  (PyStr.to_int "12", PyStr.to_int " -7 ", PyStr.to_int "1a", PyStr.to_int "")
  = (Some 12, Some (-7), None, None).
Proof. reflexivity. Qed.

Example match_ipv4_example :
  Re.match_IPV4 "192.168.0.1:6789/0" = Some ("192.168.0.1", "6789").
Proof. reflexivity. Qed.

Example match_ipv6_example :
  Re.match_IPV6 "[fe80::1]:6789/0" = Some ("fe80::1", "6789").
Proof. reflexivity. Qed.

Example match_ipv6_greedy :
  Re.match_IPV6 "[::]:1/x]:22/" = Some ("::]:1/x", "22").
Proof. reflexivity. Qed.

Example match_unparsable : mon_addr_match "node1:6789" = None.
Proof. reflexivity. Qed.

Example short_addr_ipv4 : _short_addr "192.168.0.1:6800/0" = "192.168.0.1".
Proof. reflexivity. Qed.

Example short_addr_ipv6 : _short_addr "[fe80::1]:6800/0" = "fe80::1".
Proof. reflexivity. Qed.

Example populate_order :
  List.filter (PyStr.startswith "_populate_") dir_self
  = ["_populate_counters"; "_populate_health"; "_populate_osds_and_pgs";
     "_populate_pools"; "_populate_space"].
Proof. reflexivity. Qed.

(* ===================================================================== *)
(** ** Address normalization *)
(* ===================================================================== *)

Lemma prefix_cons (a b : ascii) (s1 s2 : string) :
  String.prefix (String a s1) (String b s2)
  = if Ascii.ascii_dec a b then String.prefix s1 s2 else false.
Proof. reflexivity. Qed.

Lemma prefix_nil (s : string) : String.prefix EmptyString s = true.
Proof. by destruct s. Qed.

Lemma prefix_other_head (c d : ascii) (sep s : string) :
  Ascii.eqb c d = false -> String.prefix (String c sep) (String d s) = false.
Proof.
  intros H. cbn [String.prefix]. destruct (Ascii.ascii_dec c d) as [->|Hne]; [|done].
  by rewrite Ascii.eqb_refl in H.
Qed.

(** A text without the first character of the separator is one piece, and
    in front of a separator it is the first piece. *)
Lemma split_from_first_piece (c : ascii) (sep ip rest : string) :
  PyStr.contains_char c ip = false ->
  PyStr.split_from (String c sep) (ip ++ String c sep ++ rest) 0
  = ip :: PyStr.split_from (String c sep)
            (sep ++ rest) (String.length sep).
Proof.
  induction ip as [|d ip IH]; intros Hno.
  - change ("" ++ String c sep ++ rest) with (String c (sep ++ rest)).
    cbn [PyStr.split_from].
    assert (Hp : String.prefix (String c sep) (String c (sep ++ rest)) = true).
    { cbn [String.prefix]. destruct (Ascii.ascii_dec c c); [|congruence].
      clear. induction sep as [|a sep IH]; [by destruct rest|].
      simpl. destruct (Ascii.ascii_dec a a); [exact IH | congruence]. }
    by rewrite Hp.
  - cbn [PyStr.contains_char] in Hno. revert Hno.
    destruct (Ascii.eqb c d) eqn:Hcd; [done|]. intros Hno.
    change (String d ip ++ String c sep ++ rest)
      with (String d (ip ++ String c sep ++ rest)).
    cbn [PyStr.split_from].
    rewrite (prefix_other_head c d sep _ Hcd), (IH Hno). reflexivity.
Qed.

Lemma split_from_one_piece (c : ascii) (sep ip : string) :
  PyStr.contains_char c ip = false ->
  PyStr.split_from (String c sep) ip 0 = [ip].
Proof.
  induction ip as [|d ip IH]; intros Hno; [done|].
  cbn [PyStr.contains_char] in Hno. revert Hno.
  destruct (Ascii.eqb c d) eqn:Hcd; [done|]. intros Hno.
  cbn [PyStr.split_from]. by rewrite (prefix_other_head c d sep _ Hcd), (IH Hno).
Qed.

(** X1.  [_short_addr] on the two address forms of Ceph: [ip:port/nonce]
    and [[ip]:port/nonce] give the bare [ip]. *)
Theorem short_addr_strips (ip rest : string) :
  (PyStr.contains_char ":" ip = false -> PyStr.startswith "[" ip = false ->
   _short_addr (ip ++ ":" ++ rest) = ip)
  /\ (PyStr.contains_char "]" ip = false ->
      _short_addr ("[" ++ ip ++ "]:" ++ rest) = ip).
Proof.
  split.
  - intros Hno Hbr. unfold _short_addr.
    assert (Hst : PyStr.startswith "[" (ip ++ ":" ++ rest) = false).
    { destruct ip as [|d ip]; [done|]. revert Hbr. unfold PyStr.startswith.
      change (String d ip ++ ":" ++ rest) with (String d (ip ++ ":" ++ rest)).
      rewrite !prefix_cons, !prefix_nil. by destruct (Ascii.ascii_dec "[" d). }
    rewrite Hst. unfold PyStr.split0, PyStr.split.
    by rewrite (split_from_first_piece ":" "" ip rest Hno).
  - intros Hno. unfold _short_addr.
    assert (Hst : PyStr.startswith "[" ("[" ++ ip ++ "]:" ++ rest) = true).
    { unfold PyStr.startswith.
      change ("[" ++ ip ++ "]:" ++ rest) with (String "[" (ip ++ "]:" ++ rest)).
      rewrite prefix_cons, prefix_nil. by destruct (Ascii.ascii_dec "[" "["). }
    rewrite Hst. unfold PyStr.split0, PyStr.split.
    change ("[" ++ ip ++ "]:" ++ rest) with (String "[" ip ++ String "]" ":" ++ rest).
    rewrite (split_from_first_piece "]" ":" (String "[" ip) rest); [done|].
    cbn [PyStr.contains_char]. by rewrite Hno.
Qed.

(** The two addresses of the design document. *)
Lemma short_addr_strips_witness :
  _short_addr ("192.168.0.1" ++ ":" ++ "6800/0") = "192.168.0.1"
  /\ _short_addr ("[" ++ "fe80::1" ++ "]:" ++ "6800/0") = "fe80::1".
Proof.
  split.
  - apply (proj1 (short_addr_strips "192.168.0.1" "6800/0")); reflexivity.
  - apply (proj2 (short_addr_strips "fe80::1" "6800/0")); reflexivity.
Defined.

(** The address under which [_refresh_servers] registers a service. *)
Lemma server_key_ipv4 (ip rest : string) :
  PyStr.contains_char ":" ip = false -> PyStr.startswith "[" ip = false ->
  _short_addr (PyStr.split0 ":" (ip ++ ":" ++ rest)) = ip.
Proof.
  intros Hno Hbr. unfold PyStr.split0 at 1, PyStr.split.
  rewrite (split_from_first_piece ":" "" ip rest Hno).
  unfold _short_addr. rewrite Hbr. unfold PyStr.split0, PyStr.split.
  by rewrite (split_from_one_piece ":" "" ip Hno).
Qed.

Section ServerKey.
Variable E : Env.
Variable T : Telemetry.

(** X2.  An OSD or a monitor whose address has the IPv4 form
    [ip:port/nonce] is registered on the server keyed by the bare [ip]. *)
Theorem ipv4_server_key (ip rest : string) :
  PyStr.contains_char ":" ip = false -> PyStr.startswith "[" ip = false ->
  (forall old o, public_addr o = ip ++ ":" ++ rest ->
     register_osd E T old o =
     (service_status <- _register_service E T ip OSD (osd o) ("osd." ++ PyStr.of_Z (osd o));;
      ret (fst old ∖ {[ss_id service_status]}, snd old ∖ {[ip]})))
  /\ (forall old m, mon_addr m = ip ++ ":" ++ rest ->
     register_mon E T old m =
     (service_status <- _register_service E T ip MON (rank m) ("mon." ++ mon_name m);;
      ret (fst old ∖ {[ss_id service_status]}, snd old ∖ {[ip]}))).
Proof.
  intros Hno Hbr. split; intros old x Hx.
  - unfold register_osd. by rewrite Hx, (server_key_ipv4 ip rest Hno Hbr).
  - unfold register_mon. by rewrite Hx, (server_key_ipv4 ip rest Hno Hbr).
Qed.

End ServerKey.

(** An OSD and a monitor at 192.168.0.1. *)
Lemma ipv4_server_key_witness :
  let T := answers [] [] [] [] in
  let E := quiet_env (fun _ => T) in
  register_osd E T (∅, ∅) (osd_at 0 "192.168.0.1:6800/0") =
    (service_status <- _register_service E T "192.168.0.1" OSD 0 "osd.0";;
     ret ((∅ : gset Z) ∖ {[ss_id service_status]}, (∅ : gset string) ∖ {["192.168.0.1"]}))
  /\ register_mon E T (∅, ∅) (mon_at 0 "a" "192.168.0.1:6789/0") =
    (service_status <- _register_service E T "192.168.0.1" MON 0 "mon.a";;
     ret ((∅ : gset Z) ∖ {[ss_id service_status]}, (∅ : gset string) ∖ {["192.168.0.1"]})).
Proof.
  cbn zeta.
  destruct (ipv4_server_key (quiet_env (fun _ => answers [] [] [] []))
              (answers [] [] [] []) "192.168.0.1" "6800/0" eq_refl eq_refl) as [Ho _].
  destruct (ipv4_server_key (quiet_env (fun _ => answers [] [] [] []))
              (answers [] [] [] []) "192.168.0.1" "6789/0" eq_refl eq_refl) as [_ Hm].
  split.
  - exact (Ho (∅, ∅) (osd_at 0 "192.168.0.1:6800/0") eq_refl).
  - exact (Hm (∅, ∅) (mon_at 0 "a" "192.168.0.1:6789/0") eq_refl).
Defined.

(* ===================================================================== *)
(** ** The monitor probe *)
(* ===================================================================== *)

Lemma digit_not_space c : PyStr.is_digit c = true -> PyStr.is_space c = false.
Proof.
  destruct c as [[] [] [] [] [] [] [] []]; vm_compute; congruence.
Qed.

Lemma digit_not_sign c :
  PyStr.is_digit c = true -> c <> "-"%char /\ c <> "+"%char.
Proof.
  destruct c as [[] [] [] [] [] [] [] []]; vm_compute; intros; split; congruence.
Qed.

Lemma span_digits_all s : all_digits (fst (Re.span_digits s)) = true.
Proof.
  induction s as [|c s IH]; [reflexivity|]. simpl.
  destruct (PyStr.is_digit c) eqn:Hc; [|reflexivity].
  destruct (Re.span_digits s) as [d r]. simpl in *. by rewrite Hc, IH.
Qed.

Lemma digits_then_all lit s d r :
  Re.digits_then lit s = Some (d, r) -> all_digits d = true /\ d <> EmptyString.
Proof.
  unfold Re.digits_then. pose proof (span_digits_all s) as Hall.
  destruct (Re.span_digits s) as [[|c d'] [|c' r']]; try discriminate.
  destruct (Ascii.eqb c' lit); [|discriminate].
  intros [= <- <-]. split; [exact Hall | discriminate].
Qed.

Lemma digits_val_all s : forall acc, all_digits s = true -> is_Some (PyStr.digits_val acc s).
Proof.
  induction s as [|c s IH]; intros acc H; simpl in *; [by eexists|].
  apply andb_prop in H as [Hc Hs]. rewrite Hc. by apply IH.
Qed.

Lemma lstrip_digits s : all_digits s = true -> PyStr.lstrip s = s.
Proof.
  destruct s as [|c s]; [done|]. simpl. intros [Hc _]%andb_prop.
  by rewrite (digit_not_space c Hc).
Qed.

Lemma rstrip_digits s : all_digits s = true -> PyStr.rstrip s = s.
Proof.
  induction s as [|c s IH]; [done|]. intros [Hc Hs]%andb_prop.
  cbn [PyStr.rstrip]. rewrite (IH Hs), (digit_not_space c Hc). by destruct s.
Qed.

(** [int()] accepts what [\d+] matched. *)
Lemma to_int_digits s :
  all_digits s = true -> s <> EmptyString -> is_Some (PyStr.to_int s).
Proof.
  intros Hall Hne. unfold PyStr.to_int.
  rewrite (lstrip_digits s Hall), (rstrip_digits s Hall).
  destruct s as [|c s]; [done|].
  pose proof Hall as [Hc _]%andb_prop.
  destruct (digit_not_sign c Hc) as [Hm Hp].
  assert (Hgoal : is_Some (PyStr.digits_val 0 (String c s))) by by apply digits_val_all.
  destruct c as [[] [] [] [] [] [] [] []]; try exact Hgoal; try congruence;
    destruct s; exact Hgoal.
Qed.

Lemma mon_addr_match_port addr ip port_text :
  mon_addr_match addr = Some (ip, port_text) -> is_Some (PyStr.to_int port_text).
Proof.
  assert (Htail : forall s p, Re.match_IPV6_tail s = Some p -> is_Some (PyStr.to_int p)).
  { intros s p. unfold Re.match_IPV6_tail.
    destruct s as [|c1 [|c2 r]]; try discriminate.
    - destruct c1 as [[] [] [] [] [] [] [] []]; discriminate.
    - destruct (Re.digits_then "/" r) as [[d r']|] eqn:Hd.
      + destruct (digits_then_all _ _ _ _ Hd).
        destruct c1 as [[] [] [] [] [] [] [] []]; try discriminate;
          destruct c2 as [[] [] [] [] [] [] [] []]; try discriminate.
        intros [= <-]. by apply to_int_digits.
      + destruct c1 as [[] [] [] [] [] [] [] []]; try discriminate;
          destruct c2 as [[] [] [] [] [] [] [] []]; discriminate. }
  assert (Haddr : forall s a p, Re.match_IPV6_addr s = Some (a, p) -> is_Some (PyStr.to_int p)).
  { induction s as [|c s IH]; intros a p; simpl; [discriminate|].
    destruct (PyStr.is_space c); [discriminate|].
    destruct (Re.match_IPV6_addr s) as [[a' p']|].
    - intros [= <- <-]. by eapply IH.
    - destruct (Re.match_IPV6_tail s) as [p'|] eqn:Ht; [|discriminate].
      intros [= <- <-]. by eapply Htail. }
  unfold mon_addr_match, Re.match_IPV4.
  destruct (Re.digits_then "." addr) as [[a r1]|].
  2:{ unfold Re.match_IPV6. destruct addr as [|c r]; [discriminate|].
      destruct c as [[] [] [] [] [] [] [] []]; try discriminate. apply Haddr. }
  destruct (Re.digits_then "." r1) as [[b r2]|].
  2:{ unfold Re.match_IPV6. destruct addr as [|c r]; [discriminate|].
      destruct c as [[] [] [] [] [] [] [] []]; try discriminate. apply Haddr. }
  destruct (Re.digits_then "." r2) as [[c r3]|].
  2:{ unfold Re.match_IPV6. destruct addr as [|c0 r]; [discriminate|].
      destruct c0 as [[] [] [] [] [] [] [] []]; try discriminate. apply Haddr. }
  destruct (Re.digits_then ":" r3) as [[d r4]|].
  2:{ unfold Re.match_IPV6. destruct addr as [|c0 r]; [discriminate|].
      destruct c0 as [[] [] [] [] [] [] [] []]; try discriminate. apply Haddr. }
  destruct (Re.digits_then "/" r4) as [[p r5]|] eqn:Hp.
  2:{ unfold Re.match_IPV6. destruct addr as [|c0 r]; [discriminate|].
      destruct c0 as [[] [] [] [] [] [] [] []]; try discriminate. apply Haddr. }
  intros [= <- <-]. destruct (digits_then_all _ _ _ _ Hp). by apply to_int_digits.
Qed.

Lemma is_Exception_all e : is_Exception e = true.
Proof. unfold is_Exception. by destruct (exn_cls e). Qed.

(** C9, amended.  The probe always returns a boolean and never raises.  It
    returns [False] without a connection attempt when the address cannot be
    parsed and when its IP is 0.0.0.0, :: or 0:0:0:0:0:0:0:0; it returns
    [False] when the connection attempt fails; and it returns [True] exactly
    when the connection attempt succeeds, the socket then being closed: a
    failure of that [close] is swallowed and changes nothing. *)
Theorem try_mon_connect_total (E : Env) (mon : Mon) :
  let r := try_mon_connect E mon in
  (exists b, fst r = Return b)
  /\ (mon_addr_match (mon_addr mon) = None -> r = (Return false, []))
  /\ (forall ip port_text,
        mon_addr_match (mon_addr mon) = Some (ip, port_text) ->
        exists port,
          PyStr.to_int port_text = Some port
          /\ (ignored ip = true -> r = (Return false, []))
          /\ (ignored ip = false ->
              forall e, create_connection E ip port = Some e ->
                        r = (Return false, [EvConnect ip port]))
          /\ (ignored ip = false ->
              create_connection E ip port = None ->
              r = (Return true, [EvConnect ip port; EvClose ip port])))
  /\ (fst r = Return true <->
      exists ip port_text port,
        mon_addr_match (mon_addr mon) = Some (ip, port_text)
        /\ PyStr.to_int port_text = Some port
        /\ ignored ip = false
        /\ create_connection E ip port = None).
Proof.
  cbn zeta. unfold try_mon_connect.
  destruct (mon_addr_match (mon_addr mon)) as [[ip port_text]|] eqn:Hm.
  2:{ cbn. split; [eauto|]. split; [done|]. split; [discriminate|].
      split; [discriminate|]. intros (? & ? & ? & ? & _); discriminate. }
  destruct (mon_addr_match_port _ _ _ Hm) as [port Hport].
  unfold try_mon_connect_body. rewrite Hport. fold (ignored ip).
  destruct (ignored ip) eqn:Hig; [|destruct (create_connection E ip port) as [e|] eqn:Hconn].
  - cbn. split; [eauto|]. split; [discriminate|]. split.
    + intros ip' pt' [= <- <-]. exists port.
      repeat split; intros; congruence.
    + split; [discriminate|].
      intros (ip' & pt' & port' & [= <- <-] & _ & Hig' & _). congruence.
  - cbn. rewrite is_Exception_all. cbn. split; [eauto|]. split; [discriminate|]. split.
    + intros ip' pt' [= <- <-]. exists port.
      repeat split; intros; congruence.
    + split; [discriminate|].
      intros (ip' & pt' & port' & [= <- <-] & Hp' & _ & Hc'). congruence.
  - assert (Hfin : try_mon_connect_finally E (Some (ip, port)) = (None, [EvClose ip port])).
    { unfold try_mon_connect_finally.
      destruct (sock_close E ip port); [by rewrite is_Exception_all | done]. }
    rewrite Hfin. cbn. split; [eauto|]. split; [discriminate|]. split.
    + intros ip' pt' [= <- <-]. exists port.
      repeat split; intros; congruence.
    + split; [|done]. intros _. by exists ip, port_text, port.
Qed.

(** C9 as stated fails for a failure while closing the socket: the monitor
    accepts the connection, [close] raises, and the probe returns [True]. *)
Lemma close_failure_returns_true :
  let mon := mon_at 1 "b" "10.0.0.7:6789/0" in
  sock_close close_fails_env "10.0.0.7" 6789 = Some (Exn SocketError "close")
  /\ try_mon_connect close_fails_env mon
     = (Return true, [EvConnect "10.0.0.7" 6789; EvClose "10.0.0.7" 6789])
  /\ fst (try_mon_connect close_fails_env mon) <> Return false.
Proof. vm_compute. repeat split; try reflexivity. discriminate. Qed.

(** The unset addresses are never connected to. *)
Example unset_addresses_not_probed :
  map (fun a => try_mon_connect close_fails_env (mon_at 0 "a" a))
      ["0.0.0.0:6789/0"; "[::]:6789/0"; "[0:0:0:0:0:0:0:0]:6789/0"]
  = [(Return false, []); (Return false, []); (Return false, [])].
Proof. vm_compute. reflexivity. Qed.

Example unparsable_address_not_probed :
  try_mon_connect close_fails_env (mon_at 0 "a" "mon-a.example.com:6789/0")
  = (Return false, []).
Proof. vm_compute. reflexivity. Qed.

Example refused_connection :
  try_mon_connect (quiet_env (fun _ => answers [] [] [] [])) (mon_at 0 "a" "10.0.0.7:6789/0")
  = (Return false, [EvConnect "10.0.0.7" 6789]).
Proof. vm_compute. reflexivity. Qed.

(* ===================================================================== *)
(** ** The PG classifier *)
(* ===================================================================== *)

Lemma foldr_add_at (n : Z) (ls : list string) (m : gmap string Z) (l : string) :
  NoDup ls ->
  foldr (add_at n) m ls !! l =
  if decide (l ∈ ls) then Some (default 0 (m !! l) + n) else m !! l.
Proof.
  induction 1 as [|x ls Hx Hnd IH]; cbn [foldr].
  - rewrite decide_False; [done | apply not_elem_of_nil].
  - unfold add_at at 1. destruct (decide (x = l)) as [->|Hne].
    + rewrite lookup_insert_eq, IH.
      rewrite (decide_False (P := l ∈ ls)) by done.
      by rewrite decide_True by apply list_elem_of_here.
    + rewrite lookup_insert_ne, IH by done.
      destruct (decide (l ∈ ls)) as [Hin|Hin].
      * rewrite decide_True; [done | by apply list_elem_of_further].
      * rewrite decide_False; [done |].
        intros [->|?]%elem_of_cons; done.
Qed.

Lemma set_fold_add_at (n : Z) (X : gset string) (m : gmap string Z) (l : string) :
  set_fold (add_at n) m X !! l =
  if decide (l ∈ X) then Some (default 0 (m !! l) + n) else m !! l.
Proof.
  unfold set_fold; simpl. rewrite foldr_add_at by apply NoDup_elements.
  destruct (decide (l ∈ X)) as [Hin|Hin].
  - rewrite decide_True; [done | by apply elem_of_elements].
  - rewrite decide_False; [done | by rewrite elem_of_elements].
Qed.

(** The helper's test [len(matched_states) > 0]. *)
Lemma matched_nonempty (cls : gset string) (sts : list string) :
  (0 < size (cls ∩ list_to_set sts))%nat <-> has_label cls sts.
Proof.
  split.
  - intros Hsz. destruct (size_pos_elem_of (cls ∩ list_to_set sts) Hsz) as [l Hl].
    apply elem_of_intersection in Hl as [Hc Hs].
    exists l. split; [by apply elem_of_list_to_set in Hs | exact Hc].
  - intros (l & Hs & Hc).
    assert (Hl : l ∈ cls ∩ (list_to_set sts : gset string)).
    { apply elem_of_intersection. split; [exact Hc | by apply elem_of_list_to_set]. }
    destruct (decide (size (cls ∩ (list_to_set sts : gset string)) = 0%nat)) as [Hz|Hz].
    + apply size_empty_inv in Hz. rewrite Hz in Hl. by apply elem_of_empty in Hl.
    + lia.
Qed.

(** What [_pg_counter_helper] returns and does to its bucket. *)
Lemma _pg_counter_helper_hit cls sts n b :
  has_label cls sts ->
  exists b', _pg_counter_helper sts cls n b = (true, b') /\ credited cls sts n b b'.
Proof.
  intros H. unfold _pg_counter_helper.
  rewrite bool_decide_eq_true_2 by by apply matched_nonempty.
  eexists; split; [reflexivity|]. split; [reflexivity|]. intros l. cbn [states].
  rewrite set_fold_add_at.
  assert (Hiff : l ∈ cls ∩ (list_to_set sts : gset string) <-> l ∈ cls /\ l ∈ sts).
  { rewrite elem_of_intersection, elem_of_list_to_set. tauto. }
  destruct (decide (l ∈ cls ∩ list_to_set sts)) as [Hin|Hin].
  - rewrite decide_True; [done | by apply Hiff].
  - rewrite decide_False; [done | by rewrite <- Hiff].
Qed.

Lemma _pg_counter_helper_miss cls sts n b :
  ~ has_label cls sts -> _pg_counter_helper sts cls n b = (false, b).
Proof.
  intros H. unfold _pg_counter_helper.
  rewrite bool_decide_eq_false_2; [done | by rewrite matched_nonempty].
Qed.

(** One turn of the loop of the PG classifier on a state string. *)
Lemma pg_counters_step_precedence (ok_ warn_ crit_ : Bucket) (pg : PgByState) :
  let sts := map PyStr.lower (PyStr.split "+" (state_name pg)) in
  let n := pbs_count pg in
  let r := pg_counters_step (ok_, warn_, crit_) pg in
  (has_label CRIT_STATES sts ->
     credited CRIT_STATES sts n crit_ (snd r)
     /\ snd (fst r) = warn_ /\ fst (fst r) = ok_)
  /\ (~ has_label CRIT_STATES sts -> has_label WARN_STATES sts ->
        credited WARN_STATES sts n warn_ (snd (fst r))
        /\ snd r = crit_ /\ fst (fst r) = ok_)
  /\ (~ has_label CRIT_STATES sts -> ~ has_label WARN_STATES sts ->
      has_label OKAY_STATES sts ->
        credited OKAY_STATES sts n ok_ (fst (fst r))
        /\ snd r = crit_ /\ snd (fst r) = warn_)
  /\ (~ has_label CRIT_STATES sts -> ~ has_label WARN_STATES sts ->
      ~ has_label OKAY_STATES sts ->
        r = (ok_, warn_, crit_)).
Proof.
  cbn zeta. unfold pg_counters_step, pg_state_labels.
  set (sts := map PyStr.lower (PyStr.split "+" (state_name pg))).
  set (n := pbs_count pg).
  split; [|split; [|split]].
  - intros Hc.
    destruct (_pg_counter_helper_hit CRIT_STATES sts n crit_ Hc) as (b' & -> & Hb).
    split; [exact Hb | split; reflexivity].
  - intros Hc Hw. rewrite (_pg_counter_helper_miss CRIT_STATES) by exact Hc.
    destruct (_pg_counter_helper_hit WARN_STATES sts n warn_ Hw) as (b' & -> & Hb).
    split; [exact Hb | split; reflexivity].
  - intros Hc Hw Ho.
    rewrite (_pg_counter_helper_miss CRIT_STATES) by exact Hc.
    rewrite (_pg_counter_helper_miss WARN_STATES) by exact Hw.
    destruct (_pg_counter_helper_hit OKAY_STATES sts n ok_ Ho) as (b' & -> & Hb).
    split; [exact Hb | split; reflexivity].
  - intros Hc Hw Ho.
    rewrite (_pg_counter_helper_miss CRIT_STATES) by exact Hc.
    rewrite (_pg_counter_helper_miss WARN_STATES) by exact Hw.
    rewrite (_pg_counter_helper_miss OKAY_STATES) by exact Ho.
    reflexivity.
Qed.

(** Two calls of the helper on buckets that differ by a credit. *)
Lemma credited_commute (cls1 cls2 : gset string) (sts1 sts2 : list string) (n m : Z)
    (b b' b2 b2' : Bucket) :
  credited cls1 sts1 n b b' ->
  credited cls2 sts2 m b b2 -> credited cls2 sts2 m b' b2' ->
  credited cls1 sts1 n b2 b2'.
Proof.
  intros [Hc Hs] [Hc2 Hs2] [Hc2' Hs2']. split; [lia|]. intros l.
  rewrite Hs2', Hs2, Hs.
  destruct (decide (l ∈ cls1 /\ l ∈ sts1)), (decide (l ∈ cls2 /\ l ∈ sts2));
    try reflexivity; cbn [default from_option id]; unfold id; f_equal; lia.
Qed.

Lemma credited_functional (cls : gset string) (sts : list string) (m : Z)
    (b b2 b2' : Bucket) :
  credited cls sts m b b2 -> credited cls sts m b b2' -> b2 = b2'.
Proof.
  intros [Hc Hs] [Hc' Hs']. destruct b2 as [c2 m2], b2' as [c2' m2'].
  cbn [count states] in *. f_equal; [lia|]. apply map_eq. intros l.
  by rewrite Hs, Hs'.
Qed.

(** The helper hits or misses by the labels alone. *)
Lemma _pg_counter_helper_cases (cls : gset string) (sts : list string) (n : Z) :
  (forall b, exists b',
     _pg_counter_helper sts cls n b = (true, b') /\ credited cls sts n b b')
  \/ (forall b, _pg_counter_helper sts cls n b = (false, b)).
Proof.
  destruct (decide (0 < size (cls ∩ (list_to_set sts : gset string)))%nat) as [H|H].
  - left. intros b. apply _pg_counter_helper_hit. by apply matched_nonempty.
  - right. intros b. apply _pg_counter_helper_miss. by rewrite <- matched_nonempty.
Qed.

Section PgRelated.
Variables Pc Pw Po : Bucket -> Bucket -> Prop.
Hypothesis Pc_stable : forall cls sts m b b' b2 b2',
  Pc b b' -> credited cls sts m b b2 -> credited cls sts m b' b2' -> Pc b2 b2'.
Hypothesis Pw_stable : forall cls sts m b b' b2 b2',
  Pw b b' -> credited cls sts m b b2 -> credited cls sts m b' b2' -> Pw b2 b2'.
Hypothesis Po_stable : forall cls sts m b b' b2 b2',
  Po b b' -> credited cls sts m b b2 -> credited cls sts m b' b2' -> Po b2 b2'.

(** Buckets related before a turn of the loop are related after it. *)
Lemma pg_counters_step_related (X X' : Bucket * Bucket * Bucket) (pg : PgByState) :
  Pc (snd X) (snd X') /\ Pw (snd (fst X)) (snd (fst X'))
  /\ Po (fst (fst X)) (fst (fst X')) ->
  Pc (snd (pg_counters_step X pg)) (snd (pg_counters_step X' pg))
  /\ Pw (snd (fst (pg_counters_step X pg))) (snd (fst (pg_counters_step X' pg)))
  /\ Po (fst (fst (pg_counters_step X pg))) (fst (fst (pg_counters_step X' pg))).
Proof.
  destruct X as [[o w] c], X' as [[o' w'] c']. cbn [fst snd].
  intros (Hc & Hw & Ho). unfold pg_counters_step.
  destruct (_pg_counter_helper_cases CRIT_STATES (pg_state_labels (state_name pg))
              (pbs_count pg)) as [Hhit|Hmiss].
  { destruct (Hhit c) as (c2 & -> & H2), (Hhit c') as (c2' & -> & H2').
    cbn [fst snd]. split; [by eapply Pc_stable|done]. }
  rewrite !Hmiss.
  destruct (_pg_counter_helper_cases WARN_STATES (pg_state_labels (state_name pg))
              (pbs_count pg)) as [Hhit|Hmiss2].
  { destruct (Hhit w) as (w2 & -> & H2), (Hhit w') as (w2' & -> & H2').
    cbn [fst snd]. split; [done|]. split; [by eapply Pw_stable|done]. }
  rewrite !Hmiss2.
  destruct (_pg_counter_helper_cases OKAY_STATES (pg_state_labels (state_name pg))
              (pbs_count pg)) as [Hhit|Hmiss3].
  { destruct (Hhit o) as (o2 & -> & H2), (Hhit o') as (o2' & -> & H2').
    cbn [fst snd]. split; [done|]. split; [done|by eapply Po_stable]. }
  by rewrite !Hmiss3.
Qed.

Lemma pg_counters_loop_related (pgs : list PgByState) :
  forall X X' : Bucket * Bucket * Bucket,
    Pc (snd X) (snd X') /\ Pw (snd (fst X)) (snd (fst X'))
    /\ Po (fst (fst X)) (fst (fst X')) ->
    Pc (snd (fold_left pg_counters_step pgs X))
       (snd (fold_left pg_counters_step pgs X'))
    /\ Pw (snd (fst (fold_left pg_counters_step pgs X)))
          (snd (fst (fold_left pg_counters_step pgs X')))
    /\ Po (fst (fst (fold_left pg_counters_step pgs X)))
          (fst (fst (fold_left pg_counters_step pgs X'))).
Proof.
  induction pgs as [|pg pgs IH]; intros X X' H; cbn [fold_left]; [exact H|].
  apply IH. by apply pg_counters_step_related.
Qed.

End PgRelated.

Lemma eq_stable (cls : gset string) (sts : list string) (m : Z)
    (b b' b2 b2' : Bucket) :
  b = b' -> credited cls sts m b b2 -> credited cls sts m b' b2' -> b2 = b2'.
Proof. intros <-. apply credited_functional. Qed.

(** C3.  The PG classifier on the whole of [pgs_by_state], entry by entry:
    compare the result with and without an entry [pg] at any place of the
    list.  When a label of [pg] is critical, the count of [pg] is added to
    the critical bucket and to the sub-count of each matching critical
    label, and the warn and ok buckets are the same, whatever other labels
    are present; otherwise the warn set is tried in the same way, then the
    ok set; an entry matching none of the sets changes nothing.  Without
    entries all buckets are empty. *)
Theorem pg_classifier_precedence (before after : list PgByState) (pg : PgByState) :
  let sts := map PyStr.lower (PyStr.split "+" (state_name pg)) in
  let n := pbs_count pg in
  let r := _calculate_pg_counters (before ++ after) in
  let r' := _calculate_pg_counters (before ++ pg :: after) in
  _calculate_pg_counters []
  = {| ok := empty_bucket; warn := empty_bucket; critical := empty_bucket |}
  /\ (has_label CRIT_STATES sts ->
        credited CRIT_STATES sts n (critical r) (critical r')
        /\ warn r' = warn r /\ ok r' = ok r)
  /\ (~ has_label CRIT_STATES sts -> has_label WARN_STATES sts ->
        credited WARN_STATES sts n (warn r) (warn r')
        /\ critical r' = critical r /\ ok r' = ok r)
  /\ (~ has_label CRIT_STATES sts -> ~ has_label WARN_STATES sts ->
      has_label OKAY_STATES sts ->
        credited OKAY_STATES sts n (ok r) (ok r')
        /\ critical r' = critical r /\ warn r' = warn r)
  /\ (~ has_label CRIT_STATES sts -> ~ has_label WARN_STATES sts ->
      ~ has_label OKAY_STATES sts ->
        r' = r).
Proof.
  cbn zeta. split; [reflexivity|].
  unfold _calculate_pg_counters. rewrite !fold_left_app. cbn [fold_left].
  set (X := fold_left pg_counters_step before _).
  destruct (pg_counters_step_precedence (fst (fst X)) (snd (fst X)) (snd X) pg)
    as (Kc & Kw & Ko & Kn).
  cbn zeta in Kc, Kw, Ko, Kn.
  replace (fst (fst X), snd (fst X), snd X) with X in Kc, Kw, Ko, Kn
    by by destruct X as [[? ?] ?].
  split; [|split; [|split]].
  - intros Hc. destruct (Kc Hc) as (H1 & H2 & H3).
    destruct (pg_counters_loop_related
                (credited CRIT_STATES (map PyStr.lower (PyStr.split "+" (state_name pg)))
                   (pbs_count pg)) eq eq
                (fun cls sts m => credited_commute _ cls _ sts _ m) eq_stable eq_stable
                after X (pg_counters_step X pg)) as (R1 & R2 & R3);
      [split; [exact H1|split; by symmetry]|].
    destruct (fold_left _ after X) as [[o w] c],
      (fold_left _ after (pg_counters_step X pg)) as [[o' w'] c'].
    cbn [fst snd ok warn critical] in *. split; [exact R1|split; by symmetry].
  - intros Hc Hw. destruct (Kw Hc Hw) as (H1 & H2 & H3).
    destruct (pg_counters_loop_related eq
                (credited WARN_STATES (map PyStr.lower (PyStr.split "+" (state_name pg)))
                   (pbs_count pg)) eq
                eq_stable (fun cls sts m => credited_commute _ cls _ sts _ m) eq_stable
                after X (pg_counters_step X pg)) as (R1 & R2 & R3);
      [split; [by symmetry|split; [exact H1|by symmetry]]|].
    destruct (fold_left _ after X) as [[o w] c],
      (fold_left _ after (pg_counters_step X pg)) as [[o' w'] c'].
    cbn [fst snd ok warn critical] in *. split; [exact R2|split; by symmetry].
  - intros Hc Hw Ho. destruct (Ko Hc Hw Ho) as (H1 & H2 & H3).
    destruct (pg_counters_loop_related eq eq
                (credited OKAY_STATES (map PyStr.lower (PyStr.split "+" (state_name pg)))
                   (pbs_count pg))
                eq_stable eq_stable (fun cls sts m => credited_commute _ cls _ sts _ m)
                after X (pg_counters_step X pg)) as (R1 & R2 & R3);
      [split; [by symmetry|split; [by symmetry|exact H1]]|].
    destruct (fold_left _ after X) as [[o w] c],
      (fold_left _ after (pg_counters_step X pg)) as [[o' w'] c'].
    cbn [fst snd ok warn critical] in *. split; [exact R3|split; by symmetry].
  - intros Hc Hw Ho. by rewrite (Kn Hc Hw Ho).
Qed.

(* ===================================================================== *)
(** ** The OSD classifier *)
(* ===================================================================== *)

Section OsdClassifier.

(** Spell out the cell tests on one OSD, leaving the cells themselves folded. *)
Ltac cells_of o :=
  change (is_up_in o) with (truthy (up o) && truthy (in_ o));
  change (is_up_out o) with (truthy (up o) && negb (truthy (in_ o)));
  change (is_down_in o) with (negb (truthy (up o)) && truthy (in_ o));
  change (is_down_out o) with (negb (truthy (up o)) && negb (truthy (in_ o))).

Lemma how_many_cons cell o os :
  how_many cell (o :: os) = (if cell o then 1 else 0) + how_many cell os.
Proof.
  unfold how_many. simpl. destruct (cell o); simpl length; lia.
Qed.

(** The loop adds each OSD to the tally of its cell and to no other. *)
Lemma osd_tally_fold os : forall c,
  let c' := fold_left osd_tally_step os c in
  total c' = total c
  /\ up_in c' = up_in c + how_many is_up_in os
  /\ up_not_in c' = up_not_in c + how_many is_up_out os
  /\ not_up_in c' = not_up_in c + how_many is_down_in os
  /\ not_up_not_in c' = not_up_not_in c + how_many is_down_out os.
Proof.
  induction os as [|o os IH]; intros c; cbn zeta.
  - unfold how_many; simpl. repeat split; lia.
  - simpl fold_left. specialize (IH (osd_tally_step c o)). cbn zeta in IH.
    destruct IH as (Ht & H1 & H2 & H3 & H4).
    rewrite Ht, H1, H2, H3, H4, !how_many_cons.
    unfold osd_tally_step. cells_of o.
    destruct (truthy (up o)), (truthy (in_ o));
      cbn [andb negb total up_in up_not_in not_up_in not_up_not_in];
      repeat split; lia.
Qed.

(** Every OSD lies in exactly one cell. *)
Lemma cells_partition os :
  how_many is_up_in os + how_many is_up_out os + how_many is_down_in os
  + how_many is_down_out os = Z.of_nat (length os).
Proof.
  induction os as [|o os IH]; [reflexivity|].
  rewrite !how_many_cons.
  change (length (o :: os)) with (S (length os)). rewrite Nat2Z.inj_succ.
  cells_of o.
  destruct (truthy (up o)), (truthy (in_ o)); cbn [andb negb]; lia.
Qed.

(** C6.  For every OSD map the three bucket counts partition the OSDs by
    their (up, in) flags: [ok] counts the OSDs that are up and in, [warn]
    those with exactly one of the two flags set, [critical] those with
    neither, and the three counts add up to the number of OSDs. *)
Theorem osd_counters_partition (os : list Osd) :
  let r := _calculate_osd_counters os in
  count (ok r) = how_many is_up_in os
  /\ count (warn r) = how_many is_up_out os + how_many is_down_in os
  /\ count (critical r) = how_many is_down_out os
  /\ count (ok r) + count (warn r) + count (critical r) = Z.of_nat (length os).
Proof.
  cbn zeta. unfold _calculate_osd_counters, osd_tally. cbn [count ok warn critical].
  destruct (osd_tally_fold os
    {| total := Z.of_nat (length os); not_up_not_in := 0; not_up_in := 0;
       up_not_in := 0; up_in := 0 |}) as (_ & H1 & H2 & H3 & H4).
  cbn [up_in up_not_in not_up_in not_up_not_in] in *.
  rewrite H1, H2, H3, H4. pose proof (cells_partition os). repeat split; lia.
Qed.

End OsdClassifier.

(* ===================================================================== *)
(** ** The monitor classifier *)
(* ===================================================================== *)

Section MonClassifier.
Variable E : Env.

Lemma try_mon_connect_returns mon : exists b, fst (try_mon_connect E mon) = Return b.
Proof.
  unfold try_mon_connect, try_mon_connect_body.
  destruct (mon_addr_match (mon_addr mon)) as [[ip pt]|]; [|by eexists].
  destruct (PyStr.to_int pt) as [port|]; [|by eexists].
  destruct (existsb _ _); [by eexists|].
  destruct (create_connection E ip port) as [e|].
  - cbn. rewrite is_Exception_all. by eexists.
  - cbn. destruct (sock_close E ip port) as [e|]; cbn;
      [rewrite is_Exception_all|]; by eexists.
Qed.

Lemma mon_tally_sums qrm mons : forall a b c,
  exists a' b' c',
    mon_tally E qrm mons (a, b, c) = Return (a', b', c')
    /\ a' = a + how_many_in_quorum qrm mons
    /\ a' + b' + c' = a + b + c + Z.of_nat (length mons).
Proof.
  induction mons as [|mon mons IH]; intros a b c; cbn [mon_tally].
  - exists a, b, c. unfold how_many_in_quorum. cbn. repeat split; lia.
  - unfold how_many_in_quorum in *. cbn [List.filter].
    change (length (mon :: mons)) with (S (length mons)). rewrite Nat2Z.inj_succ.
    destruct (existsb (Z.eqb (rank mon)) qrm) eqn:Hq.
    + destruct (IH (a + 1) b c) as (a' & b' & c' & -> & Ha & Hs).
      exists a', b', c'. cbn [length]. rewrite Nat2Z.inj_succ.
      repeat split; lia.
    + destruct (try_mon_connect_returns mon) as [[] ->].
      * destruct (IH a (b + 1) c) as (a' & b' & c' & -> & Ha & Hs).
        exists a', b', c'. repeat split; lia.
      * destruct (IH a b (c + 1)) as (a' & b' & c' & -> & Ha & Hs).
        exists a', b', c'. repeat split; lia.
Qed.

(** X5.  The monitor classifier always returns; its three counts add up to the
    number of monitors, and [ok] counts the monitors whose rank is in the
    quorum. *)
Theorem mon_counters_partition (st : StatusDoc) :
  exists r,
    _calculate_mon_counters E st = Return r
    /\ count (ok r) = how_many_in_quorum (quorum st) (status_mons st)
    /\ count (ok r) + count (warn r) + count (critical r)
       = Z.of_nat (length (status_mons st)).
Proof.
  unfold _calculate_mon_counters.
  destruct (mon_tally_sums (quorum st) (status_mons st) 0 0 0)
    as (a & b & c & -> & Ha & Hs).
  eexists. split; [reflexivity|]. cbn [count ok warn critical]. split; lia.
Qed.

End MonClassifier.

(** The example of the design document: three OSDs, two up and in and one
    down and out; one PG active+clean and one down+peering. *)
Example end_to_end_counters :
  let os := [osd_at 0 "10.0.0.1:6800/0"; osd_at 1 "10.0.0.1:6801/0";
             {| osd := 2; uuid := ""; up := 0; in_ := 0; up_from := 0;
                public_addr := "10.0.0.1:6802/0"; cluster_addr := "";
                heartbeat_back_addr := ""; heartbeat_front_addr := "" |}] in
  let pgs := [{| pbs_count := 1; state_name := "active+clean" |};
              {| pbs_count := 1; state_name := "down+peering" |}] in
  let o := _calculate_osd_counters os in
  let p := _calculate_pg_counters pgs in
  (count (ok o), count (warn o), count (critical o)) = (2, 0, 1)
  /\ (count (ok p), count (warn p), count (critical p)) = (1, 0, 1)
  /\ (states (critical p) !! "down", states (critical p) !! "peering",
      states (critical p) !! "stale") = (Some 1, Some 1, None)
  /\ (states (ok p) !! "active", states (ok p) !! "clean") = (Some 1, Some 1).
Proof. vm_compute. repeat split; reflexivity. Qed.

(* ===================================================================== *)
(** ** What reconciliation leaves alone *)
(* ===================================================================== *)

Lemma keeps_ret {A} (a : A) : keeps (ret a).
Proof. by intros s. Qed.

Lemma keeps_raise {A} e : keeps (@raise St A e).
Proof. by intros s. Qed.

Lemma keeps_lift {A} (o : Outcome A) : keeps (lift o).
Proof. by intros s. Qed.

Lemma keeps_get : keeps (@get St).
Proof. by intros s. Qed.

Lemma keeps_bind {A B} (m : M St A) (k : A -> M St B) :
  keeps m -> (forall a, keeps (k a)) -> keeps (bind m k).
Proof.
  intros Hm Hk s. unfold bind. specialize (Hm s).
  destruct (m s) as [[a|e] s1]; cbn [snd] in *; [|exact Hm].
  destruct (Hk a s1) as (H1 & H2 & H3 & H7), Hm as (H4 & H5 & H6 & H8).
  repeat split; congruence.
Qed.

Lemma keeps_on_db f : registry_only f -> keeps (modify (on_db f)).
Proof. intros Hf s. destruct (Hf (db s)) as (? & ? & ?). by repeat split. Qed.

Lemma keeps_on_crush f : keeps (modify (on_crush f)).
Proof. by intros s. Qed.

Lemma keeps_on_osd_name_to_server f : keeps (modify (on_osd_name_to_server f)).
Proof. by intros s. Qed.

Lemma keeps_orm {A} (m : M Store A) :
  (forall d, pools (snd (m d)) = pools d /\ clusters (snd (m d)) = clusters d
             /\ next_pool_pk (snd (m d)) = next_pool_pk d) ->
  keeps (orm m).
Proof.
  intros Hm s. unfold orm. specialize (Hm (db s)).
  destruct (m (db s)) as [o d']. cbn in *. by destruct Hm as (? & ? & ?).
Qed.

Lemma keeps_for_each {A} (xs : list A) (body : A -> M St unit) :
  (forall x, keeps (body x)) -> keeps (for_each xs body).
Proof.
  intros Hb. induction xs as [|x xs IH]; cbn [for_each].
  - apply keeps_ret.
  - apply keeps_bind; [apply Hb | intros _; exact IH].
Qed.

Lemma keeps_for_fold {A B} (xs : list A) (body : B -> A -> M St B) :
  (forall b x, keeps (body b x)) -> forall b, keeps (for_fold xs body b).
Proof.
  intros Hb. induction xs as [|x xs IH]; intros b; cbn [for_fold].
  - apply keeps_ret.
  - apply keeps_bind; [apply Hb | intros b'; apply IH].
Qed.

Lemma registry_only_set_servers f : registry_only (set_servers f).
Proof. by intros d. Qed.

Lemma registry_only_set_services f : registry_only (set_services f).
Proof. by intros d. Qed.

Lemma registry_only_Server_delete_addr_in addrs :
  registry_only (Models.Server_delete_addr_in addrs).
Proof. by intros d. Qed.

Create HintDb keeps.
#[local] Hint Resolve keeps_ret keeps_raise keeps_lift keeps_get keeps_on_crush
  keeps_on_osd_name_to_server registry_only_set_servers
  registry_only_set_services registry_only_Server_delete_addr_in : keeps.

(** Walk through a method written with [bind]. *)
Ltac keeps_steps :=
  repeat first
    [ progress auto with keeps
    | apply keeps_bind; [|intros ?]
    | apply keeps_on_db
    | apply keeps_for_each; intros ?
    | apply keeps_for_fold; intros ? ? ].

Section RegistryFrame.
Variable E : Env.
Variable T : Telemetry.

Lemma keeps_crush_osd_hostnames : keeps (crush_osd_hostnames E T).
Proof.
  unfold crush_osd_hostnames. apply keeps_bind; [auto with keeps|]. intros s.
  destruct (_crush_osd_hostnames s); keeps_steps.
  unfold crush_hosts_step.
  destruct (String.eqb _ _); [|auto with keeps].
  destruct (String.eqb _ _); keeps_steps.
Qed.

Lemma keeps_save_server server : keeps (save_server server).
Proof. unfold save_server. keeps_steps. Qed.

Lemma keeps_guess_hostname a t n server : keeps (guess_hostname E T a t n server).
Proof.
  unfold guess_hostname. destruct (srv_hostname server); [auto with keeps|].
  destruct t.
  - apply keeps_bind; [apply keeps_crush_osd_hostnames|]. intros crush.
    destruct (match srv_hostname _ with Some _ => _ | None => _ end);
      (apply keeps_bind; [apply keeps_save_server | auto with keeps]).
  - destruct (_reverse_dns E a);
      (apply keeps_bind; [apply keeps_save_server | auto with keeps]).
Qed.

Lemma keeps_Server_get_or_create cid a : keeps (orm (Models.Server_get_or_create cid a)).
Proof.
  apply keeps_orm. intros d. unfold Models.Server_get_or_create.
  destruct (List.filter _ _) as [|? [|? ?]]; by cbn.
Qed.

Lemma keeps_ServiceStatus_get_or_create s t i :
  keeps (orm (Models.ServiceStatus_get_or_create s t i)).
Proof.
  apply keeps_orm. intros d. unfold Models.ServiceStatus_get_or_create.
  destruct (List.filter _ _) as [|? [|? ?]]; by cbn.
Qed.

Lemma keeps_register_service a t i n : keeps (_register_service E T a t i n).
Proof.
  unfold _register_service.
  apply keeps_bind; [auto with keeps|]. intros s0.
  apply keeps_bind; [apply keeps_Server_get_or_create|]. intros sc.
  apply keeps_bind; [apply keeps_ServiceStatus_get_or_create|]. intros xc.
  apply keeps_bind.
  - destruct (snd xc); [|auto with keeps].
    apply keeps_bind; [apply keeps_on_db; auto with keeps|]. intros _.
    apply keeps_bind; [apply keeps_on_db; by intros d|]. intros _.
    apply keeps_bind; [apply keeps_guess_hostname|]. intros server.
    auto with keeps.
  - intros r. apply keeps_bind; [destruct t; auto with keeps | auto with keeps].
Qed.

(** Registry reconciliation touches servers and service rows only. *)
Lemma keeps_refresh_servers : keeps (_refresh_servers E T).
Proof.
  unfold _refresh_servers.
  apply keeps_bind; [auto with keeps|]. intros mon_status.
  apply keeps_bind; [auto with keeps|]. intros osd_map.
  apply keeps_bind; [auto with keeps|]. intros s.
  apply keeps_bind.
  { apply keeps_for_fold. intros old o. unfold register_osd.
    apply keeps_bind; [apply keeps_register_service | auto with keeps]. }
  intros old. apply keeps_bind.
  { apply keeps_for_fold. intros old' m. unfold register_mon.
    apply keeps_bind; [apply keeps_register_service | auto with keeps]. }
  intros old'. apply keeps_bind; [apply keeps_on_db; auto with keeps|].
  intros _. apply keeps_on_db; auto with keeps.
Qed.

End RegistryFrame.

(* ===================================================================== *)
(** ** Registering an OSD *)
(* ===================================================================== *)

Section Preserves.
Context (R : St -> St -> Prop).
Hypothesis R_refl : forall s, R s s.
Hypothesis R_trans : forall s1 s2 s3, R s1 s2 -> R s2 s3 -> R s1 s3.

Lemma preserves_pure {A} (o : Outcome A) : preserves R (lift o).
Proof. intros s. apply R_refl. Qed.

Lemma preserves_get : preserves R (@get St).
Proof. intros s. apply R_refl. Qed.

Lemma preserves_bind {A B} (m : M St A) (k : A -> M St B) :
  preserves R m -> (forall a, preserves R (k a)) -> preserves R (bind m k).
Proof.
  intros Hm Hk s. unfold bind. specialize (Hm s).
  destruct (m s) as [[a|e] s1]; cbn [snd] in *; [|exact Hm].
  eapply R_trans; [exact Hm | apply Hk].
Qed.

Lemma preserves_for_each {A} (xs : list A) (body : A -> M St unit) :
  (forall x, preserves R (body x)) -> preserves R (for_each xs body).
Proof.
  intros Hb. induction xs as [|x xs IH]; cbn [for_each].
  - intros s. apply R_refl.
  - apply preserves_bind; [apply Hb | intros _; exact IH].
Qed.

End Preserves.

Lemma same_db_refl s : same_db s s.
Proof. reflexivity. Qed.

Lemma same_db_trans s1 s2 s3 : same_db s1 s2 -> same_db s2 s3 -> same_db s1 s3.
Proof. unfold same_db. congruence. Qed.

Lemma same_services_refl sid scl s : same_services sid scl s s.
Proof. by split. Qed.

Lemma same_services_trans sid scl s1 s2 s3 :
  same_services sid scl s1 s2 -> same_services sid scl s2 s3 ->
  same_services sid scl s1 s3.
Proof.
  intros [H1 K1] [H2 K2]. split; [congruence|]. intros Hk.
  destruct (K1 Hk) as [Hk2 E1]. destruct (K2 Hk2) as [Hk3 E2].
  split; [exact Hk3|]. intros cid x. by rewrite E2, E1.
Qed.

Lemma same_db_same_services sid scl s s' : same_db s s' -> same_services sid scl s s'.
Proof. unfold same_db. intros H. split; rewrite H; [done|]. by intros. Qed.

Lemma existsb_map_comp {A B} (f : B -> bool) (g : A -> B) (l : list A) :
  existsb f (map g l) = existsb (fun x => f (g x)) l.
Proof. induction l as [|x l IH]; [done|]. cbn [map existsb]. by rewrite IH. Qed.

Lemma existsb_ext_In {A} (f g : A -> bool) (l : list A) :
  (forall x, In x l -> f x = g x) -> existsb f l = existsb g l.
Proof.
  induction l as [|x l IH]; intros H; [done|]. cbn [existsb].
  rewrite (H x) by by left. rewrite IH; [done|]. intros y Hy. apply H. by right.
Qed.

(** Saving a known server under its key and cluster keeps it known and
    keeps the cluster found through any foreign key. *)
Lemma save_row_known sid scl (server : Server) (rows : list Server) :
  srv_id server = sid -> srv_cluster server = scl ->
  server_known sid scl rows ->
  server_known sid scl (Models.save_row srv_id server rows)
  /\ forall fk cid,
       existsb (fun r => (srv_id r =? fk) && (srv_cluster r =? cid))
               (Models.save_row srv_id server rows)
       = existsb (fun r => (srv_id r =? fk) && (srv_cluster r =? cid)) rows.
Proof.
  intros Hid Hcl [(r0 & Hr0 & Hr0id) Hall]. unfold Models.save_row.
  assert (Hex : existsb (fun x => srv_id x =? srv_id server) rows = true).
  { apply existsb_exists. exists r0. split; [exact Hr0|]. apply Z.eqb_eq. congruence. }
  rewrite Hex. split; [split|].
  - exists server. split; [|exact Hid]. apply in_map_iff. exists r0.
    split; [|exact Hr0]. replace (srv_id r0 =? srv_id server) with true; [done|].
    symmetry. apply Z.eqb_eq. congruence.
  - intros r [r' [Hr' Hin]]%in_map_iff Hrid.
    destruct (srv_id r' =? srv_id server) eqn:Heq; subst r; [exact Hcl|].
    by apply Hall.
  - intros fk cid. rewrite existsb_map_comp. apply existsb_ext_In. intros r Hr.
    destruct (srv_id r =? srv_id server) eqn:Heq; [|reflexivity].
    apply Z.eqb_eq in Heq. rewrite (Hall r Hr) by congruence. congruence.
Qed.

Lemma save_known_server sid scl (server : Server) s :
  srv_id server = sid -> srv_cluster server = scl ->
  same_services sid scl s (snd (save_server server s)).
Proof.
  intros Hid Hcl. split; [reflexivity|]. intros Hk.
  destruct (save_row_known sid scl server (servers (db s)) Hid Hcl Hk) as [Hk' Hex].
  split; [exact Hk'|]. intros cid x. apply Hex.
Qed.

Section RegisterOsd.
Variable E : Env.
Variable T : Telemetry.

Lemma crush_osd_hostnames_same_db : preserves same_db (crush_osd_hostnames E T).
Proof.
  unfold crush_osd_hostnames.
  apply (preserves_bind _ same_db_trans); [apply (preserves_get _ same_db_refl)|].
  intros s. destruct (_crush_osd_hostnames s); [apply (preserves_pure _ same_db_refl)|].
  apply (preserves_bind _ same_db_trans); [apply (preserves_pure _ same_db_refl)|].
  intros nodes.
  apply (preserves_bind _ same_db_trans); [by intros ?|]. intros _.
  apply (preserves_bind _ same_db_trans).
  - apply (preserves_for_each _ same_db_refl same_db_trans). intros node.
    unfold crush_hosts_step.
    destruct (String.eqb _ _); [|apply (preserves_pure _ same_db_refl)].
    destruct (String.eqb _ _); [apply (preserves_pure _ same_db_refl)|].
    apply (preserves_bind _ same_db_trans); [apply (preserves_pure _ same_db_refl)|].
    intros found.
    apply (preserves_for_each _ same_db_refl same_db_trans). by intros o ?.
  - intros _.
    apply (preserves_bind _ same_db_trans); [apply (preserves_get _ same_db_refl)|].
    intros ?. apply (preserves_pure _ same_db_refl).
Qed.

Lemma guess_hostname_same_services a t n (server : Server) :
  preserves (same_services (srv_id server) (srv_cluster server))
            (guess_hostname E T a t n server).
Proof.
  set (sid := srv_id server). set (scl := srv_cluster server).
  pose proof (same_services_refl sid scl) as Hr.
  pose proof (same_services_trans sid scl) as Ht.
  assert (Hsave : forall server', srv_id server' = sid -> srv_cluster server' = scl ->
            preserves (same_services sid scl)
              (save_server server';;; ret server')).
  { intros server' H1 H2.
    apply (preserves_bind _ Ht); [|intros _; apply (preserves_pure _ Hr)].
    intros s. by apply save_known_server. }
  unfold guess_hostname. destruct (srv_hostname server); [apply (preserves_pure _ Hr)|].
  destruct t.
  - apply (preserves_bind _ Ht).
    + intros s. apply same_db_same_services. apply crush_osd_hostnames_same_db.
    + intros crush.
      destruct (match srv_hostname _ with Some _ => _ | None => _ end);
        by apply Hsave.
  - destruct (_reverse_dns E a); by apply Hsave.
Qed.

(** Deleting the rows selected on a database leaves none of them. *)
Lemma filter_delete_rows {R} (sel : R -> bool) (rows : list R) :
  List.filter sel (Models.delete_rows sel rows) = [].
Proof.
  unfold Models.delete_rows. induction rows as [|r rows IH]; [done|].
  cbn [List.filter]. destruct (sel r) eqn:Hr; cbn [negb List.filter]; [exact IH|].
  by rewrite Hr.
Qed.

(** X6.  When [_register_service] returns the row of an OSD, either the
    row was there before the step, or no other row of that OSD is left on
    another server of the cluster: an OSD that moved has one row. *)
Theorem register_osd_leaves_one_row (a n : string) (i : Z) (s s' : St)
    (row : ServiceStatus) :
  server_pks_sound (db s) ->
  _register_service E T a OSD i n s = (Return row, s') ->
  In row (services (db s))
  \/ rows_elsewhere (db s') (cl_id (cluster s)) OSD i (ss_server row) = [].
Proof.
  intros [Hsame Hnext]. unfold _register_service, bind at 1, get.
  set (cid := cl_id (cluster s)).
  (* the server *)
  assert (Hsrv : forall sc s1,
            orm (Models.Server_get_or_create cid a) s = (Return sc, s1) ->
            services (db s1) = services (db s)
            /\ server_known (srv_id (fst sc)) (srv_cluster (fst sc)) (servers (db s1))).
  { intros sc s1. unfold orm, Models.Server_get_or_create.
    destruct (List.filter _ (servers (db s))) as [|r0 [|r1 rest]] eqn:Hf;
      cbn; intros [= <- <-]; cbn; [|clear Hnext].
    - split; [done|]. split.
      + eexists. split; [apply in_or_app; right; by left | done].
      + intros r [Hr|[<-|[]]]%in_app_or Hid; [|done]. by apply Hnext in Hr.
    - assert (Hin : In r0 (servers (db s))).
      { eapply (proj1 (filter_In _ _ _)). rewrite Hf. by left. }
      split; [done|]. split; [by exists r0|]. intros r Hr Hid. by apply Hsame. }
  unfold bind at 1.
  destruct (orm (Models.Server_get_or_create cid a) s) as [[[server created]|e] s1] eqn:H1;
    [|discriminate].
  destruct (Hsrv _ _ eq_refl) as [Hsv1 Hknown1]. cbn [fst] in Hknown1.
  cbn [fst snd]. unfold bind at 1.
  (* the row *)
  unfold orm at 1, Models.ServiceStatus_get_or_create.
  destruct (List.filter _ (services (db s1))) as [|x0 [|x1 rest]] eqn:Hf;
    cbn [fst snd]; [| |discriminate].
  2:{ (* the row exists *)
      unfold bind. cbn. intros [= <- <-]. left. rewrite <- Hsv1.
      eapply (proj1 (filter_In _ _ _)). rewrite Hf. by left. }
  (* the row is new *)
  right. revert H. unfold bind at 1. cbn [ret fst snd].
  unfold bind at 1. cbn [modify fst snd]. unfold bind at 1. cbn [modify fst snd].
  unfold bind at 1.
  match goal with |- context [guess_hostname E T a OSD n server ?s3] =>
    pose proof (guess_hostname_same_services a OSD n server s3) as [Hsv Hcl];
    set (s3_ := s3) in *;
    destruct (guess_hostname E T a OSD n server s3_) as [[server'|e] s4] eqn:Hg
  end; [|discriminate].
  cbn [snd] in Hsv, Hcl. cbn. intros [= <- <-].
  cbn [db on_osd_name_to_server ss_server set_ss_name].
  destruct Hcl as [_ Hcl].
  { subst s3_. cbn [db on_db servers set_services]. destruct s1 as [d1 ? ? ?].
    exact Hknown1. }
  unfold rows_elsewhere. rewrite Hsv.
  erewrite filter_ext; [|intros x; rewrite (Hcl cid x); reflexivity].
  subst s3_. cbn [db on_db services set_services servers].
  apply filter_delete_rows.
Qed.

End RegisterOsd.

(** osd.0, registered at 10.0.0.1, is seen at 10.0.0.2. *)
Lemma register_osd_leaves_one_row_witness :
  let T := answers [] [] [] [] in
  let E := quiet_env (fun _ => T) in
  exists row s',
    _register_service E T "10.0.0.2" OSD 0 "osd.0" (adapter_on osd0_at_A)
    = (Return row, s')
    /\ ss_server row = 2
    /\ (In row (services osd0_at_A)
        \/ rows_elsewhere (db s') 1 OSD 0 (ss_server row) = []).
Proof.
  cbn zeta. eexists _, _. split; [vm_compute; reflexivity|]. split; [reflexivity|].
  apply (register_osd_leaves_one_row (quiet_env (fun _ => answers [] [] [] []))
           (answers [] [] [] []) "10.0.0.2" "osd.0" 0 (adapter_on osd0_at_A)).
  - split.
    + intros r1 r2 [<-|[]] [<-|[]] _. reflexivity.
    + intros r [<-|[]]. vm_compute. discriminate.
  - vm_compute. reflexivity.
Defined.

(* ===================================================================== *)
(** ** Reconciling a settled registry *)
(* ===================================================================== *)

Section Settled.
Variable E : Env.
Variable T : Telemetry.

(** Registering a service that has its server and its row creates and
    deletes nothing. *)
Lemma register_present a t i n s srv x :
  lookup_row (db s) (cl_id (cluster s)) a t i = Some (srv, x) ->
  exists s1, _register_service E T a t i n s = (Return x, s1)
             /\ db s1 = db s /\ cluster s1 = cluster s.
Proof.
  unfold lookup_row.
  destruct (List.filter _ (servers (db s))) as [|srv0 [|? ?]] eqn:Hf1; try discriminate.
  destruct (List.filter _ (services (db s))) as [|x0 [|? ?]] eqn:Hf2; try discriminate.
  intros [= <- <-]. destruct s as [d c cr n2s]. cbn [db cluster] in *.
  unfold _register_service, bind, get, orm, Models.Server_get_or_create,
    Models.ServiceStatus_get_or_create.
  cbn [fst snd db cluster on_db]. rewrite Hf1. cbn [fst snd db cluster on_db].
  rewrite Hf2. cbn [fst snd ret]. destruct t; cbn; eauto.
Qed.

Section Loop.
Context {X : Type} (kind : ServiceType).
Variables (addr_of : X -> string) (ident_of : X -> Z) (name_of : X -> string).

Lemma register_loop_present (xs : list X) : forall (old : candidates) s,
  (forall x, In x xs ->
     has_row (db s) (cl_id (cluster s)) (addr_of x, kind, ident_of x) = true) ->
  exists old' s',
    for_fold xs (register_with E T kind addr_of ident_of name_of) old s
    = (Return old', s')
    /\ db s' = db s /\ cluster s' = cluster s
    /\ (fst old' ⊆ fst old) /\ (snd old' ⊆ snd old)
    /\ forall x, In x xs ->
         forall srv y,
           lookup_row (db s) (cl_id (cluster s)) (addr_of x) kind (ident_of x)
           = Some (srv, y) ->
           (ss_id y ∉ fst old') /\ (addr_of x ∉ snd old').
Proof.
  induction xs as [|x xs IH]; intros old s Hall.
  - exists old, s. cbn [for_fold ret]. repeat split; try done.
  - assert (Hx := Hall x (or_introl eq_refl)). unfold has_row in Hx.
    cbn [fst snd] in Hx.
    destruct (lookup_row (db s) (cl_id (cluster s)) (addr_of x) kind (ident_of x))
      as [[srv y]|] eqn:Hl; [|discriminate].
    destruct (register_present _ _ _ (name_of x) _ _ _ Hl) as (s1 & Hreg & Hd1 & Hc1).
    destruct (IH (fst old ∖ {[ss_id y]}, snd old ∖ {[addr_of x]}) s1)
      as (old' & s' & Hloop & Hd & Hc & Hsub1 & Hsub2 & Hrows).
    { intros x' Hx'. rewrite Hd1, Hc1. apply Hall. by right. }
    exists old', s'. cbn [for_fold]. unfold bind, register_with at 1, bind.
    rewrite Hreg. cbn [ret]. rewrite Hloop. cbn [fst snd] in *.
    split; [done|]. split; [congruence|]. split; [congruence|].
    split; [set_solver|]. split; [set_solver|].
    intros x' [<-|Hx'] srv' y' Hl'.
    + rewrite Hl in Hl'. injection Hl' as <- <-. set_solver.
    + rewrite <- Hd1, <- Hc1 in Hl'. by apply (Hrows x' Hx' srv' y').
Qed.

End Loop.

Lemma delete_rows_none {R} (sel : R -> bool) (rows : list R) :
  (forall r, In r rows -> sel r = false) -> Models.delete_rows sel rows = rows.
Proof.
  unfold Models.delete_rows. induction rows as [|r rows IH]; intros H; [done|].
  cbn [List.filter]. rewrite (H r) by by left. cbn [negb]. rewrite IH; [done|].
  intros r' Hr'. apply H. by right.
Qed.

(** X7.  A settled registry is a fixed point of reconciliation: the pass returns
    and the database after it is the database before it. *)
Theorem reconcile_settled (om : OsdDump) (ms : MonStatus) (s : St) :
  get_osds T = Return om ->
  get_mon_status T = Return ms ->
  settled (db s) (cl_id (cluster s)) (observed om ms) = true ->
  exists s', _refresh_servers E T s = (Return tt, s') /\ db s' = db s.
Proof.
  intros Hom Hms Hset. unfold settled in Hset.
  apply andb_prop in Hset as [[Hobs Hrows]%andb_prop Hsrvs].
  rewrite forallb_forall in Hobs, Hrows, Hsrvs.
  set (cid := cl_id (cluster s)) in *.
  unfold _refresh_servers, bind at 1, lift. rewrite Hms.
  unfold bind at 1. rewrite Hom. unfold bind at 1, get.
  fold cid.
  set (old0 := (_, _) : candidates).
  change (register_osd E T) with
    (register_with E T OSD (fun o => server_key (public_addr o)) osd
       (fun o => "osd." ++ PyStr.of_Z (osd o))).
  change (register_mon E T) with
    (register_with E T MON (fun m => server_key (mon_addr m)) rank
       (fun m => "mon." ++ mon_name m)).
  destruct (register_loop_present OSD (fun o => server_key (public_addr o)) osd
              (fun o => "osd." ++ PyStr.of_Z (osd o)) (od_osds om) old0 s)
    as (old1 & s1 & Hl1 & Hd1 & Hc1 & Hs1a & Hs1b & Hr1).
  { intros o Ho. apply Hobs. unfold observed. apply in_or_app. left.
    apply in_map_iff. by exists o. }
  unfold bind at 1. rewrite Hl1.
  destruct (register_loop_present MON (fun m => server_key (mon_addr m)) rank
              (fun m => "mon." ++ mon_name m) (monmap_mons ms) old1 s1)
    as (old2 & s2 & Hl2 & Hd2 & Hc2 & Hs2a & Hs2b & Hr2).
  { intros m Hm. rewrite Hd1, Hc1. apply Hobs. unfold observed. apply in_or_app.
    right. apply in_map_iff. by exists m. }
  unfold bind at 1. rewrite Hl2. unfold bind, modify. cbn [fst snd].
  eexists. split; [reflexivity|].
  rewrite Hd1, Hc1 in Hr2. fold cid in Hr1, Hr2.
  (* what the two loops struck off the lists of candidates *)
  assert (Hseen : forall o, In o (observed om ms) ->
            forall srv y, lookup_row (db s) cid (fst (fst o)) (snd (fst o)) (snd o)
                          = Some (srv, y) ->
            (ss_id y ∉ fst old2) /\ (fst (fst o) ∉ snd old2)).
  { intros o [Ho|Ho]%in_app_or srv y Hl.
    - apply in_map_iff in Ho as (o' & <- & Ho'). cbn [fst snd] in *.
      destruct (Hr1 o' Ho' srv y Hl). set_solver.
    - apply in_map_iff in Ho as (m' & <- & Hm'). cbn [fst snd] in *.
      exact (Hr2 m' Hm' srv y Hl). }
  assert (Hids : forall x, In x (services (db s)) ->
            bool_decide (ss_id x ∈ fst old2) = false).
  { intros x Hx. apply bool_decide_eq_false. intros Hin.
    assert (Hin0 : ss_id x ∈ fst old0) by set_solver.
    subst old0. cbn [fst] in Hin0.
    apply elem_of_list_to_set, list_elem_of_In, in_map_iff in Hin0
      as (y & Hyid & Hy).
    apply filter_In in Hy as [Hy Hycl].
    specialize (Hrows y Hy). fold cid in Hycl. rewrite Hycl in Hrows. cbn in Hrows.
    apply existsb_exists in Hrows as (o & Ho & Hrow). unfold is_row_of in Hrow.
    destruct (lookup_row (db s) cid (fst (fst o)) (snd (fst o)) (snd o))
      as [[srv z]|] eqn:Hl; [|discriminate].
    apply Z.eqb_eq in Hrow. destruct (Hseen o Ho srv z Hl) as [Hz _].
    apply Hz. congruence. }
  assert (Haddrs : forall r, In r (servers (db s)) ->
            bool_decide (srv_addr r ∈ snd old2) = false).
  { intros r Hr. apply bool_decide_eq_false. intros Hin.
    assert (Hin0 : srv_addr r ∈ snd old0) by set_solver.
    subst old0. cbn [snd] in Hin0.
    apply elem_of_list_to_set, list_elem_of_In, in_map_iff in Hin0
      as (r' & Hr'addr & Hr').
    apply filter_In in Hr' as [Hr' Hr'cl].
    specialize (Hsrvs r' Hr'). fold cid in Hsrvs. rewrite Hr'cl in Hsrvs. cbn in Hsrvs.
    apply existsb_exists in Hsrvs as (o & Ho & Haddr).
    apply String.eqb_eq in Haddr.
    specialize (Hobs o Ho). unfold has_row in Hobs. fold cid in Hobs.
    destruct (lookup_row (db s) cid (fst (fst o)) (snd (fst o)) (snd o))
      as [[srv z]|] eqn:Hl; [|discriminate].
    destruct (Hseen o Ho srv z Hl) as [_ Ha]. apply Ha. congruence. }
  (* so nothing is deleted *)
  cbn [db on_db]. rewrite Hd2, Hd1. destruct (db s) as [srvs svs pls cls n1 n2 n3].
  cbn [servers services] in Hids, Haddrs.
  unfold Models.Server_delete_addr_in, set_services, set_servers.
  cbn [servers services pools clusters next_server_pk next_service_pk next_pool_pk].
  rewrite (delete_rows_none _ svs Hids).
  assert (Hgone : List.filter (fun r => bool_decide (srv_addr r ∈ snd old2)) srvs = []).
  { clear -Haddrs. induction srvs as [|r srvs IH]; [done|]. cbn [List.filter].
    rewrite (Haddrs r) by by left. apply IH. intros r' Hr'. apply Haddrs. by right. }
  rewrite Hgone, (delete_rows_none _ srvs Haddrs).
  rewrite (delete_rows_none _ svs); [reflexivity|]. by intros.
Qed.

End Settled.

(** The registry of [one_osd_one_mon] after two passes. *)
Lemma reconcile_settled_witness :
  let E := quiet_env (fun _ => one_osd_one_mon) in
  let d2 := reconcile E one_osd_one_mon (reconcile E one_osd_one_mon empty_store) in
  exists s', _refresh_servers E one_osd_one_mon (adapter_on d2) = (Return tt, s')
             /\ db s' = db (adapter_on d2).
Proof.
  cbn zeta.
  apply (reconcile_settled (quiet_env (fun _ => one_osd_one_mon)) one_osd_one_mon
           {| od_pools := []; od_osds := [osd_at 0 "10.0.0.1:6800/0"] |}
           {| monmap_mons := [mon_at 0 "a" "10.0.0.2:6789/0"] |}).
  - reflexivity.
  - reflexivity.
  - vm_compute. reflexivity.
Defined.

(* ===================================================================== *)
(** ** The registry: behaviour on concrete clusters *)
(* ===================================================================== *)

(** *** A monitor seen at a new address *)

(** C1.  One registration step, of monitor 0 now seen at 10.0.0.2: the
    new row is created and the row at 10.0.0.1 is still there, so the pair
    (MON, 0) has two rows after the step.  The cleanup query selects
    [type=ServiceStatus.OSD] whatever the kind being registered. *)
Theorem register_mon_keeps_old_row :
  let E := quiet_env (fun _ => answers [] [] [] []) in
  let r := _register_service E (answers [] [] [] []) "10.0.0.2" MON 0 "mon.a"
             (adapter_on mon0_at_A) in
  fst r = Return {| ss_id := 2; ss_server := 2; ss_type := MON;
                    ss_service_id := 0; ss_name := Some "mon.a" |}
  /\ map ss_server (services_of MON 0 (db (snd r))) = [1; 2].
Proof. vm_compute. split; reflexivity. Qed.

(** The same step for an OSD does remove the old row. *)
Example register_osd_removes_old_row :
  let d0 := {| servers := servers mon0_at_A;
               services := [{| ss_id := 1; ss_server := 1; ss_type := OSD;
                               ss_service_id := 0; ss_name := Some "osd.0" |}];
               pools := []; clusters := [];
               next_server_pk := 2; next_service_pk := 2; next_pool_pk := 1 |} in
  let E := quiet_env (fun _ => answers [] [] [] []) in
  let r := _register_service E (answers [] [] [] []) "10.0.0.2" OSD 0 "osd.0"
             (adapter_on d0) in
  map ss_server (services_of OSD 0 (db (snd r))) = [2].
Proof. vm_compute. reflexivity. Qed.

(** *** An OSD that moves while a monitor of the same number appears *)

(** C4.  osd.5 is seen at 10.0.0.1 in pass 1 and at 10.0.0.2 in pass 2, in
    which a sixth monitor (rank 5) joins.  After pass 1 there is one row for
    OSD 5; after pass 2 there is none: registering monitor 5 deleted the row
    just created at 10.0.0.2.  The server at 10.0.0.1 is gone, as it
    should be. *)
Theorem migrated_osd_row_lost :
  let E := quiet_env (fun _ => pass1) in
  let d1 := reconcile E pass1 empty_store in
  let d2 := reconcile E pass2 d1 in
  length (services_of OSD 5 d1) = 1%nat
  /\ services_of OSD 5 d2 = []
  /\ List.filter (fun s => String.eqb (srv_addr s) "10.0.0.1") (servers d2) = []
  /\ map srv_addr (List.filter (fun s => String.eqb (srv_addr s) "10.0.0.2") (servers d2))
     = ["10.0.0.2"].
Proof. vm_compute. repeat split; reflexivity. Qed.

(** Without the sixth monitor the migration leaves exactly one row, owned
    by the server at the new address. *)
Example migrated_osd_row_kept :
  let E := quiet_env (fun _ => pass1) in
  let d1 := reconcile E pass1 empty_store in
  let d2 := reconcile E (answers [osd_at 5 "10.0.0.2:6800/0"] five_mons [] []) d1 in
  map (fun x => map srv_addr
                  (List.filter (fun s => srv_id s =? ss_server x) (servers d2)))
      (services_of OSD 5 d2) = [["10.0.0.2"]]
  /\ List.filter (fun s => String.eqb (srv_addr s) "10.0.0.1") (servers d2) = [].
Proof. vm_compute. split; reflexivity. Qed.

(** *** Reconciling twice *)

(** C5.  A cluster with osd.0 on one host and monitor 0 on another,
    reconciled twice from an empty database with the same observations: the
    first run ends without a row for osd.0 (registering monitor 0 deleted
    it), the second run creates it, so the state after the first run is not a
    fixed point. *)
Theorem second_reconcile_creates_row :
  let E := quiet_env (fun _ => one_osd_one_mon) in
  let d1 := reconcile E one_osd_one_mon empty_store in
  let d2 := reconcile E one_osd_one_mon d1 in
  map ss_name (services d1) = [Some "mon.a"]
  /\ map ss_name (services d2) = [Some "mon.a"; Some "osd.0"]
  /\ next_service_pk d2 = next_service_pk d1 + 1
  /\ d2 <> d1.
Proof. vm_compute. repeat split; try reflexivity. discriminate. Qed.

(** The third run changes nothing any more. *)
Example third_reconcile_is_stable :
  let E := quiet_env (fun _ => one_osd_one_mon) in
  let d2 := reconcile E one_osd_one_mon (reconcile E one_osd_one_mon empty_store) in
  reconcile E one_osd_one_mon d2 = d2.
Proof. vm_compute. reflexivity. Qed.

(** *** The address a server is keyed by *)

(** C8.  An OSD whose public address is [fe80::1]:6800/0 is registered on a
    server keyed "fe80": [_refresh_servers] cuts the address at its first
    colon before [_short_addr] sees it.  An IPv4 address keeps its IP. *)
Theorem ipv6_server_key_is_cut :
  let T := answers [osd_at 0 "[fe80::1]:6800/0"; osd_at 1 "192.168.0.1:6800/0"]
                   [mon_at 0 "a" "[fe80::2]:6789/0"] [] [] in
  let d := reconcile (quiet_env (fun _ => T)) T empty_store in
  map srv_addr (servers d) = ["fe80"; "192.168.0.1"]
  /\ _short_addr "[fe80::1]:6800/0" = "fe80::1"
  /\ _short_addr (PyStr.split0 ":" "[fe80::1]:6800/0") = "fe80".
Proof. vm_compute. repeat split; reflexivity. Qed.

(** *** Pool quotas *)

(** C7.  A pool with a quota of 1000 bytes and 50 objects, present in the
    df statistics, is stored with [quota_max_objects = 1000]: the row takes
    both quota fields from [quota_max_bytes]. *)
Theorem pool_quota_objects_from_bytes :
  let T := answers [] []
             [{| pool := 3; pool_name := "rbd";
                 quota_max_bytes := 1000; quota_max_objects := 50 |}]
             [{| df_id := 3; df_pool_stats := {| bytes_used := 7; objects := 2 |} |}] in
  let r := _populate_pools T (adapter_on empty_store) in
  fst r = Return tt
  /\ pools (db (snd r)) =
     [{| p_pk := 1; p_cluster_id := 1; p_pool_id := 3; p_name := "rbd";
         p_quota_max_bytes := 1000; p_quota_max_objects := 1000;
         p_used_bytes := 7; p_used_objects := 2 |}].
Proof. vm_compute. split; reflexivity. Qed.

(* ===================================================================== *)
(** ** The order of a refresh pass *)
(* ===================================================================== *)

(** Decide the innermost pending [Outcome] of the goal. *)
Ltac decide_outcome :=
  match goal with
  | |- context [match ?o with Return _ => _ | Raise _ => _ end] =>
      lazymatch o with
      | context [match _ with Return _ => _ | Raise _ => _ end] => fail
      | _ => destruct o eqn:?
      end
  end.

Ltac run_pass :=
  cbn [bind lift modify ret raise get fst snd for_each
       on_cluster on_db cluster db _osd_name_to_server _crush_osd_hostnames
       cl_id set_counters set_health set_space set_pgs set_osds
       set_osds_by_pg_state].

Section RefreshOrder.
Variable E : Env.
Variable T : Telemetry.

Lemma refresh_unfolds s : refresh E T s = pass_in_dir_order E T s.
Proof.
  unfold refresh, pass_in_dir_order.
  change (List.filter (PyStr.startswith "_populate_") dir_self)
    with ["_populate_counters"; "_populate_health"; "_populate_osds_and_pgs";
          "_populate_pools"; "_populate_space"].
  unfold bind. destruct (_refresh_servers E T s) as [[[]|e] s1]; [|reflexivity].
  cbn [for_each]. unfold bind.
  change (call_attr E T "_populate_counters") with (_populate_counters E T).
  change (call_attr E T "_populate_health") with (_populate_health T).
  change (call_attr E T "_populate_osds_and_pgs") with (_populate_osds_and_pgs T).
  change (call_attr E T "_populate_pools") with (_populate_pools T).
  change (call_attr E T "_populate_space") with (_populate_space T).
  destruct (_populate_counters E T s1) as [[[]|?] s2]; [|reflexivity].
  destruct (_populate_health T s2) as [[[]|?] s3]; [|reflexivity].
  destruct (_populate_osds_and_pgs T s3) as [[[]|?] s4]; [|reflexivity].
  destruct (_populate_pools T s4) as [[[]|?] s5]; [|reflexivity].
  destruct (_populate_space T s5) as [[[]|?] s6]; reflexivity.
Qed.

(** C10, amended.  [refresh] runs registry reconciliation, then the populate
    steps in the order counters, health, OSDs and PGs, pools, space, then
    saves the cluster.  Whenever the pass completes, in this order or in the
    order of the design document (space, health, pools, OSDs and PGs,
    counters), both orders end in the same state. *)
Theorem refresh_order (s : St) :
  refresh E T s = pass_in_dir_order E T s
  /\ (fst (refresh E T s) = Return tt \/ fst (spec_pipeline E T s) = Return tt ->
      refresh E T s = spec_pipeline E T s).
Proof.
  split; [apply refresh_unfolds|].
  rewrite refresh_unfolds. unfold pass_in_dir_order, spec_pipeline.
  unfold bind. destruct (_refresh_servers E T s) as [[[]|e] s1].
  2:{ intros _. reflexivity. }
  unfold _populate_counters, _populate_health, _populate_osds_and_pgs,
    _populate_pools, _populate_space, cluster_save.
  run_pass.
  repeat (decide_outcome; run_pass);
    first [ reflexivity | intros [?|?]; discriminate | intros _; simplify_eq; reflexivity ].
Qed.

End RefreshOrder.

(** C10 as stated fails: when the health request times out, [refresh] has
    assigned the counters and not the space, the pipeline of the design
    document the space and not the counters. *)
Lemma refresh_is_not_the_spec_pipeline :
  let T := health_times_out
             (answers [osd_at 0 "10.0.0.1:6800/0"] [mon_at 0 "a" "10.0.0.1:6789/0"] [] []) in
  let E := quiet_env (fun _ => T) in
  let code := refresh E T (adapter_on empty_store) in
  let spec := spec_pipeline E T (adapter_on empty_store) in
  fst code = Raise (Exn RequestException "Timeout")
  /\ fst spec = Raise (Exn RequestException "Timeout")
  /\ space (cluster (snd code)) = None
  /\ space (cluster (snd spec))
     = Some {| used_bytes := 10240; capacity_bytes := 102400; free_bytes := 92160 |}
  /\ code <> spec.
Proof.
  cbn zeta. split; [vm_compute; reflexivity|]. split; [vm_compute; reflexivity|].
  split; [vm_compute; reflexivity|]. split; [vm_compute; reflexivity|].
  intros H. apply (f_equal (fun r : Outcome unit * St => space (cluster (snd r)))) in H.
  vm_compute in H. discriminate.
Qed.

(* ===================================================================== *)
(** ** A pass that fails *)
(* ===================================================================== *)

Section FailedPass.
Variable E : Env.

(** The rows that [_populate_pools] writes depend on the table of pools
    and on the next key only. *)
Lemma populate_pool_same_pools (cid : Z) (usage : list DfPool) (pl : OsdMapPool)
    (d1 d2 : Store) :
  pools d1 = pools d2 -> next_pool_pk d1 = next_pool_pk d2 ->
  pools (populate_pool cid usage d1 pl) = pools (populate_pool cid usage d2 pl)
  /\ next_pool_pk (populate_pool cid usage d1 pl)
     = next_pool_pk (populate_pool cid usage d2 pl).
Proof.
  intros Hp Hk. unfold populate_pool.
  destruct (find_pool_stats usage (pool pl)) as [stats|]; [|done].
  cbn [pools set_pools]. rewrite Hp.
  destruct (Nat.eqb _ 0); cbn [pools next_pool_pk set_pools Models.Pool_create];
    by rewrite ?Hp, ?Hk.
Qed.

Lemma pools_populated_same_pools (cid : Z) (om : OsdDump) (usage : list DfPool)
    (d1 d2 : Store) :
  pools d1 = pools d2 -> next_pool_pk d1 = next_pool_pk d2 ->
  pools (pools_populated cid om usage d1) = pools (pools_populated cid om usage d2).
Proof.
  intros Hp Hk. unfold pools_populated.
  assert (Hloop : forall l e1 e2,
            pools e1 = pools e2 -> next_pool_pk e1 = next_pool_pk e2 ->
            pools (fold_left (populate_pool cid usage) l e1)
            = pools (fold_left (populate_pool cid usage) l e2)).
  { induction l as [|pl l IH]; intros e1 e2 H1 H2; cbn [fold_left]; [exact H1|].
    destruct (populate_pool_same_pools cid usage pl e1 e2 H1 H2). by apply IH. }
  apply Hloop; cbn [pools next_pool_pk set_pools]; by rewrite ?Hp.
Qed.

Lemma getitem_Return {A} (what : string) (o : option A) (a : A) :
  getitem what o = Return a -> o = Some a.
Proof. destruct o; cbn; congruence. Qed.





End FailedPass.


(** A pass that raises after the pool rows were written: the [df] answer
    has the usage of the pools, which [_populate_pools] reads, and lacks the
    totals, which [_populate_space] reads next.  The row of the pool is in
    the database, the space is not assigned, the error is not a transport
    error. *)
Lemma failed_pass_after_pools :
  pass_outcome no_totals_env (never_refreshed 1 "http://ceph:5000/api/v0.1")
    one_cluster = Raise (Exn KeyError "stats")
  /\ exists d',
       handle no_totals_env one_cluster = Return d'
       /\ pools one_cluster = []
       /\ map p_name (pools d') = ["data"]
       /\ map space (clusters d') = [None]
       /\ map has_counters (clusters d') = [true]
       /\ map cluster_update_error_isclient (clusters d') = [false]
       /\ map cluster_update_time (clusters d') = [None].
Proof.
  split; [vm_compute; reflexivity|].
  eexists. split; [vm_compute; reflexivity|]. by repeat split.
Qed.


(* ===================================================================== *)
(** ** The loop of [handle] *)
(* ===================================================================== *)

Section Handle.
Variable E : Env.

Lemma handle_cluster_turn_returns i c d :
  exists d', handle_cluster_turn E i c d = Return d'.
Proof.
  unfold handle_cluster_turn.
  destruct (_handle_cluster E _ d) as [[[]|e] s]; [by eexists|].
  rewrite is_Exception_all. by eexists.
Qed.

(** X3.  No exception leaves [handle]: every cluster of the database gets its
    turn, whatever happened in the turns before. *)
Theorem handle_returns (d : Store) :
  (exists d', handle E d = Return d')
  /\ (forall i cs d0, exists d', handle_loop E i cs d0 = Return d')
  /\ (forall i c cs d0, exists d1,
        handle_cluster_turn E i c d0 = Return d1
        /\ handle_loop E i (c :: cs) d0 = handle_loop E (S i) cs d1).
Proof.
  assert (Hloop : forall cs i d0, exists d', handle_loop E i cs d0 = Return d').
  { induction cs as [|c cs IH]; intros i d0; cbn [handle_loop]; [by eexists|].
    destruct (handle_cluster_turn_returns i c d0) as [d1 ->]. apply IH. }
  split; [apply Hloop|]. split; [intros; apply Hloop|].
  intros i c cs d0. destruct (handle_cluster_turn_returns i c d0) as [d1 H1].
  exists d1. split; [exact H1|]. cbn [handle_loop]. by rewrite H1.
Qed.

Lemma save_row_In {R} (pk : R -> Z) (r : R) (rows : list R) :
  In r (Models.save_row pk r rows).
Proof.
  unfold Models.save_row. destruct (existsb _ rows) eqn:Hex.
  - apply existsb_exists in Hex as (x & Hx & Hpk).
    apply in_map_iff. exists x. by rewrite Hpk.
  - apply in_or_app. right. by left.
Qed.

(** X4.  A pass that completes: the saved row carries the time of the turn as
    the time of the last successful update and of the last attempt, no
    error, and every part of the snapshot is fresh: counters, health, PG
    list, OSDs by PG state, OSD list (PG indexes from the PG list of this
    pass, hosts from the servers registered by this pass), pool rows and
    space. *)
Theorem completed_pass (i : nat) (c : Cluster) (d : Store) :
  pass_outcome E c d = Return tt ->
  exists d' saved T,
    handle_cluster_turn E i c d = Return d'
    /\ In saved (clusters d')
    /\ CephRestClient E (api_base_url c) = Return T
    /\ cl_id saved = cl_id c
    /\ cluster_update_time saved = Some (utcnow E i)
    /\ cluster_update_error_isclient saved = false
    /\ cluster_update_error_msg saved = None
    /\ cluster_update_attempt_time saved = Some (utcnow E i)
    /\ Forall (freshly_assigned E T c d saved d') assignment_order.
Proof.
  unfold pass_outcome, handle_cluster_turn, _handle_cluster.
  destruct (CephRestClient E (api_base_url c)) as [T|e0] eqn:HT;
    cbn [api_base_url set_bookkeeping]; rewrite HT; [|discriminate].
  rewrite refresh_unfolds. unfold pass_in_dir_order, bind.
  match goal with |- context [_refresh_servers E T ?s0] =>
    change s0 with (pass_start c d)
  end.
  pose proof (keeps_refresh_servers E T (pass_start c d)) as (Hc & Hp & _ & Hpk).
  destruct (_refresh_servers E T (pass_start c d)) as [[[]|e0] s1] eqn:Hreg;
    [|discriminate].
  cbn [snd cluster db pass_start set_bookkeeping] in Hc, Hp, Hpk.
  destruct s1 as [d1 c1 crush1 n2s1]; cbn [cluster db] in Hc, Hp, Hpk; subst c1.
  unfold _populate_counters, _populate_health, _populate_osds_and_pgs,
    _populate_pools, _populate_space, cluster_save.
  run_pass.
  repeat (decide_outcome; run_pass; rewrite ?is_Exception_all; run_pass).
  all: try discriminate.
  intros _.
  match goal with |- context [Return (set_clusters (Models.save_row cl_id ?r) ?d0)] =>
    exists (set_clusters (Models.save_row cl_id r) d0), r, T
  end.
  split; [reflexivity|].
  split; [cbn [clusters set_clusters]; apply (save_row_In cl_id)|].
  split; [reflexivity|].
  do 5 (split; [reflexivity|]).
  unfold assignment_order.
  repeat (apply Forall_cons; split); [..|apply Forall_nil];
    cbn [freshly_assigned pools set_clusters];
    unfold names_registered; rewrite ?Hreg; cbn [snd _osd_name_to_server];
    first [ solve [eauto 12]
          | eexists _, _, _; do 2 (split; [eassumption|]);
            split; [eapply getitem_Return; eassumption|];
            cbn [cl_id set_bookkeeping];
            apply pools_populated_same_pools; assumption ].
Qed.

End Handle.

(** The pass of a small healthy cluster with one pool. *)
Lemma completed_pass_witness :
  let E := quiet_env (fun _ =>
             answers [osd_at 0 "10.0.0.1:6800/0"] [mon_at 0 "a" "10.0.0.1:6789/0"]
               [{| pool := 0; pool_name := "data"; quota_max_bytes := 100;
                   quota_max_objects := 7 |}]
               [{| df_id := 0; df_pool_stats := {| bytes_used := 4096; objects := 3 |} |}]) in
  let c := never_refreshed 1 "http://ceph:5000/api/v0.1" in
  exists d' saved T,
    handle_cluster_turn E 0 c one_cluster = Return d'
    /\ In saved (clusters d')
    /\ CephRestClient E (api_base_url c) = Return T
    /\ cl_id saved = cl_id c
    /\ cluster_update_time saved = Some (utcnow E 0)
    /\ cluster_update_error_isclient saved = false
    /\ cluster_update_error_msg saved = None
    /\ cluster_update_attempt_time saved = Some (utcnow E 0)
    /\ Forall (freshly_assigned E T c one_cluster saved d') assignment_order.
Proof.
  cbn zeta.
  apply (completed_pass
           (quiet_env (fun _ =>
              answers [osd_at 0 "10.0.0.1:6800/0"] [mon_at 0 "a" "10.0.0.1:6789/0"]
                [{| pool := 0; pool_name := "data"; quota_max_bytes := 100;
                    quota_max_objects := 7 |}]
                [{| df_id := 0;
                    df_pool_stats := {| bytes_used := 4096; objects := 3 |} |}]))
           0 (never_refreshed 1 "http://ceph:5000/api/v0.1") one_cluster).
  vm_compute. reflexivity.
Defined.

(* ===================================================================== *)
(** ** Methods that return *)
(* ===================================================================== *)

Lemma bind_returns {S A B} (m : M S A) (k : A -> M S B) (s s' : S) (b : B) :
  bind m k s = (Return b, s') ->
  exists a s1, m s = (Return a, s1) /\ k a s1 = (Return b, s').
Proof.
  unfold bind. destruct (m s) as [[a|e] s1]; [|discriminate]. by exists a, s1.
Qed.

(* ===================================================================== *)
(** ** The memoized query *)
(* ===================================================================== *)

Section MemoizeFacts.
Context {K V W : Type} `{Countable K}.
Variable function : K -> M W V.

(** A call never changes an entry of [memo], it can only add one. *)
Lemma memoize_keeps_entries (a args : K) (rv : V) (st : gmap K V * W) :
  fst st !! a = Some rv -> fst (snd (memoize function args st)) !! a = Some rv.
Proof.
  destruct st as [memo w]. cbn [fst]. intros Ha. unfold memoize.
  destruct (memo !! args) as [rv'|] eqn:Hargs; [exact Ha|].
  destruct (function args w) as [[rv'|e] w']; cbn [fst snd]; [|exact Ha].
  rewrite lookup_insert_ne; [exact Ha|]. intros ->. congruence.
Qed.

Lemma memoize_calls_keep_entries (calls : list K) : forall (a : K) (rv : V) st,
  fst st !! a = Some rv -> fst (memoize_calls function calls st) !! a = Some rv.
Proof.
  induction calls as [|args calls IH]; intros a rv st Ha; [exact Ha|].
  cbn [memoize_calls]. apply IH. by apply memoize_keeps_entries.
Qed.

(** X8.  Once the decorated function has returned for some arguments, every
    later call with these arguments returns the same value and does not run
    the function (the world is as before the call), whatever was called in
    between: the cache is never cleared.  A call that raises stores
    nothing. *)
Theorem memoize_caches (args : K) (st : gmap K V * W) :
  (forall rv st1,
     memoize function args st = (Return rv, st1) ->
     forall calls,
       let st2 := memoize_calls function calls st1 in
       memoize function args st2 = (Return rv, st2))
  /\ (forall e st1,
        memoize function args st = (Raise e, st1) ->
        fst st1 = fst st /\ fst st !! args = None).
Proof.
  split.
  - intros rv st1 Hcall calls st2.
    assert (Hin : fst st1 !! args = Some rv).
    { revert Hcall. destruct st as [memo w]. unfold memoize.
      destruct (memo !! args) as [rv'|] eqn:Hargs.
      - by intros [= <- <-].
      - destruct (function args w) as [[rv'|e] w']; [|discriminate].
        intros [= <- <-]. cbn [fst]. apply lookup_insert_eq. }
    pose proof (memoize_calls_keep_entries calls args rv st1 Hin) as Hin2.
    fold st2 in Hin2. destruct st2 as [memo2 w2]. cbn [fst] in Hin2.
    unfold memoize. by rewrite Hin2.
  - intros e st1. destruct st as [memo w]. unfold memoize.
    destruct (memo !! args) as [rv'|] eqn:Hargs; [discriminate|].
    destruct (function args w) as [[rv'|e'] w']; [discriminate|].
    by intros [= <- <-].
Qed.

End MemoizeFacts.

Section QueryFacts.
Context {W : Type}.
Variable requests_get : string -> M W string.
Variable json_loads : string -> option json.

(** A first [_query] of an endpoint sends one request to the client's
    URL followed by the endpoint: it returns the decoded body and stores it
    under (client, endpoint), or raises what the request raised, or
    [ValueError] for a body that is not JSON, and then stores nothing.  An
    endpoint already answered for this client is served without a request;
    the answers of another client object, even for the same URL, are not
    used. *)
Lemma query_first_and_cached (self : RestClient) (endpoint : string)
    (memo : gmap (RestClient * string) json) (w : W) :
  (memo !! (self, endpoint) = None ->
   _query requests_get json_loads self endpoint (memo, w) =
   match requests_get (snd self ++ endpoint) w with
   | (Return body, w') =>
       match json_loads body with
       | Some j => (Return j, (<[(self, endpoint) := j]> memo, w'))
       | None => (Raise (Exn ValueError "No JSON object could be decoded"), (memo, w'))
       end
   | (Raise e, w') => (Raise e, (memo, w'))
   end)
  /\ (forall j, memo !! (self, endpoint) = Some j ->
        _query requests_get json_loads self endpoint (memo, w) = (Return j, (memo, w)))
  /\ (forall other j,
        fst other <> fst self ->
        memo !! (self, endpoint) = None ->
        _query requests_get json_loads self endpoint (<[(other, endpoint) := j]> memo, w)
        = let r := _query requests_get json_loads self endpoint (memo, w) in
          (fst r, (<[(other, endpoint) := j]> (fst (snd r)), snd (snd r)))).
Proof.
  split; [|split].
  - intros Hnone. unfold _query, memoize. rewrite Hnone.
    unfold _query_function. destruct self as [ident url]. cbn [snd]. unfold bind.
    destruct (requests_get (url ++ endpoint) w) as [[body|e] w']; [|reflexivity].
    destruct (json_loads body); reflexivity.
  - intros j Hj. unfold _query, memoize. by rewrite Hj.
  - intros other j Hne Hnone. cbn zeta. unfold _query, memoize.
    assert (Hkey : (other, endpoint) <> (self, endpoint)) by congruence.
    rewrite lookup_insert_ne by exact Hkey. rewrite Hnone.
    destruct (_query_function requests_get json_loads (self, endpoint) w)
      as [[rv|e] w']; cbn [fst snd]; [|reflexivity].
    by rewrite insert_insert_ne.
Qed.

End QueryFacts.

(* ===================================================================== *)
(** ** The IPv4 pattern of the probe *)
(* ===================================================================== *)

Lemma span_digits_split (s : string) :
  s = fst (Re.span_digits s) ++ snd (Re.span_digits s).
Proof.
  induction s as [|c s IH]; [reflexivity|]. cbn [Re.span_digits].
  destruct (PyStr.is_digit c); [|reflexivity].
  destruct (Re.span_digits s) as [d r]. cbn [fst snd] in *.
  change (String c s = String c (d ++ r)). by f_equal.
Qed.

Lemma append_cons (c : ascii) (s1 s2 : string) :
  String c s1 ++ s2 = String c (s1 ++ s2).
Proof. reflexivity. Qed.

Lemma append_nil (s : string) : "" ++ s = s.
Proof. reflexivity. Qed.

Lemma span_digits_run (d r : string) (lit : ascii) :
  all_digits d = true -> PyStr.is_digit lit = false ->
  Re.span_digits (d ++ String lit r) = (d, String lit r).
Proof.
  intros Hd Hlit. induction d as [|c d IH].
  - rewrite append_nil. cbn [Re.span_digits]. by rewrite Hlit.
  - rewrite append_cons. cbn [Re.span_digits].
    cbn [all_digits] in Hd. apply andb_prop in Hd as [Hc Hd]. by rewrite Hc, (IH Hd).
Qed.

(** [\d+] and a literal that is no digit: the run of digits before the
    literal, and the rest. *)
Lemma digits_then_iff (lit : ascii) (s d r : string) :
  PyStr.is_digit lit = false ->
  Re.digits_then lit s = Some (d, r)
  <-> all_digits d = true /\ d <> EmptyString /\ s = d ++ String lit r.
Proof.
  intros Hlit. split.
  - intros H. destruct (digits_then_all _ _ _ _ H) as [Hall Hne].
    split; [exact Hall|]. split; [exact Hne|].
    unfold Re.digits_then in H. pose proof (span_digits_split s) as Hs.
    destruct (Re.span_digits s) as [[|c0 d0] [|c' r']]; try discriminate.
    destruct (Ascii.eqb_spec c' lit) as [->|]; [|discriminate].
    injection H as <- <-. exact Hs.
  - intros (Hall & Hne & ->). unfold Re.digits_then.
    rewrite (span_digits_run d r lit Hall Hlit).
    destruct d; [done|]. by rewrite Ascii.eqb_refl.
Qed.

(** X9.  The IPv4 pattern of the probe matches exactly the texts that
    begin with four runs of digits separated by dots, a colon, a run of
    digits and a slash; the address is the dotted quad and the port is the
    last run.  Nothing is checked about the size of the numbers. *)
Theorem match_IPV4_dotted_quad (s addr port : string) :
  Re.match_IPV4 s = Some (addr, port)
  <-> exists a b c d rest,
        Forall (fun run => all_digits run = true /\ run <> EmptyString)
               [a; b; c; d; port]
        /\ s = a ++ "." ++ b ++ "." ++ c ++ "." ++ d ++ ":" ++ port ++ "/" ++ rest
        /\ addr = a ++ "." ++ b ++ "." ++ c ++ "." ++ d.
Proof.
  unfold Re.match_IPV4. split.
  - destruct (Re.digits_then "." s) as [[a r1]|] eqn:H1; [|discriminate].
    destruct (Re.digits_then "." r1) as [[b r2]|] eqn:H2; [|discriminate].
    destruct (Re.digits_then "." r2) as [[c r3]|] eqn:H3; [|discriminate].
    destruct (Re.digits_then ":" r3) as [[d r4]|] eqn:H4; [|discriminate].
    destruct (Re.digits_then "/" r4) as [[p r5]|] eqn:H5; [|discriminate].
    intros [= <- <-].
    apply digits_then_iff in H1 as (A1 & A2 & ->); [|reflexivity].
    apply digits_then_iff in H2 as (B1 & B2 & ->); [|reflexivity].
    apply digits_then_iff in H3 as (C1 & C2 & ->); [|reflexivity].
    apply digits_then_iff in H4 as (D1 & D2 & ->); [|reflexivity].
    apply digits_then_iff in H5 as (P1 & P2 & ->); [|reflexivity].
    exists a, b, c, d, r5. split; [by repeat constructor|]. by split.
  - intros (a & b & c & d & rest & Hruns & -> & ->).
    apply Forall_cons in Hruns as [[A1 A2] Hruns].
    apply Forall_cons in Hruns as [[B1 B2] Hruns].
    apply Forall_cons in Hruns as [[C1 C2] Hruns].
    apply Forall_cons in Hruns as [[D1 D2] Hruns].
    apply Forall_cons in Hruns as [[P1 P2] _].
    rewrite (proj2 (digits_then_iff "." _ a _ eq_refl)) by done.
    rewrite (proj2 (digits_then_iff "." _ b _ eq_refl)) by done.
    rewrite (proj2 (digits_then_iff "." _ c _ eq_refl)) by done.
    rewrite (proj2 (digits_then_iff ":" _ d _ eq_refl)) by done.
    rewrite (proj2 (digits_then_iff "/" _ port rest eq_refl)) by done.
    reflexivity.
Qed.

(* ===================================================================== *)
(** ** Host names *)
(* ===================================================================== *)

(** The first piece of a split at a character does not contain it. *)
Lemma split0_no_sep (c : ascii) (s : string) :
  PyStr.contains_char c (PyStr.split0 (String c "") s) = false.
Proof.
  unfold PyStr.split0, PyStr.split.
  induction s as [|d s IH]; [reflexivity|].
  cbn [PyStr.split_from]. rewrite prefix_cons.
  destruct (Ascii.ascii_dec c d) as [->|Hne].
  - by rewrite prefix_nil.
  - destruct (PyStr.split_from (String c "") s 0) as [|h t]; cbn [PyStr.cons_head];
      cbn [PyStr.contains_char];
      (destruct (Ascii.eqb c d) eqn:Hcd; [by apply Ascii.eqb_eq in Hcd|]); done.
Qed.

Section ReverseDns.
Variable E : Env.

Lemma filter_none {A} (P : A -> bool) (l : list A) :
  (forall x, In x l -> P x = false) -> List.filter P l = [].
Proof.
  induction l as [|x l IH]; intros H; [done|]. cbn [List.filter].
  rewrite (H x) by by left. apply IH. intros y Hy. apply H. by right.
Qed.

(** X10.  [_reverse_dns] answers [None] exactly when the lookup fails.  A
    name it answers never contains a dot.  Of the names of the host, the
    aliases first and the canonical name last, it answers the first that
    has no dot; when all of them have one, it answers the first of the names
    cut at its first dot. *)
Theorem reverse_dns_short (addr : string) :
  (gethostbyaddr E addr = None -> _reverse_dns E addr = None)
  /\ (forall hostname aliaslist,
        gethostbyaddr E addr = Some (hostname, aliaslist) ->
        exists short,
          _reverse_dns E addr = Some short
          /\ PyStr.contains_char "." short = false
          /\ (forall before n after,
                (aliaslist ++ [hostname])%list = (before ++ n :: after)%list ->
                (forall m, In m before -> PyStr.contains_char "." m = true) ->
                PyStr.contains_char "." n = false ->
                short = n)
          /\ ((exists n, In n (aliaslist ++ [hostname])
                         /\ PyStr.contains_char "." n = false) ->
              In short (aliaslist ++ [hostname]))
          /\ ((forall n, In n (aliaslist ++ [hostname]) ->
                         PyStr.contains_char "." n = true) ->
              short = PyStr.split0 "." (hd hostname aliaslist))).
Proof.
  unfold _reverse_dns. split; [by intros ->|].
  intros hostname aliaslist ->.
  assert (Hfirst : forall before n after,
            (aliaslist ++ [hostname])%list = (before ++ n :: after)%list ->
            (forall m, In m before -> PyStr.contains_char "." m = true) ->
            PyStr.contains_char "." n = false ->
            hd_error (List.filter (fun name => negb (PyStr.contains_char "." name))
                        (aliaslist ++ [hostname])) = Some n).
  { intros before n after -> Hbefore Hn. rewrite List.filter_app.
    rewrite filter_none by (intros m Hm; by rewrite (Hbefore m Hm)).
    cbn [app List.filter]. by rewrite Hn. }
  destruct (List.filter _ (aliaslist ++ [hostname])%list) as [|short l] eqn:Hf.
  - assert (Hall : forall n, In n (aliaslist ++ [hostname]) ->
                             PyStr.contains_char "." n = true).
    { intros n Hn. destruct (PyStr.contains_char "." n) eqn:Hc; [done|].
      assert (In n []) as []. rewrite <- Hf. apply filter_In. by rewrite Hc. }
    destruct aliaslist as [|first rest]; cbn [app hd].
    + exists (PyStr.split0 "." hostname).
      split; [done|]. split; [apply split0_no_sep|].
      split; [intros before n after Heq Hb Hn; by specialize (Hfirst _ _ _ Heq Hb Hn)|].
      split; [|done].
      intros (n & Hn & Hc). by rewrite (Hall n Hn) in Hc.
    + exists (PyStr.split0 "." first).
      split; [done|]. split; [apply split0_no_sep|].
      split; [intros before n after Heq Hb Hn; by specialize (Hfirst _ _ _ Heq Hb Hn)|].
      split; [|done].
      intros (n & Hn & Hc). by rewrite (Hall n Hn) in Hc.
  - assert (Hs : In short (List.filter
                  (fun name => negb (PyStr.contains_char "." name))
                  (aliaslist ++ [hostname]))) by (rewrite Hf; by left).
    apply filter_In in Hs as [Hin Hc]. apply negb_true_iff in Hc.
    exists short. split; [done|]. split; [done|].
    split; [intros before n after Heq Hb Hn;
            specialize (Hfirst _ _ _ Heq Hb Hn); by injection Hfirst|].
    split; [done|].
    intros Hall. by rewrite (Hall short Hin) in Hc.
Qed.

End ReverseDns.

(* ===================================================================== *)
(** ** The CRUSH tree *)
(* ===================================================================== *)

Section Crush.
Variable E : Env.

Lemma find_descendants_unfold fuel nbi cursor :
  find_descendants E (S fuel) nbi cursor =
  if String.eqb (node_type cursor) (CRUSH_OSD_TYPE E) then Return [cursor]
  else match node_children cursor with
       | None => Raise (Exn KeyError "children")
       | Some children => fold_left (descend E fuel nbi) children (Return [])
       end.
Proof. reflexivity. Qed.

Lemma descend_raised fuel nbi children : forall e,
  fold_left (descend E fuel nbi) children (Raise e) = Raise e.
Proof. induction children as [|c cs IH]; intros e; [reflexivity|apply IH]. Qed.

Lemma descend_Forall (Q : CrushNode -> Prop) fuel nbi :
  (forall c child ds, nbi !! c = Some child ->
     find_descendants E fuel nbi child = Return ds -> Forall Q ds) ->
  forall children fs r,
    Forall Q fs ->
    fold_left (descend E fuel nbi) children (Return fs) = Return r ->
    Forall Q r.
Proof.
  intros Hrec. induction children as [|c cs IH]; intros fs r Hfs.
  - cbn. by intros [= <-].
  - cbn [fold_left]. unfold descend at 2.
    destruct (nbi !! c) as [child|] eqn:Hc; [|by rewrite descend_raised].
    destruct (find_descendants E fuel nbi child) as [ds|e] eqn:Hd;
      [|by rewrite descend_raised].
    apply IH. apply Forall_app. split; [exact Hfs|]. by eapply Hrec.
Qed.

Lemma find_descendants_only_osds (fuel : nat) (nbi : gmap Z CrushNode) :
  forall cursor ds,
    find_descendants E fuel nbi cursor = Return ds ->
    Forall (fun n => node_type n = CRUSH_OSD_TYPE E
                     /\ (n = cursor \/ exists i, nbi !! i = Some n)) ds.
Proof.
  induction fuel as [|fuel IH]; intros cursor ds; [discriminate|].
  rewrite find_descendants_unfold.
  destruct (String.eqb _ _) eqn:Hty.
  - intros [= <-]. apply String.eqb_eq in Hty. repeat constructor; by auto.
  - destruct (node_children cursor) as [children|]; [|discriminate].
    intros Hfold.
    refine (descend_Forall _ fuel nbi _ children [] ds (Forall_nil_2 _) Hfold).
    intros c child ds' Hc Hd. specialize (IH child ds' Hd).
    eapply Forall_impl; [exact IH|]. cbn beta.
    intros n [Hn [->|Hin]]; (split; [exact Hn|right]); [by exists c|exact Hin].
Qed.

(** X11.  What [find_descendants] returns are OSD nodes only, each of them
    the node it started from or a node of the tree; and an OSD node is
    returned as it is, without a look at its children. *)
Theorem find_descendants_osds (fuel : nat) (nbi : gmap Z CrushNode) (cursor : CrushNode) :
  (forall ds,
     find_descendants E fuel nbi cursor = Return ds ->
     Forall (fun n => node_type n = CRUSH_OSD_TYPE E
                      /\ (n = cursor \/ exists i, nbi !! i = Some n)) ds)
  /\ (node_type cursor = CRUSH_OSD_TYPE E ->
      find_descendants E (S fuel) nbi cursor = Return [cursor]).
Proof.
  split; [apply find_descendants_only_osds|].
  intros Hty. rewrite find_descendants_unfold.
  by rewrite (proj2 (String.eqb_eq _ _) Hty).
Qed.

Lemma descend_raises_at fuel nbi c child :
  nbi !! c = Some child ->
  (exists e, find_descendants E fuel nbi child = Raise e) ->
  forall children, In c children ->
  forall found, exists e, fold_left (descend E fuel nbi) children found = Raise e.
Proof.
  intros Hc [e He]. induction children as [|c' cs IH]; intros [] found.
  - subst c'. cbn [fold_left]. destruct found as [fs|e'].
    + unfold descend at 2. rewrite Hc, He, descend_raised. by eexists.
    + cbn [descend]. rewrite descend_raised. by eexists.
  - cbn [fold_left]. by apply IH.
Qed.

(** X12.  [find_descendants] does not return from a cycle: when every node
    of a set [loop] is no OSD and has a child in the set, the search from a
    node of the set raises, whatever depth the interpreter allows.  It also
    raises [KeyError] from a node that is no OSD and has no [children]. *)
Theorem find_descendants_cycle (nbi : gmap Z CrushNode) (loop : CrushNode -> Prop)
    (cursor : CrushNode) :
  (forall n, loop n ->
     node_type n <> CRUSH_OSD_TYPE E
     /\ exists children c m,
          node_children n = Some children /\ In c children
          /\ nbi !! c = Some m /\ loop m) ->
  loop cursor ->
  forall fuel, exists e, find_descendants E fuel nbi cursor = Raise e.
Proof.
  intros Hloop Hcur fuel. revert cursor Hcur.
  induction fuel as [|fuel IH]; intros cursor Hcur; [by eexists|].
  destruct (Hloop cursor Hcur) as (Hty & children & c & m & Hch & Hin & Hc & Hm).
  rewrite find_descendants_unfold.
  destruct (String.eqb _ _) eqn:Heq; [by apply String.eqb_eq in Heq|].
  rewrite Hch. eapply descend_raises_at; eauto.
Qed.

Lemma crush_grows_refl tree s : crush_grows E tree s s.
Proof. intros c Hc. by exists c. Qed.

Lemma crush_grows_trans tree s1 s2 s3 :
  crush_grows E tree s1 s2 -> crush_grows E tree s2 s3 -> crush_grows E tree s1 s3.
Proof.
  intros H12 H23 c Hc. destruct (H12 c Hc) as (c2 & Hc2 & K2).
  destruct (H23 c2 Hc2) as (c3 & Hc3 & K3). exists c3. split; [exact Hc3|tauto].
Qed.

Lemma crush_grows_for_each {A} tree (xs : list A) (body : A -> M St unit) :
  Forall (fun x => preserves (crush_grows E tree) (body x)) xs ->
  preserves (crush_grows E tree) (for_each xs body).
Proof.
  induction 1 as [|x xs Hx _ IH]; cbn [for_each].
  - intros s. apply crush_grows_refl.
  - apply preserves_bind; [apply crush_grows_trans|exact Hx|intros _; exact IH].
Qed.

Lemma descend_Forall_children (Q : CrushNode -> Prop) fuel nbi :
  forall children,
    (forall c child ds, In c children -> nbi !! c = Some child ->
       find_descendants E fuel nbi child = Return ds -> Forall Q ds) ->
    forall fs r,
      Forall Q fs ->
      fold_left (descend E fuel nbi) children (Return fs) = Return r ->
      Forall Q r.
Proof.
  induction children as [|c cs IH]; intros Hrec fs r Hfs.
  - cbn. by intros [= <-].
  - cbn [fold_left]. unfold descend at 2.
    destruct (nbi !! c) as [child|] eqn:Hc; [|by rewrite descend_raised].
    destruct (find_descendants E fuel nbi child) as [ds|e] eqn:Hd;
      [|by rewrite descend_raised].
    apply IH.
    + intros c' child' ds' Hin. apply Hrec. by right.
    + apply Forall_app. split; [exact Hfs|]. eapply Hrec; [by left|exact Hc|exact Hd].
Qed.

(** What [find_descendants] returns are OSD nodes below the cursor. *)
Lemma find_descendants_below (fuel : nat) (nbi : gmap Z CrushNode) :
  forall cursor ds,
    find_descendants E fuel nbi cursor = Return ds ->
    Forall (fun n => node_type n = CRUSH_OSD_TYPE E /\ below nbi cursor n) ds.
Proof.
  induction fuel as [|fuel IH]; intros cursor ds; [discriminate|].
  rewrite find_descendants_unfold.
  destruct (String.eqb _ _) eqn:Hty.
  - intros [= <-]. apply String.eqb_eq in Hty. repeat constructor. exact Hty.
  - destruct (node_children cursor) as [children|] eqn:Hch; [|discriminate].
    intros Hfold.
    refine (descend_Forall_children _ fuel nbi children _ [] ds (Forall_nil_2 _) Hfold).
    intros c child ds' Hin Hc Hd. specialize (IH child ds' Hd).
    eapply Forall_impl; [exact IH|]. cbn beta.
    intros n [Hn Hbelow]. split; [exact Hn|]. by eapply below_child.
Qed.

Lemma nodes_by_id_of_In (tree : list CrushNode) (i : Z) (n : CrushNode) :
  nodes_by_id_of tree !! i = Some n -> In n tree.
Proof.
  unfold nodes_by_id_of.
  assert (H : forall l (m : gmap Z CrushNode),
            fold_left (fun m n => <[node_id n := n]> m) l m !! i = Some n ->
            In n l \/ m !! i = Some n).
  { induction l as [|x l IH]; intros m; cbn [fold_left]; [by right|].
    intros Hl. destruct (IH _ Hl) as [Hin|Hm]; [left; by right|].
    destruct (decide (node_id x = i)) as [<-|Hne].
    - rewrite lookup_insert_eq in Hm. injection Hm as <-. left. by left.
    - rewrite lookup_insert_ne in Hm by done. by right. }
  intros Hl. destruct (H _ _ Hl) as [Hin|Hm]; [exact Hin|].
  by rewrite lookup_empty in Hm.
Qed.

Lemma below_In (tree : list CrushNode) (node o : CrushNode) :
  In node tree -> below (nodes_by_id_of tree) node o -> In o tree.
Proof.
  intros Hnode Hb. induction Hb as [n|n children c m o Hch Hc Hm Hb IH]; [exact Hnode|].
  apply IH. by eapply nodes_by_id_of_In.
Qed.

Lemma crush_hosts_step_grows tree node :
  In node tree ->
  preserves (crush_grows E tree) (crush_hosts_step E (nodes_by_id_of tree) node).
Proof.
  intros Hnode. unfold crush_hosts_step.
  destruct (String.eqb (node_type node) _) eqn:Hty;
    [|intros s; apply crush_grows_refl].
  destruct (String.eqb (node_name node) "localhost") eqn:Hname;
    [intros s; apply crush_grows_refl|].
  apply String.eqb_eq in Hty. apply String.eqb_neq in Hname.
  intros s. unfold bind, lift.
  destruct (find_descendants E (recursion_limit E) (nodes_by_id_of tree) node)
    as [found|e] eqn:Hfound; cbn [snd]; [|apply crush_grows_refl].
  apply find_descendants_below in Hfound.
  apply crush_grows_for_each.
  eapply Forall_impl; [exact Hfound|]. cbn beta. intros o [Ho Hbelow] s1 c Hc.
  eexists. split; [cbn; by rewrite Hc|]. cbn [default].
  intros Hsound k v Hkv.
  destruct (decide (k = node_name o)) as [->|Hk].
  - rewrite lookup_insert_eq in Hkv. injection Hkv as <-.
    split; [exact Hname|]. exists node, o.
    repeat split; try done. by eapply below_In.
  - rewrite lookup_insert_ne in Hkv by done. by apply Hsound.
Qed.

Lemma crush_first_use (T : Telemetry) (s : St) (osd_tree : list CrushNode) :
  _crush_osd_hostnames s = None ->
  get_osd_tree T = Return osd_tree ->
  crush_osd_hostnames E T s =
  match for_each osd_tree (crush_hosts_step E (nodes_by_id_of osd_tree))
          (on_crush (fun _ => Some ∅) s) with
  | (Return _, s1) => (Return (default ∅ (_crush_osd_hostnames s1)), s1)
  | (Raise e, s1) => (Raise e, s1)
  end.
Proof.
  intros Hnone Htree. unfold crush_osd_hostnames, bind. cbn [get].
  rewrite Hnone, Htree. cbn [lift modify]. reflexivity.
Qed.

Lemma crush_later_use (T : Telemetry) (s : St) (c : gmap string string) :
  _crush_osd_hostnames s = Some c -> crush_osd_hostnames E T s = (Return c, s).
Proof. intros Hc. unfold crush_osd_hostnames, bind. cbn [get]. by rewrite Hc. Qed.

(** X13.  The host names taken from the CRUSH tree.  If the tree cannot be
    fetched the property raises and the cache stays empty, so that the next
    use asks again.  Otherwise the cache is a dictionary from then on,
    whether the walk over the tree returned or raised: every entry maps the
    name of an OSD node of the tree to the name of a host node of the tree
    below which that OSD node is found, never to ['localhost'], a walk that
    returns hands out this dictionary, and every later use answers with it
    and leaves the state alone. *)
Theorem crush_osd_hostnames_hosts (T : Telemetry) (s : St) :
  _crush_osd_hostnames s = None ->
  (forall e, get_osd_tree T = Raise e -> crush_osd_hostnames E T s = (Raise e, s))
  /\ (forall osd_tree,
        get_osd_tree T = Return osd_tree ->
        exists c s',
          snd (crush_osd_hostnames E T s) = s'
          /\ _crush_osd_hostnames s' = Some c
          /\ crush_sound E osd_tree c
          /\ (forall r, fst (crush_osd_hostnames E T s) = Return r -> r = c)
          /\ crush_osd_hostnames E T s' = (Return c, s')).
Proof.
  intros Hnone. split.
  - intros e He. unfold crush_osd_hostnames, bind. cbn [get].
    by rewrite Hnone, He.
  - intros osd_tree Htree. rewrite (crush_first_use T s osd_tree Hnone Htree).
    set (s0 := on_crush (fun _ => Some ∅) s).
    destruct (crush_grows_for_each osd_tree osd_tree
                (crush_hosts_step E (nodes_by_id_of osd_tree))
                (proj2 (List.Forall_forall _ _)
                   (fun x Hx => crush_hosts_step_grows osd_tree x Hx)) s0 ∅ eq_refl)
      as (c & Hc & Hsound).
    assert (Hc0 : crush_sound E osd_tree c) by (apply Hsound; by intros k v).
    destruct (for_each osd_tree _ s0) as [[[]|e] s1]; cbn [snd fst] in *;
      exists c, s1; rewrite ?Hc; cbn [default].
    + split; [done|]. split; [done|]. split; [done|].
      split; [by intros r [= <-]|]. by apply crush_later_use.
    + split; [done|]. split; [done|]. split; [done|].
      split; [by intros r [=]|]. by apply crush_later_use.
Qed.

End Crush.

(** A host bucket that lists itself among its children. *)
Lemma find_descendants_cycle_witness :
  let host := {| node_id := -2; node_name := "gravel1"; node_type := "host";
                 node_children := Some [0; -2] |} in
  let osd0 := {| node_id := 0; node_name := "osd.0"; node_type := "osd";
                 node_children := None |} in
  exists e,
    find_descendants (quiet_env (fun _ => answers [] [] [] [])) 1000
      (nodes_by_id_of [host; osd0]) host = Raise e.
Proof.
  cbn zeta.
  refine (find_descendants_cycle (quiet_env (fun _ => answers [] [] [] []))
           (nodes_by_id_of
              [{| node_id := -2; node_name := "gravel1"; node_type := "host";
                  node_children := Some [0; -2] |};
               {| node_id := 0; node_name := "osd.0"; node_type := "osd";
                  node_children := None |}])
           (fun n => n = {| node_id := -2; node_name := "gravel1"; node_type := "host";
                            node_children := Some [0; -2] |})
           _ _ _ 1000).
  - intros n ->. split; [discriminate|].
    eexists _, (-2), _. split; [reflexivity|]. split; [right; by left|].
    split; [|reflexivity]. vm_compute. reflexivity.
  - reflexivity.
Defined.

(** Two OSDs under a host, and a host that calls itself [localhost]. *)
Lemma crush_osd_hostnames_hosts_witness :
  let E := quiet_env (fun _ => answers [] [] [] []) in
  let osd_tree :=
    [{| node_id := -2; node_name := "gravel1"; node_type := "host";
        node_children := Some [0; 1] |};
     {| node_id := 0; node_name := "osd.0"; node_type := "osd";
        node_children := None |};
     {| node_id := 1; node_name := "osd.1"; node_type := "osd";
        node_children := None |};
     {| node_id := -3; node_name := "localhost"; node_type := "host";
        node_children := Some [2] |};
     {| node_id := 2; node_name := "osd.2"; node_type := "osd";
        node_children := None |}] in
  let T := {| get_status := Raise (Exn RequestException "");
              get_space_stats := Raise (Exn RequestException "");
              get_health := Raise (Exn RequestException "");
              get_osds := Raise (Exn RequestException "");
              get_mon_status := Raise (Exn RequestException "");
              get_pg_pools := Raise (Exn RequestException "");
              get_pools := Raise (Exn RequestException "");
              get_pg_stats := Raise (Exn RequestException "");
              get_osd_tree := Return osd_tree |} in
  let s := adapter_on one_cluster in
  _crush_osd_hostnames s = None
  /\ returned (fst (crush_osd_hostnames E T s)) = true
  /\ exists c s',
       snd (crush_osd_hostnames E T s) = s'
       /\ _crush_osd_hostnames s' = Some c
       /\ crush_sound E osd_tree c
       /\ (forall r, fst (crush_osd_hostnames E T s) = Return r -> r = c)
       /\ crush_osd_hostnames E T s' = (Return c, s').
Proof.
  cbn zeta. split; [reflexivity|]. split; [vm_compute; reflexivity|].
  match goal with |- exists c s', snd (crush_osd_hostnames ?E ?T ?s) = _ /\ _ =>
    exact (proj2 (crush_osd_hostnames_hosts E T s eq_refl) _ eq_refl)
  end.
Defined.

(* ===================================================================== *)
(** ** The hostname of a server *)
(* ===================================================================== *)

Section Hostname.
Variable E : Env.
Variable T : Telemetry.

Lemma crush_returns_cache (s s1 : St) (c : gmap string string) :
  crush_osd_hostnames E T s = (Return c, s1) -> _crush_osd_hostnames s1 = Some c.
Proof.
  destruct (_crush_osd_hostnames s) as [c0|] eqn:Hcache.
  - rewrite (crush_later_use E T s c0 Hcache). by intros [= <- <-].
  - destruct (get_osd_tree T) as [osd_tree|e] eqn:Htree.
    + rewrite (crush_first_use E T s osd_tree Hcache Htree).
      destruct (crush_grows_for_each E osd_tree osd_tree
                  (crush_hosts_step E (nodes_by_id_of osd_tree))
                  (proj2 (List.Forall_forall _ _)
                     (fun x Hx => crush_hosts_step_grows E osd_tree x Hx))
                  (on_crush (fun _ => Some ∅) s) ∅ eq_refl) as (c' & Hc' & _).
      destruct (for_each osd_tree _ _) as [[[]|e] s2]; [|discriminate].
      cbn [snd] in Hc'. intros [= <- <-]. by rewrite Hc'.
    + unfold crush_osd_hostnames, bind. cbn [get]. rewrite Hcache, Htree. discriminate.
Qed.

(** X14.  The hostname of a server on which a service is seen for the first
    time and that has none yet.  For an OSD the name that the CRUSH tree
    gives is taken unless it is ['localhost'], else the short name from
    reverse DNS, else ['localhost']: the server always gets a hostname, its
    name is the hostname, and it is saved.  For a monitor only reverse DNS
    is asked, not the CRUSH tree: without an answer the server keeps no
    hostname and is named after the monitor. *)
Theorem guess_hostname_sources (a n : string) (server : Server) (s : St) :
  srv_hostname server = None ->
  (forall server' s',
     guess_hostname E T a OSD n server s = (Return server', s') ->
     exists c host,
       _crush_osd_hostnames s' = Some c
       /\ server' = set_srv_name (Some host) (set_srv_hostname (Some host) server)
       /\ In server' (servers (db s'))
       /\ (forall h, c !! n = Some h -> h <> "localhost" -> host = h)
       /\ (c !! n = None \/ c !! n = Some "localhost" ->
           host = default "localhost" (_reverse_dns E a)))
  /\ (exists server',
        guess_hostname E T a MON n server s
        = (Return server', on_db (set_servers (Models.save_row srv_id server')) s)
        /\ server' = set_srv_name (Some (default n (_reverse_dns E a)))
                       (set_srv_hostname (_reverse_dns E a) server)).
Proof.
  intros Hnone. unfold guess_hostname. rewrite Hnone. split.
  - intros server' s' (c & s1 & Hcrush & H)%bind_returns.
    pose proof (crush_returns_cache s s1 c Hcrush) as Hcache.
    cbn [srv_hostname set_srv_hostname] in H.
    assert (Hsaved : forall srv s2,
              (save_server srv;;; ret srv) s1 = (Return server', s2) ->
              server' = srv /\ _crush_osd_hostnames s2 = Some c
              /\ In server' (servers (db s2))).
    { intros srv s2 [= <- <-]. split; [done|]. split; [exact Hcache|].
      cbn [db on_db servers set_servers]. apply (save_row_In srv_id). }
    destruct (c !! n) as [h|] eqn:Hn.
    + destruct (String.eqb_spec h "localhost") as [->|Hh].
      * apply Hsaved in H as (-> & Hc & Hin).
        exists c, (default "localhost" (_reverse_dns E a)).
        split; [exact Hc|]. split; [reflexivity|]. split; [exact Hin|].
        rewrite Hn. split; [|done]. intros h [= <-] Hh. by destruct Hh.
      * apply Hsaved in H as (-> & Hc & Hin).
        exists c, h. split; [exact Hc|]. split; [reflexivity|]. split; [exact Hin|].
        rewrite Hn. split; [by intros h' [= <-] _|].
        intros [[=]|[= ->]]. by destruct Hh.
    + apply Hsaved in H as (-> & Hc & Hin).
      exists c, (default "localhost" (_reverse_dns E a)).
      split; [exact Hc|]. split; [reflexivity|]. split; [exact Hin|].
      rewrite Hn. split; [by intros h [=]|done].
  - destruct (_reverse_dns E a) as [hostname|]; eexists; split; try reflexivity.
    cbn [default from_option id]. unfold set_srv_name, set_srv_hostname. cbn.
    by rewrite Hnone.
Qed.

End Hostname.

(** [osd.0] is seen for the first time: the CRUSH tree has no host for it
    and the resolver does not know the address. *)
Lemma guess_hostname_sources_witness :
  let E := quiet_env (fun _ => answers [] [] [] []) in
  let T := answers [] [] [] [] in
  let r := guess_hostname E T "10.0.0.1" OSD "osd.0" new_server (adapter_on one_cluster) in
  srv_hostname new_server = None
  /\ fst r = Return (set_srv_name (Some "localhost")
                       (set_srv_hostname (Some "localhost") new_server))
  /\ exists c host,
       _crush_osd_hostnames (snd r) = Some c
       /\ set_srv_name (Some "localhost") (set_srv_hostname (Some "localhost") new_server)
          = set_srv_name (Some host) (set_srv_hostname (Some host) new_server)
       /\ In (set_srv_name (Some "localhost")
                (set_srv_hostname (Some "localhost") new_server))
             (servers (db (snd r)))
       /\ (forall h, c !! "osd.0" = Some h -> h <> "localhost" -> host = h)
       /\ (c !! "osd.0" = None \/ c !! "osd.0" = Some "localhost" ->
           host = default "localhost" (_reverse_dns E "10.0.0.1")).
Proof.
  cbn zeta. split; [reflexivity|]. split; [vm_compute; reflexivity|].
  apply (proj1 (guess_hostname_sources (quiet_env (fun _ => answers [] [] [] []))
                  (answers [] [] [] []) "10.0.0.1" "osd.0" new_server
                  (adapter_on one_cluster) eq_refl)).
  vm_compute. reflexivity.
Defined.

(* ===================================================================== *)
(** ** A server that has a hostname *)
(* ===================================================================== *)

Section Sticky.
Variable E : Env.
Variable T : Telemetry.

(** X15.  A hostname, once set, stays.  When the cluster has one server at
    the address and it has a hostname, registering a service there, new or
    known, OSD or monitor, changes no row of [Server] and asks neither the
    CRUSH tree nor the resolver, whether the call returns or raises; and
    for an OSD that is registered, the server kept under the OSD's name is
    this row, unless the row has no name, in which case the object (not the
    row) is named after the address. *)
Theorem register_keeps_hostname (a n : string) (t : ServiceType) (i : Z)
    (s : St) (srv : Server) (h : string) :
  List.filter (fun x => (srv_cluster x =? cl_id (cluster s)) && String.eqb (srv_addr x) a)
              (servers (db s)) = [srv] ->
  srv_hostname srv = Some h ->
  let r := _register_service E T a t i n s in
  servers (db (snd r)) = servers (db s)
  /\ _crush_osd_hostnames (snd r) = _crush_osd_hostnames s
  /\ (forall row, fst r = Return row -> t = OSD ->
        exists srv',
          _osd_name_to_server (snd r) !! n = Some srv'
          /\ srv_hostname srv' = Some h
          /\ (srv' = srv \/ (srv_name srv = None
                             /\ srv' = set_srv_name (Some a) srv))).
Proof.
  intros Hsrv Hhost r.
  assert (Hr : r = _register_service E T a t i n s) by reflexivity.
  clearbody r. revert Hr.
  unfold _register_service, bind at 1. cbn [get].
  unfold bind at 1, orm at 1, Models.Server_get_or_create. rewrite Hsrv. cbn [fst snd].
  unfold bind at 1, orm at 1, Models.ServiceStatus_get_or_create.
  cbn [db on_db]. destruct (List.filter _ (services (db s))) as [|x0 [|x1 rest]];
    cbn [fst snd].
  - (* a new row *)
    unfold bind, modify, guess_hostname. rewrite Hhost. cbn [ret fst snd].
    destruct t; cbn [modify ret fst snd db on_db on_osd_name_to_server servers
      set_services _crush_osd_hostnames _osd_name_to_server]; intros ->;
      cbn [modify ret fst snd db on_db on_osd_name_to_server servers
        set_services _crush_osd_hostnames _osd_name_to_server].
    + split; [done|]. split; [done|]. intros row _ _. rewrite lookup_insert_eq.
      destruct (srv_name srv) eqn:Hname; eexists; (split; [reflexivity|]).
      * split; [exact Hhost|by left].
      * split; [exact Hhost|by right].
    + split; [done|]. split; [done|]. by intros row _ [=].
  - (* a known row *)
    unfold bind. cbn [ret fst snd].
    destruct t; cbn [modify ret fst snd db on_db on_osd_name_to_server servers
      _crush_osd_hostnames _osd_name_to_server]; intros ->;
      cbn [modify ret fst snd db on_db on_osd_name_to_server servers
        set_services _crush_osd_hostnames _osd_name_to_server].
    + split; [done|]. split; [done|]. intros row _ _.
      rewrite lookup_insert_eq. exists srv. split; [done|]. split; [done|by left].
    + split; [done|]. split; [done|]. by intros row _ [=].
  - (* more than one row *)
    intros ->. cbn [fst snd db on_db servers _crush_osd_hostnames].
    split; [done|]. split; [done|]. by intros row [=].
Qed.

End Sticky.

(** [osd.0] is known at its address, on a server with a hostname. *)
Lemma register_keeps_hostname_witness :
  let E := quiet_env (fun _ => answers [] [] [] []) in
  let T := answers [] [] [] [] in
  let s := adapter_on osd0_at_A in
  let r := _register_service E T "10.0.0.1" OSD 0 "osd.0" s in
  returned (fst r) = true
  /\ servers (db (snd r)) = servers (db s)
  /\ _crush_osd_hostnames (snd r) = _crush_osd_hostnames s
  /\ (forall row, fst r = Return row -> OSD = OSD ->
        exists srv',
          _osd_name_to_server (snd r) !! "osd.0" = Some srv'
          /\ srv_hostname srv' = Some "localhost"
          /\ (srv' = {| srv_id := 1; srv_cluster := 1; srv_addr := "10.0.0.1";
                        srv_name := Some "localhost"; srv_hostname := Some "localhost" |}
              \/ (srv_name {| srv_id := 1; srv_cluster := 1; srv_addr := "10.0.0.1";
                              srv_name := Some "localhost";
                              srv_hostname := Some "localhost" |} = None
                  /\ srv' = set_srv_name (Some "10.0.0.1")
                              {| srv_id := 1; srv_cluster := 1; srv_addr := "10.0.0.1";
                                 srv_name := Some "localhost";
                                 srv_hostname := Some "localhost" |}))).
Proof.
  cbn zeta. split; [vm_compute; reflexivity|].
  apply (register_keeps_hostname (quiet_env (fun _ => answers [] [] [] []))
           (answers [] [] [] []) "10.0.0.1" "osd.0" OSD 0 (adapter_on osd0_at_A)
           {| srv_id := 1; srv_cluster := 1; srv_addr := "10.0.0.1";
              srv_name := Some "localhost"; srv_hostname := Some "localhost" |}
           "localhost").
  - vm_compute. reflexivity.
  - reflexivity.
Defined.

(* ===================================================================== *)
(** ** Servers that are no longer seen *)
(* ===================================================================== *)

Section Stale.
Variable E : Env.
Variable T : Telemetry.

Lemma register_loop_addrs {X} (kind : ServiceType) (addr_of : X -> string)
    (ident_of : X -> Z) (name_of : X -> string) (xs : list X) :
  forall old old' s s',
    for_fold xs (register_with E T kind addr_of ident_of name_of) old s
    = (Return old', s') ->
    snd old' = snd old ∖ list_to_set (map addr_of xs).
Proof.
  induction xs as [|x xs IH]; intros old old' s s'; cbn [for_fold].
  - intros [= <- _]. cbn [map]. set_solver.
  - intros (old1 & s1 & H1 & Hrest)%bind_returns.
    rewrite (IH _ _ _ _ Hrest). unfold register_with in H1.
    apply bind_returns in H1 as (row & s2 & _ & Hret). injection Hret as <- _.
    cbn [snd map]. set_solver.
Qed.

(** X16.  When [_refresh_servers] returns, no server is left at an address
    at which the cluster had a server before the pass and at which the maps
    show neither an OSD nor a monitor now.  The servers are selected by
    address alone: a server of another cluster at such an address is removed
    as well. *)
Theorem refresh_servers_drops_stale (s s' : St) :
  _refresh_servers E T s = (Return tt, s') ->
  exists om ms,
    get_osds T = Return om /\ get_mon_status T = Return ms
    /\ forall r r0,
         In r (servers (db s')) ->
         In r0 (servers (db s)) ->
         srv_cluster r0 = cl_id (cluster s) ->
         srv_addr r0 = srv_addr r ->
         In (srv_addr r) (observed_addrs om ms).
Proof.
  unfold _refresh_servers.
  intros (ms & s1 & Hms & H)%bind_returns.
  apply bind_returns in H as (om & s2 & Hom & H).
  apply bind_returns in H as (s0 & s3 & Hget & H).
  apply bind_returns in H as (old1 & s4 & Hosds & H).
  apply bind_returns in H as (old2 & s5 & Hmons & H).
  apply bind_returns in H as ([] & s6 & Hdel1 & Hdel2).
  unfold lift in Hms, Hom.
  destruct (get_mon_status T) as [ms'|e]; [|discriminate]. injection Hms as -> <-.
  destruct (get_osds T) as [om'|e]; [|discriminate]. injection Hom as -> <-.
  injection Hget as <- <-.
  exists om, ms. split; [reflexivity|]. split; [reflexivity|].
  change (register_osd E T)
    with (register_with E T OSD (fun o : Osd => server_key (public_addr o)) osd
            (fun o : Osd => "osd." ++ PyStr.of_Z (osd o))) in Hosds.
  change (register_mon E T)
    with (register_with E T MON (fun m : Mon => server_key (mon_addr m)) rank
            (fun m : Mon => "mon." ++ mon_name m)) in Hmons.
  apply register_loop_addrs in Hosds, Hmons. cbn [snd] in Hosds.
  injection Hdel1 as <-. injection Hdel2 as <-.
  intros r r0 Hr Hr0 Hcl Haddr.
  cbn [db on_db servers Models.Server_delete_addr_in set_services set_servers] in Hr.
  unfold Models.delete_rows in Hr. apply filter_In in Hr as [_ Hkeep].
  apply negb_true_iff, bool_decide_eq_false in Hkeep.
  rewrite Hmons, Hosds in Hkeep.
  assert (Hold : srv_addr r ∈ (list_to_set (map srv_addr
            (List.filter (fun x => srv_cluster x =? cl_id (cluster s))
                         (servers (db s)))) : gset string)).
  { apply elem_of_list_to_set, list_elem_of_In. rewrite <- Haddr.
    apply in_map, filter_In. split; [done|]. by apply Z.eqb_eq. }
  unfold observed_addrs. apply in_or_app.
  destruct (decide (srv_addr r ∈ (list_to_set
              (map (fun o => server_key (public_addr o)) (od_osds om)) : gset string)))
    as [Ho|Ho]; [left; apply list_elem_of_In; by apply elem_of_list_to_set in Ho|].
  destruct (decide (srv_addr r ∈ (list_to_set
              (map (fun m => server_key (mon_addr m)) (monmap_mons ms)) : gset string)))
    as [Hm|Hm]; [right; apply list_elem_of_In; by apply elem_of_list_to_set in Hm|].
  destruct Hkeep. set_solver.
Qed.

End Stale.

(** The pass of cluster 1 sees nothing at the address: both servers go. *)
Lemma refresh_servers_drops_stale_witness :
  let E := quiet_env (fun _ => answers [] [] [] []) in
  let T := answers [] [] [] [] in
  servers (db (snd (_refresh_servers E T (adapter_on shared_address)))) = []
  /\ exists om ms,
       get_osds T = Return om /\ get_mon_status T = Return ms
       /\ forall r r0,
            In r (servers (db (snd (_refresh_servers E T (adapter_on shared_address))))) ->
            In r0 (servers (db (adapter_on shared_address))) ->
            srv_cluster r0 = cl_id (cluster (adapter_on shared_address)) ->
            srv_addr r0 = srv_addr r ->
            In (srv_addr r) (observed_addrs om ms).
Proof.
  cbn zeta. split; [vm_compute; reflexivity|].
  apply (refresh_servers_drops_stale (quiet_env (fun _ => answers [] [] [] []))
           (answers [] [] [] []) (adapter_on shared_address)).
  vm_compute. reflexivity.
Defined.

(* ===================================================================== *)
(** ** The pool counters *)
(* ===================================================================== *)

Lemma pool_items_lookup (key : string) (stat_sum counts : gmap string Z) :
  map_fold (fun key value counts => add_at (Z.min value 1) key counts)
           counts stat_sum !! key
  = count_pool key (counts !! key) stat_sum.
Proof.
  unfold count_pool.
  apply (map_fold_weak_ind (fun r (m : gmap string Z) =>
    r !! key = match m !! key with
               | Some value => Some (default 0 (counts !! key) + Z.min value 1)
               | None => counts !! key
               end)).
  - by rewrite lookup_empty.
  - intros i x m r Hi IH. unfold add_at.
    destruct (decide (key = i)) as [->|Hne].
    + rewrite !lookup_insert_eq. rewrite Hi in IH. by rewrite IH.
    + by rewrite !lookup_insert_ne.
Qed.

Lemma pool_loop_lookup (key : string) (stat_sums : list (gmap string Z)) :
  forall counts,
    fold_left (fun counts stat_sum =>
                 map_fold (fun key value counts => add_at (Z.min value 1) key counts)
                          counts stat_sum)
              stat_sums counts !! key
    = fold_left (count_pool key) stat_sums (counts !! key).
Proof.
  induction stat_sums as [|s ss IH]; intros counts; [reflexivity|].
  cbn [fold_left]. by rewrite IH, pool_items_lookup.
Qed.

Lemma sum_clamped_unreported (key : string) (stat_sums : list (gmap string Z)) :
  existsb (reports key) stat_sums = false -> sum_clamped key stat_sums = 0.
Proof.
  induction stat_sums as [|s ss IH]; [done|].
  cbn [existsb sum_clamped foldr]. intros [Hs Hss]%orb_false_iff.
  fold (sum_clamped key ss). rewrite (IH Hss).
  unfold reports in Hs. apply bool_decide_eq_false in Hs.
  unfold clamped. destruct (s !! key); [|done]. by destruct Hs.
Qed.

Lemma count_pool_sum (key : string) (stat_sums : list (gmap string Z)) :
  forall acc,
    fold_left (count_pool key) stat_sums acc
    = if existsb (reports key) stat_sums
      then Some (default 0 acc + sum_clamped key stat_sums)
      else acc.
Proof.
  induction stat_sums as [|s ss IH]; intros acc; [reflexivity|].
  cbn [fold_left existsb]. rewrite IH.
  change (sum_clamped key (s :: ss)) with (clamped key s + sum_clamped key ss).
  unfold count_pool, reports, clamped.
  destruct (s !! key) as [v|] eqn:Hs.
  - rewrite bool_decide_eq_true_2 by by eexists. cbn [orb from_option]. unfold id.
    destruct (existsb _ ss) eqn:Hss; f_equal; [lia|].
    rewrite (sum_clamped_unreported key ss Hss). lia.
  - rewrite bool_decide_eq_false_2 by by intros [? [=]]. cbn [orb].
    destruct (existsb _ ss); f_equal; lia.
Qed.

Lemma sum_clamped_le (key : string) (stat_sums : list (gmap string Z)) :
  sum_clamped key stat_sums <= Z.of_nat (length stat_sums).
Proof.
  induction stat_sums as [|s ss IH]; [done|].
  cbn [sum_clamped foldr]. fold (sum_clamped key ss).
  change (length (s :: ss)) with (S (length ss)). rewrite Nat2Z.inj_succ.
  unfold clamped. destruct (s !! key); lia.
Qed.

Lemma sum_clamped_affected (key : string) (stat_sums : list (gmap string Z)) :
  (forall s v, In s stat_sums -> s !! key = Some v -> 0 <= v) ->
  sum_clamped key stat_sums = affected key stat_sums.
Proof.
  unfold affected. induction stat_sums as [|s ss IH]; intros Hpos; [done|].
  cbn [sum_clamped foldr List.filter]. fold (sum_clamped key ss).
  rewrite IH by (intros s' v Hs'; apply Hpos; by right).
  unfold clamped.
  pose proof (Hpos s) as Hs. destruct (s !! key) as [v|]; cbn [from_option]; unfold id.
  - specialize (Hs v (or_introl eq_refl) eq_refl).
    destruct (bool_decide (0 < v)) eqn:Hv.
    + apply bool_decide_eq_true in Hv. cbn [length]. rewrite Nat2Z.inj_succ. lia.
    + apply bool_decide_eq_false in Hv. lia.
  - rewrite bool_decide_eq_false_2 by lia. lia.
Qed.

(** X17.  The pool counters.  ["total"] is the number of pools.  Of the other
    keys only the six fields are kept, and a field is present only if some
    pool reports it; its value is the sum over the pools of the reported
    value cut at 1, which is at most the number of pools and, when no pool
    reports a negative value, the number of pools in which the counter is
    positive. *)
Theorem pool_counters_count_pools (stat_sums : list (gmap string Z)) :
  let r := _calculate_pool_counters stat_sums in
  r !! "total" = Some (Z.of_nat (length stat_sums))
  /\ forall key,
       key <> "total" ->
       r !! key = (if bool_decide (key ∈ pool_counter_fields)
                      && existsb (reports key) stat_sums
                   then Some (sum_clamped key stat_sums) else None)
       /\ sum_clamped key stat_sums <= Z.of_nat (length stat_sums)
       /\ ((forall s v, In s stat_sums -> s !! key = Some v -> 0 <= v) ->
           sum_clamped key stat_sums = affected key stat_sums).
Proof.
  cbn zeta. unfold _calculate_pool_counters. split; [apply lookup_insert_eq|].
  intros key Hkey. split; [|split; [apply sum_clamped_le|apply sum_clamped_affected]].
  rewrite lookup_insert_ne by done.
  rewrite map_lookup_filter, pool_loop_lookup, count_pool_sum, lookup_empty.
  cbn [fst from_option]; unfold id. rewrite Z.add_0_l.
  destruct (existsb (reports key) stat_sums); cbn [mbind option_bind].
  - destruct (decide (key ∈ pool_counter_fields)) as [Hin|Hout].
    + rewrite bool_decide_eq_true_2 by done. by rewrite option_guard_True.
    + rewrite bool_decide_eq_false_2 by done. by rewrite option_guard_False.
  - by rewrite andb_false_r.
Qed.

(* ===================================================================== *)
(** ** The table of pools *)
(* ===================================================================== *)

Lemma filter_map_fixed {A} (P : A -> bool) (g : A -> A) (l : list A) :
  (forall x, P (g x) = P x) -> (forall x, P x = true -> g x = x) ->
  List.filter P (map g l) = List.filter P l.
Proof.
  intros HP Hg. induction l as [|x l IH]; [done|].
  cbn [map List.filter]. rewrite HP, IH.
  destruct (P x) eqn:Hx; [by rewrite (Hg x Hx)|done].
Qed.

Lemma filter_delete_other {A} (P sel : A -> bool) (l : list A) :
  (forall x, P x = true -> sel x = false) ->
  List.filter P (Models.delete_rows sel l) = List.filter P l.
Proof.
  intros H. unfold Models.delete_rows. induction l as [|x l IH]; [done|].
  cbn [List.filter]. destruct (sel x) eqn:Hs; cbn [negb List.filter]; rewrite IH.
  - destruct (P x) eqn:Hx; [|done]. by rewrite (H x Hx) in Hs.
  - done.
Qed.

Lemma find_pool_stats_app (df1 df2 : list DfPool) (i : Z) :
  find_pool_stats (df1 ++ df2) i =
  match find_pool_stats df2 i with
  | Some stats => Some stats
  | None => find_pool_stats df1 i
  end.
Proof.
  unfold find_pool_stats. rewrite fold_left_app.
  generalize (fold_left (fun stats pool_stats =>
    if df_id pool_stats =? i then Some (df_pool_stats pool_stats) else stats) df1 None).
  induction df2 as [|x df2 IH] using rev_ind; intros acc; [done|].
  rewrite !fold_left_app. cbn [fold_left]. destruct (df_id x =? i); [done|apply IH].
Qed.

Lemma find_pool_stats_absent (df : list DfPool) (i : Z) :
  (forall x, In x df -> df_id x <> i) -> find_pool_stats df i = None.
Proof.
  induction df as [|x df IH] using rev_ind; intros H; [done|].
  rewrite find_pool_stats_app. unfold find_pool_stats at 1. cbn [fold_left].
  destruct (Z.eqb_spec (df_id x) i) as [Heq|_].
  - destruct (H x); [apply in_or_app; right; by left|exact Heq].
  - apply IH. intros y Hy. apply H, in_or_app. by left.
Qed.

Lemma find_pool_stats_last (df1 df2 : list DfPool) (x : DfPool) :
  (forall y, In y df2 -> df_id y <> df_id x) ->
  find_pool_stats (df1 ++ x :: df2) (df_id x) = Some (df_pool_stats x).
Proof.
  intros H. change (x :: df2) with ([x] ++ df2)%list.
  rewrite app_assoc, find_pool_stats_app, (find_pool_stats_absent df2 _ H).
  rewrite find_pool_stats_app. unfold find_pool_stats at 1. cbn [fold_left].
  by rewrite Z.eqb_refl.
Qed.

Section PoolRows.
Variable cid : Z.
Variable df : list DfPool.

Lemma populate_pool_unfold (d : Store) (pl : OsdMapPool) :
  populate_pool cid df d pl =
  match find_pool_stats df (pool pl) with
  | None => d
  | Some stats =>
      let d1 := set_pools (map (fun p => if pool_row_of cid (pool pl) p
                                         then pool_attrs cid pl stats (p_pk p) else p)) d in
      if Nat.eqb (length (List.filter (pool_row_of cid (pool pl)) (pools d))) 0
      then Models.Pool_create (pool_attrs cid pl stats) d1 else d1
  end.
Proof. reflexivity. Qed.

Lemma populate_pool_other_tables (d : Store) (pl : OsdMapPool) :
  servers (populate_pool cid df d pl) = servers d
  /\ services (populate_pool cid df d pl) = services d
  /\ clusters (populate_pool cid df d pl) = clusters d.
Proof.
  rewrite populate_pool_unfold. destruct (find_pool_stats df (pool pl)); [|done].
  cbn zeta. by destruct (Nat.eqb _ 0).
Qed.

Lemma populate_loop_other_tables (l : list OsdMapPool) : forall d,
  servers (fold_left (populate_pool cid df) l d) = servers d
  /\ services (fold_left (populate_pool cid df) l d) = services d
  /\ clusters (fold_left (populate_pool cid df) l d) = clusters d.
Proof.
  induction l as [|pl l IH]; intros d; [done|]. cbn [fold_left].
  destruct (IH (populate_pool cid df d pl)) as (-> & -> & ->).
  apply populate_pool_other_tables.
Qed.

(** A filter that lets no row of this pool through sees no change. *)
Lemma populate_pool_frame (P : Pool -> bool) (d : Store) (pl : OsdMapPool) :
  (forall p, pool_row_of cid (pool pl) p = true -> P p = false) ->
  List.filter P (pools (populate_pool cid df d pl)) = List.filter P (pools d).
Proof.
  intros HP. rewrite populate_pool_unfold.
  destruct (find_pool_stats df (pool pl)) as [stats|]; [|done]. cbn zeta.
  assert (Hattrs : forall pk, P (pool_attrs cid pl stats pk) = false).
  { intros pk. apply HP. unfold pool_row_of, pool_attrs. cbn. by rewrite !Z.eqb_refl. }
  assert (Hmap : List.filter P (map (fun p => if pool_row_of cid (pool pl) p
                    then pool_attrs cid pl stats (p_pk p) else p) (pools d))
                 = List.filter P (pools d)).
  { apply filter_map_fixed.
    - intros x. destruct (pool_row_of cid (pool pl) x) eqn:Hx; [|done].
      by rewrite Hattrs, (HP x Hx).
    - intros x Hx. destruct (pool_row_of cid (pool pl) x) eqn:Hrow; [|done].
      by rewrite (HP x Hrow) in Hx. }
  destruct (Nat.eqb _ 0); cbn [pools set_pools Models.Pool_create]; [|exact Hmap].
  rewrite List.filter_app, Hmap. cbn [List.filter]. rewrite Hattrs. apply app_nil_r.
Qed.

Lemma populate_loop_frame (P : Pool -> bool) (l : list OsdMapPool) : forall d,
  (forall pl p, In pl l -> find_pool_stats df (pool pl) <> None ->
                pool_row_of cid (pool pl) p = true -> P p = false) ->
  List.filter P (pools (fold_left (populate_pool cid df) l d)) = List.filter P (pools d).
Proof.
  induction l as [|pl l IH]; intros d HP; [done|]. cbn [fold_left].
  rewrite IH by (intros pl' p Hin; apply HP; by right).
  destruct (find_pool_stats df (pool pl)) as [stats|] eqn:Hstats.
  - apply populate_pool_frame. intros p. apply (HP pl p); [by left|by rewrite Hstats].
  - by rewrite populate_pool_unfold, Hstats.
Qed.

(** After the round of a pool with statistics its rows exist and carry
    what the round wrote. *)
Lemma populate_pool_written (d : Store) (pl : OsdMapPool) (stats : DfPoolStats) :
  find_pool_stats df (pool pl) = Some stats ->
  let rows := List.filter (pool_row_of cid (pool pl)) (pools (populate_pool cid df d pl)) in
  rows <> [] /\ Forall (fun row => row = pool_attrs cid pl stats (p_pk row)) rows.
Proof.
  intros Hstats. cbn zeta. rewrite populate_pool_unfold, Hstats. cbn zeta.
  set (hit := pool_row_of cid (pool pl)).
  set (g := fun p : Pool => if hit p then pool_attrs cid pl stats (p_pk p) else p).
  assert (Hhit : forall pk, hit (pool_attrs cid pl stats pk) = true).
  { intros pk. unfold hit, pool_row_of, pool_attrs. cbn. by rewrite !Z.eqb_refl. }
  assert (Hmap : forall rows, List.filter hit (map g rows)
                              = map (fun p => pool_attrs cid pl stats (p_pk p))
                                    (List.filter hit rows)).
  { induction rows as [|x rows IH]; [done|]. cbn [map List.filter].
    assert (Hgx : hit (g x) = hit x).
    { unfold g. destruct (hit x) eqn:Hx; [apply Hhit|exact Hx]. }
    rewrite Hgx. destruct (hit x) eqn:Hx; [|exact IH].
    cbn [map]. rewrite IH. f_equal. unfold g. by rewrite Hx. }
  assert (Hall : forall rows,
            Forall (fun row => row = pool_attrs cid pl stats (p_pk row))
                   (map (fun p => pool_attrs cid pl stats (p_pk p)) rows)).
  { intros rows. apply List.Forall_forall. intros row Hrow.
    apply in_map_iff in Hrow as (p & Hp & _). by subst row. }
  destruct (List.filter hit (pools d)) as [|r rs] eqn:Hrows; cbn [length Nat.eqb].
  - cbn [pools set_pools Models.Pool_create]. rewrite List.filter_app, Hmap, Hrows.
    cbn [map app List.filter]. rewrite Hhit. split; [done|]. by repeat constructor.
  - cbn [pools set_pools]. rewrite Hmap, Hrows. split; [done|]. apply Hall.
Qed.

Lemma populate_loop_written (l : list OsdMapPool) (pl : OsdMapPool) (stats : DfPoolStats) :
  NoDup (map pool l) -> In pl l ->
  find_pool_stats df (pool pl) = Some stats ->
  forall d,
    let rows := List.filter (pool_row_of cid (pool pl))
                            (pools (fold_left (populate_pool cid df) l d)) in
    rows <> [] /\ Forall (fun row => row = pool_attrs cid pl stats (p_pk row)) rows.
Proof.
  intros Hnd Hin Hstats. cbn zeta.
  induction l as [|x l IH]; [done|]. intros d. cbn [fold_left].
  cbn [map] in Hnd. apply NoDup_cons in Hnd as [Hx Hnd].
  destruct (decide (pool pl ∈ map pool l)) as [Hin'|Hout].
  - destruct Hin as [->|Hin]; [done|]. by apply IH.
  - destruct Hin as [->|Hin]; [|destruct Hout; apply list_elem_of_In, in_map, Hin].
    rewrite populate_loop_frame; [by apply populate_pool_written|].
    intros pl' p Hpl' _ Hrow. unfold pool_row_of in *.
    destruct (Z.eqb_spec (p_pool_id p) (pool pl')) as [Heq|]; [|by rewrite andb_false_r in Hrow].
    destruct (Z.eqb_spec (p_pool_id p) (pool pl)) as [Heq'|]; [|by rewrite andb_false_r].
    destruct Hout. rewrite <- Heq', Heq. by apply list_elem_of_In, in_map.
Qed.

End PoolRows.

Section PopulatePools.
Variable T : Telemetry.

Lemma populate_pools_returns (s : St) (om : OsdDump) (df : DfDoc)
    (usage : list DfPool) :
  get_osds T = Return om -> get_space_stats T = Return df ->
  df_pools df = Some usage ->
  _populate_pools T s
  = (Return tt, on_db (pools_populated (cl_id (cluster s)) om usage) s).
Proof.
  intros Hom Hdf Hus. unfold _populate_pools. run_pass.
  rewrite Hom. run_pass. rewrite Hdf. run_pass. by rewrite Hus.
Qed.

Lemma pools_populated_pruned (cid : Z) (om : OsdDump) (df : list DfPool) (d : Store)
    (p : Pool) :
  In p (pools (pools_populated cid om df d)) ->
  p_cluster_id p = cid ->
  exists q, In q (od_pools om) /\ pool q = p_pool_id p.
Proof.
  intros Hp Hcid.
  destruct (existsb (fun q => pool q =? p_pool_id p) (od_pools om)) eqn:Hex.
  { apply existsb_exists in Hex as (q & Hq & Heq). exists q. split; [done|lia]. }
  exfalso.
  set (dead := fun p' : Pool =>
         (p_cluster_id p' =? cid) && (p_pool_id p' =? p_pool_id p)).
  assert (Hdead : In p (List.filter dead (pools (pools_populated cid om df d)))).
  { apply filter_In. split; [done|]. unfold dead. by rewrite Hcid, !Z.eqb_refl. }
  unfold pools_populated in Hdead. rewrite populate_loop_frame in Hdead.
  - cbn [pools set_pools] in Hdead. unfold Models.delete_rows in Hdead.
    apply filter_In in Hdead as [Hin Hd]. apply filter_In in Hin as [_ Hkeep].
    cbn beta in Hkeep. rewrite Hex, Hcid, Z.eqb_refl in Hkeep. done.
  - intros pl p' Hpl _ Hrow. unfold dead, pool_row_of in *.
    apply andb_prop in Hrow as [Hc Hi]. apply Z.eqb_eq in Hi.
    destruct (Z.eqb_spec (p_pool_id p') (p_pool_id p)) as [Heq|]; [|by rewrite andb_false_r].
    assert (existsb (fun q => pool q =? p_pool_id p) (od_pools om) = true); [|congruence].
    apply existsb_exists. exists pl. split; [done|]. apply Z.eqb_eq. congruence.
Qed.

(** X18.  [_populate_pools] asks for both documents before it touches the
    database: if either request fails, or the [df] answer has no ['pools'],
    the exception leaves the method and nothing has changed.  Otherwise the
    method returns, every row of [Pool]
    that the cluster has afterwards is a pool of the OSD map, the rows of
    other clusters are as before, and so are the other tables and the
    [Cluster] object. *)
Theorem populate_pools_prunes (s : St) :
  (forall e, get_osds T = Raise e -> _populate_pools T s = (Raise e, s))
  /\ (forall om e, get_osds T = Return om -> get_space_stats T = Raise e ->
        _populate_pools T s = (Raise e, s))
  /\ (forall om df, get_osds T = Return om -> get_space_stats T = Return df ->
        df_pools df = None ->
        _populate_pools T s = (Raise (Exn KeyError "pools"), s))
  /\ (forall om df usage,
        get_osds T = Return om -> get_space_stats T = Return df ->
        df_pools df = Some usage ->
        exists s',
          _populate_pools T s = (Return tt, s')
          /\ cluster s' = cluster s
          /\ servers (db s') = servers (db s)
          /\ services (db s') = services (db s)
          /\ clusters (db s') = clusters (db s)
          /\ (forall p, In p (pools (db s')) ->
                        p_cluster_id p = cl_id (cluster s) ->
                        exists q, In q (od_pools om) /\ pool q = p_pool_id p)
          /\ List.filter (pool_of_other_cluster (cl_id (cluster s))) (pools (db s'))
             = List.filter (pool_of_other_cluster (cl_id (cluster s))) (pools (db s))).
Proof.
  split; [|split; [|split]].
  - intros e He. unfold _populate_pools, bind. by rewrite He.
  - intros om e Hom He. unfold _populate_pools, bind. by rewrite Hom, He.
  - intros om df Hom Hdf Hno. unfold _populate_pools. run_pass.
    rewrite Hom. run_pass. rewrite Hdf. run_pass. by rewrite Hno.
  - intros om df usage Hom Hdf Hus. eexists.
    split; [by apply (populate_pools_returns s om df usage)|].
    cbn [cluster db on_db]. split; [done|].
    unfold pools_populated at 1 2 3.
    destruct (populate_loop_other_tables (cl_id (cluster s)) usage (od_pools om)
                (set_pools (Models.delete_rows (fun p =>
                   negb (existsb (fun q => pool q =? p_pool_id p) (od_pools om))
                   && (p_cluster_id p =? cl_id (cluster s)))) (db s)))
      as (-> & -> & ->).
    do 3 (split; [done|]). split; [apply pools_populated_pruned|].
    unfold pools_populated. rewrite populate_loop_frame.
    + cbn [pools set_pools]. apply filter_delete_other.
      intros x Hx. unfold pool_of_other_cluster in Hx.
      apply negb_true_iff in Hx. rewrite Hx. apply andb_false_r.
    + intros pl p _ _ Hrow. unfold pool_row_of, pool_of_other_cluster in *.
      apply andb_prop in Hrow as [-> _]. done.
Qed.

(** The rows written when [df] has its list of pools. *)
Lemma populate_pools_rows_usage (s : St) (om : OsdDump) (df : DfDoc)
    (usage : list DfPool) :
  get_osds T = Return om ->
  get_space_stats T = Return df ->
  df_pools df = Some usage ->
  NoDup (map pool (od_pools om)) ->
  let cid := cl_id (cluster s) in
  let after := pools (db (snd (_populate_pools T s))) in
  (forall pl df1 x df2,
     In pl (od_pools om) ->
     usage = (df1 ++ x :: df2)%list ->
     df_id x = pool pl ->
     (forall y, In y df2 -> df_id y <> pool pl) ->
     List.filter (pool_row_of cid (pool pl)) after <> []
     /\ Forall (fun row =>
                  p_name row = pool_name pl
                  /\ p_quota_max_bytes row = quota_max_bytes pl
                  /\ p_used_bytes row = bytes_used (df_pool_stats x)
                  /\ p_used_objects row = objects (df_pool_stats x))
               (List.filter (pool_row_of cid (pool pl)) after))
  /\ (forall pl,
        In pl (od_pools om) ->
        (forall x, In x usage -> df_id x <> pool pl) ->
        List.filter (pool_row_of cid (pool pl)) after
        = List.filter (pool_row_of cid (pool pl)) (pools (db s))).
Proof.
  intros Hom Hdf Hus Hnd. cbn zeta.
  rewrite (populate_pools_returns s om df usage Hom Hdf Hus).
  cbn [snd db on_db]. unfold pools_populated. split.
  - intros pl df1 x df2 Hpl Hsplit Hx Hlast.
    assert (Hstats : find_pool_stats usage (pool pl) = Some (df_pool_stats x)).
    { rewrite Hsplit, <- Hx. apply find_pool_stats_last. by rewrite Hx. }
    destruct (populate_loop_written (cl_id (cluster s)) usage (od_pools om)
                pl _ Hnd Hpl Hstats
                (set_pools (Models.delete_rows (fun p =>
                   negb (existsb (fun q => pool q =? p_pool_id p) (od_pools om))
                   && (p_cluster_id p =? cl_id (cluster s)))) (db s)))
      as [Hne Hall].
    split; [exact Hne|]. eapply Forall_impl; [exact Hall|].
    cbn beta. by intros row ->.
  - intros pl Hpl Habsent. rewrite populate_loop_frame.
    + cbn [pools set_pools]. apply filter_delete_other.
      intros p Hrow. unfold pool_row_of in Hrow. apply andb_prop in Hrow as [_ Hi].
      apply Z.eqb_eq in Hi.
      assert (existsb (fun q => pool q =? p_pool_id p) (od_pools om) = true) as ->; [|done].
      apply existsb_exists. exists pl. split; [done|]. by apply Z.eqb_eq.
    + intros pl' p Hpl' Hsome Hrow'. unfold pool_row_of in *.
      destruct (Z.eqb_spec (p_pool_id p) (pool pl)) as [Heq|]; [|by rewrite andb_false_r].
      apply andb_prop in Hrow' as [_ Hi]. apply Z.eqb_eq in Hi.
      destruct Hsome. apply find_pool_stats_absent. intros y Hy.
      rewrite <- Hi, Heq. by apply Habsent.
Qed.

Lemma populate_pools_no_usage (s : St) (om : OsdDump) (df : DfDoc) :
  get_osds T = Return om -> get_space_stats T = Return df -> df_pools df = None ->
  _populate_pools T s = (Raise (Exn KeyError "pools"), s).
Proof.
  intros Hom Hdf Hno. unfold _populate_pools. run_pass.
  rewrite Hom. run_pass. rewrite Hdf. run_pass. by rewrite Hno.
Qed.

(** X19.  The rows that [_populate_pools] writes.  A pool of the OSD map
    whose id is in the list of pools of [df] has at least one row
    afterwards, and each of its rows carries the name and byte quota of the
    OSD map and the usage of the last entry of [df] with this id.  A pool
    of the OSD map whose id is not in [df] is skipped: its rows are as
    before, none is made. *)
Theorem populate_pools_rows (s : St) (om : OsdDump) (df : DfDoc) :
  get_osds T = Return om ->
  get_space_stats T = Return df ->
  NoDup (map pool (od_pools om)) ->
  let cid := cl_id (cluster s) in
  let after := pools (db (snd (_populate_pools T s))) in
  (forall pl df1 x df2,
     In pl (od_pools om) ->
     df_pools df = Some (df1 ++ x :: df2)%list ->
     df_id x = pool pl ->
     (forall y, In y df2 -> df_id y <> pool pl) ->
     List.filter (pool_row_of cid (pool pl)) after <> []
     /\ Forall (fun row =>
                  p_name row = pool_name pl
                  /\ p_quota_max_bytes row = quota_max_bytes pl
                  /\ p_used_bytes row = bytes_used (df_pool_stats x)
                  /\ p_used_objects row = objects (df_pool_stats x))
               (List.filter (pool_row_of cid (pool pl)) after))
  /\ (forall pl,
        In pl (od_pools om) ->
        (forall usage x, df_pools df = Some usage -> In x usage -> df_id x <> pool pl) ->
        List.filter (pool_row_of cid (pool pl)) after
        = List.filter (pool_row_of cid (pool pl)) (pools (db s))).
Proof.
  intros Hom Hdf Hnd. cbn zeta.
  destruct (df_pools df) as [usage|] eqn:Hus.
  - destruct (populate_pools_rows_usage s om df usage Hom Hdf Hus Hnd) as [H1 H2].
    cbn zeta in H1, H2. split.
    + intros pl df1 x df2 Hpl [= Heq]. by apply (H1 pl df1 x df2).
    + intros pl Hpl Habsent. apply H2; [done|]. intros x. by apply Habsent.
  - rewrite (populate_pools_no_usage s om df Hom Hdf Hus). cbn [snd]. split; [|done].
    by intros pl df1 x df2 _ [=].
Qed.

Lemma set_pools_fixed (f : list Pool -> list Pool) (d : Store) :
  f (pools d) = pools d -> set_pools f d = d.
Proof. intros Hf. destruct d. unfold set_pools. cbn in *. by rewrite Hf. Qed.

Lemma filter_keeps_all {A} (P : A -> bool) (l : list A) :
  (forall x, In x l -> P x = true) -> List.filter P l = l.
Proof.
  induction l as [|x l IH]; intros H; [done|]. cbn [List.filter].
  rewrite (H x) by by left. rewrite IH; [done|]. intros y Hy. apply H. by right.
Qed.

Lemma fold_left_fixed {A B} (f : A -> B -> A) (l : list B) (a : A) :
  (forall x, In x l -> f a x = a) -> fold_left f l a = a.
Proof.
  induction l as [|x l IH]; intros H; [done|]. cbn [fold_left].
  rewrite (H x) by by left. apply IH. intros y Hy. apply H. by right.
Qed.

Lemma pools_populated_fixed (cid : Z) (om : OsdDump) (df : list DfPool) (d : Store) :
  NoDup (map pool (od_pools om)) ->
  pools_populated cid om df (pools_populated cid om df d) = pools_populated cid om df d.
Proof.
  intros Hnd. set (d1 := pools_populated cid om df d).
  unfold pools_populated at 1. rewrite set_pools_fixed.
  - apply fold_left_fixed. intros pl Hpl. rewrite populate_pool_unfold.
    destruct (find_pool_stats df (pool pl)) as [stats|] eqn:Hstats; [|done].
    cbn zeta.
    destruct (populate_loop_written cid df (od_pools om) pl stats
                Hnd Hpl Hstats
                (set_pools (Models.delete_rows (fun p =>
                   negb (existsb (fun q => pool q =? p_pool_id p) (od_pools om))
                   && (p_cluster_id p =? cid))) d)) as [Hne Hall].
    fold (pools_populated cid om df d) in Hne, Hall. fold d1 in Hne, Hall.
    destruct (List.filter (pool_row_of cid (pool pl)) (pools d1)) as [|r rs] eqn:Hrows;
      [done|]. cbn [length Nat.eqb]. rewrite <- Hrows in Hall.
    apply set_pools_fixed. rewrite <- (map_id (pools d1)) at 2.
    apply map_ext_in. intros p Hp.
    destruct (pool_row_of cid (pool pl) p) eqn:Hrow; [|done].
    symmetry. refine (proj1 (List.Forall_forall _ _) Hall p _).
    apply filter_In. by split.
  - unfold Models.delete_rows. apply filter_keeps_all. intros p Hp.
    destruct (Z.eqb_spec (p_cluster_id p) cid) as [Hc|]; [|by rewrite andb_false_r].
    destruct (pools_populated_pruned cid om df d p Hp Hc) as (q & Hq & Heq).
    assert (existsb (fun q => pool q =? p_pool_id p) (od_pools om) = true) as ->; [|done].
    apply existsb_exists. exists q. split; [done|]. by apply Z.eqb_eq.
Qed.

(** The second run when [df] has its list of pools. *)
Lemma populate_pools_twice_usage (s : St) (om : OsdDump) (df : DfDoc)
    (usage : list DfPool) :
  get_osds T = Return om ->
  get_space_stats T = Return df ->
  df_pools df = Some usage ->
  NoDup (map pool (od_pools om)) ->
  let s1 := snd (_populate_pools T s) in
  _populate_pools T s1 = (Return tt, s1).
Proof.
  intros Hom Hdf Hus Hnd. cbn zeta.
  rewrite (populate_pools_returns s om df usage Hom Hdf Hus).
  cbn [snd]. rewrite (populate_pools_returns _ om df usage Hom Hdf Hus). f_equal.
  destruct s as [d c crush n2s]. unfold on_db. cbn [db cluster cl_id
    _crush_osd_hostnames _osd_name_to_server]. f_equal.
  by apply pools_populated_fixed.
Qed.

(** X20.  [_populate_pools] is idempotent while the documents stay the
    same: a second run ends as the first did and changes nothing, it makes
    no row, and so the number of rows of a pool does not grow from pass to
    pass.  The runs return when [df] has its list of pools. *)
Theorem populate_pools_twice (s : St) (om : OsdDump) (df : DfDoc) :
  get_osds T = Return om ->
  get_space_stats T = Return df ->
  NoDup (map pool (od_pools om)) ->
  let s1 := snd (_populate_pools T s) in
  _populate_pools T s1 = (fst (_populate_pools T s), s1)
  /\ (is_Some (df_pools df) -> fst (_populate_pools T s) = Return tt).
Proof.
  intros Hom Hdf Hnd. cbn zeta.
  destruct (df_pools df) as [usage|] eqn:Hus.
  - pose proof (populate_pools_twice_usage s om df usage Hom Hdf Hus Hnd) as H.
    cbn zeta in H. rewrite H.
    by rewrite (populate_pools_returns s om df usage Hom Hdf Hus).
  - rewrite (populate_pools_no_usage s om df Hom Hdf Hus). cbn [fst snd].
    split; [by apply (populate_pools_no_usage s om df)|]. by intros [? [=]].
Qed.

End PopulatePools.

Lemma two_pools_distinct :
  NoDup (map pool
    [{| pool := 0; pool_name := "data"; quota_max_bytes := 100; quota_max_objects := 7 |};
     {| pool := 2; pool_name := "rbd"; quota_max_bytes := 0; quota_max_objects := 0 |}]).
Proof.
  cbn [map pool]. apply NoDup_cons. split; [|apply NoDup_singleton].
  by intros [=]%list_elem_of_singleton.
Qed.

(** The pool [data] of the OSD map is in [df], the pool [rbd] is not. *)
Lemma populate_pools_rows_witness :
  let after := pools (db (snd (_populate_pools two_pools (adapter_on stale_pools)))) in
  List.filter (pool_row_of 1 0) after <> []
  /\ Forall (fun row =>
               p_name row = "data" /\ p_quota_max_bytes row = 100
               /\ p_used_bytes row = 4096 /\ p_used_objects row = 3)
            (List.filter (pool_row_of 1 0) after).
Proof.
  cbn zeta.
  exact (proj1 (populate_pools_rows two_pools (adapter_on stale_pools)
                  {| od_pools :=
                       [{| pool := 0; pool_name := "data"; quota_max_bytes := 100;
                           quota_max_objects := 7 |};
                        {| pool := 2; pool_name := "rbd"; quota_max_bytes := 0;
                           quota_max_objects := 0 |}];
                     od_osds := [] |}
                  {| df_stats := Some {| total_used := Some 10;
                                         total_space := Some 100;
                                         total_avail := Some 90 |};
                     df_pools := Some [{| df_id := 0;
                                          df_pool_stats := {| bytes_used := 4096;
                                                              objects := 3 |} |}] |}
                  eq_refl eq_refl
                  two_pools_distinct)
           {| pool := 0; pool_name := "data"; quota_max_bytes := 100;
              quota_max_objects := 7 |}
           [] {| df_id := 0; df_pool_stats := {| bytes_used := 4096; objects := 3 |} |} []
           (or_introl eq_refl) eq_refl eq_refl
           (fun y (F : In y []) => match F with end)).
Defined.

Lemma populate_pools_twice_witness :
  let s1 := snd (_populate_pools two_pools (adapter_on stale_pools)) in
  _populate_pools two_pools s1 = (Return tt, s1).
Proof.
  cbn zeta.
  destruct (populate_pools_twice two_pools (adapter_on stale_pools)
              {| od_pools :=
                   [{| pool := 0; pool_name := "data"; quota_max_bytes := 100;
                       quota_max_objects := 7 |};
                    {| pool := 2; pool_name := "rbd"; quota_max_bytes := 0;
                       quota_max_objects := 0 |}];
                 od_osds := [] |}
              {| df_stats := Some {| total_used := Some 10; total_space := Some 100;
                                     total_avail := Some 90 |};
                 df_pools := Some [{| df_id := 0;
                                      df_pool_stats := {| bytes_used := 4096;
                                                          objects := 3 |} |}] |}
              eq_refl eq_refl two_pools_distinct) as [Hsame Hret].
  cbn zeta in Hsame. rewrite Hsame. f_equal; apply Hret; by eexists.
Defined.

(* ===================================================================== *)
(** ** The indexes of PGs and OSDs *)
(* ===================================================================== *)

Lemma if_bool_decide_ext {A} (P Q : Prop) `{Decision P, Decision Q} (a b : A) :
  (P <-> Q) ->
  (if bool_decide P then a else b) = (if bool_decide Q then a else b).
Proof. intros HPQ. by rewrite (bool_decide_ext P Q HPQ). Qed.

Lemma default_Some {A} (d x : A) : default d (Some x) = x.
Proof. reflexivity. Qed.

Lemma pg_states_of_insert (r r' : PgIndexes) (x : Z) (state : string) :
  pg_states_by_osd r'
  = <[x := add_at 1 state (default ∅ (pg_states_by_osd r !! x))]> (pg_states_by_osd r) ->
  forall o st,
    pg_states_of r' o st
    = pg_states_of r o st + (if bool_decide (o = x /\ st = state) then 1 else 0).
Proof.
  intros Hr' o st. unfold pg_states_of. rewrite Hr'.
  destruct (decide (o = x)) as [->|Ho].
  - rewrite lookup_insert_eq, default_Some. unfold add_at.
    destruct (decide (st = state)) as [->|Hs].
    + rewrite lookup_insert_eq, default_Some, bool_decide_eq_true_2 by done.
      reflexivity.
    + rewrite lookup_insert_ne by done.
      rewrite bool_decide_eq_false_2 by (intros [_ ?]; done). lia.
  - rewrite lookup_insert_ne by done.
    rewrite bool_decide_eq_false_2 by (intros [? _]; done). lia.
Qed.

Lemma pools_of_insert (r r' : PgIndexes) (x : Z) (pname : string) :
  pools_by_osd r'
  = <[x := default ∅ (pools_by_osd r !! x) ∪ {[pname]}]> (pools_by_osd r) ->
  forall o,
    pools_of r' o = pools_of r o ∪ (if bool_decide (o = x) then {[pname]} else ∅).
Proof.
  intros Hr' o. unfold pools_of. rewrite Hr'.
  destruct (decide (o = x)) as [->|Ho].
  - by rewrite lookup_insert_eq, default_Some, bool_decide_eq_true_2.
  - rewrite lookup_insert_ne, bool_decide_eq_false_2 by done. set_solver.
Qed.

Section Indexes.
Variable pools_by_id : gmap Z string.

Lemma index_state_spec (pool_id : Z) (acting_set : gset Z) (ix : PgIndexes)
    (state : string) :
  let ix' := index_state pools_by_id pool_id acting_set ix state in
  pg_counts_by_osd ix' = pg_counts_by_osd ix
  /\ osds_by_pg_state_idx ix'
     = <[state := osds_in_state ix state ∪ acting_set]> (osds_by_pg_state_idx ix)
  /\ (forall o st, pg_states_of ix' o st
                   = pg_states_of ix o st
                     + (if bool_decide (o ∈ acting_set /\ st = state) then 1 else 0))
  /\ (forall o, pools_of ix' o
                = pools_of ix o
                  ∪ (if bool_decide (o ∈ acting_set)
                     then match pools_by_id !! pool_id with
                          | Some pname => {[pname]}
                          | None => ∅
                          end
                     else ∅)).
Proof.
  cbn zeta. unfold index_state.
  set (P := fun (r : PgIndexes) (X : gset Z) =>
      pg_counts_by_osd r = pg_counts_by_osd ix
      /\ osds_by_pg_state_idx r
         = <[state := osds_in_state ix state ∪ acting_set]> (osds_by_pg_state_idx ix)
      /\ (forall o st, pg_states_of r o st
                       = pg_states_of ix o st
                         + (if bool_decide (o ∈ X /\ st = state) then 1 else 0))
      /\ (forall o, pools_of r o
                    = pools_of ix o
                      ∪ (if bool_decide (o ∈ X)
                         then match pools_by_id !! pool_id with
                              | Some pname => {[pname]}
                              | None => ∅
                              end
                         else ∅))).
  match goal with |- context [set_fold ?f ?b acting_set] =>
    enough (HP : P (set_fold f b acting_set) acting_set) by exact HP;
    apply (set_fold_ind_L P f b); unfold P
  end.
  - split; [done|]. split; [done|]. split.
    + intros o st. rewrite bool_decide_eq_false_2 by set_solver.
      unfold pg_states_of. cbn. lia.
    + intros o. rewrite bool_decide_eq_false_2 by set_solver.
      unfold pools_of. cbn. set_solver.
  - intros x X r Hx (Hc & Hobs & Hst & Hpl). cbn [pg_counts_by_osd osds_by_pg_state_idx].
    split; [done|]. split; [done|]. split.
    + intros o st.
      match goal with |- pg_states_of ?r' o st = _ =>
        rewrite (pg_states_of_insert r r' x state eq_refl o st), Hst, <- Z.add_assoc
      end.
      f_equal.
      destruct (decide (o = x)) as [->|Ho].
      * rewrite (bool_decide_eq_false_2 (x ∈ X /\ _)) by (intros [? _]; done).
        apply if_bool_decide_ext. set_solver.
      * rewrite (bool_decide_eq_false_2 (o = x /\ _)) by (intros [? _]; done).
        rewrite Z.add_0_r. apply if_bool_decide_ext. set_solver.
    + intros o. destruct (pools_by_id !! pool_id) as [pname|] eqn:Hp.
      * match goal with |- pools_of ?r' o = _ =>
          rewrite (pools_of_insert r r' x pname eq_refl o), Hpl
        end.
        destruct (decide (o = x)) as [->|Ho].
        -- rewrite (bool_decide_eq_false_2 (x ∈ X)) by done.
           rewrite bool_decide_eq_true_2 by done.
           rewrite bool_decide_eq_true_2 by set_solver. set_solver.
        -- rewrite (bool_decide_eq_false_2 (o = x)) by done.
           rewrite (right_id_L ∅ (∪)). f_equal. apply if_bool_decide_ext. set_solver.
      * change (pools_of _ o) with (pools_of r o) at 1. rewrite Hpl.
        destruct (bool_decide (o ∈ X)), (bool_decide (o ∈ {[x]} ∪ X)); set_solver.
Qed.


Lemma occurrences_cons (st st0 : string) (l : list string) :
  occurrences st (st0 :: l) = (if String.eqb st st0 then 1 else 0) + occurrences st l.
Proof.
  unfold occurrences. cbn [List.filter]. destruct (String.eqb st st0); [|lia].
  cbn [length]. lia.
Qed.

Lemma index_states_spec (pool_id : Z) (acting_set : gset Z) (sts : list string) :
  forall ix,
    let ix' := fold_left (index_state pools_by_id pool_id acting_set) sts ix in
    pg_counts_by_osd ix' = pg_counts_by_osd ix
    /\ (forall st, osds_in_state ix' st
                   = osds_in_state ix st
                     ∪ (if bool_decide (st ∈ sts) then acting_set else ∅))
    /\ (forall st, is_Some (osds_by_pg_state_idx ix' !! st)
                   <-> is_Some (osds_by_pg_state_idx ix !! st) \/ st ∈ sts)
    /\ (forall o st, pg_states_of ix' o st
                     = pg_states_of ix o st
                       + (if bool_decide (o ∈ acting_set) then occurrences st sts else 0))
    /\ (forall o, pools_of ix' o
                  = pools_of ix o
                    ∪ (if bool_decide (o ∈ acting_set /\ sts <> [])
                       then match pools_by_id !! pool_id with
                            | Some pname => {[pname]}
                            | None => ∅
                            end
                       else ∅)).
Proof.
  induction sts as [|st0 sts IH]; intros ix; cbn zeta.
  - cbn [fold_left]. split; [done|]. split.
    { intros st. rewrite bool_decide_eq_false_2 by set_solver. set_solver. }
    split; [intros st; set_solver|]. split.
    + intros o st. unfold occurrences. cbn. destruct (bool_decide _); lia.
    + intros o. rewrite bool_decide_eq_false_2 by (intros [_ ?]; done). set_solver.
  - cbn [fold_left].
    destruct (IH (index_state pools_by_id pool_id acting_set ix st0))
      as (Hc & Hin & Hkey & Hst & Hpl).
    destruct (index_state_spec pool_id acting_set ix st0) as (Hc0 & Hobs0 & Hst0 & Hpl0).
    split; [congruence|]. split; [|split; [|split]].
    + intros st. rewrite Hin. unfold osds_in_state at 1. rewrite Hobs0.
      destruct (decide (st = st0)) as [->|Hne].
      * rewrite lookup_insert_eq, default_Some.
        rewrite (bool_decide_eq_true_2 (st0 ∈ st0 :: sts)) by set_solver.
        destruct (bool_decide (st0 ∈ sts)); set_solver.
      * rewrite lookup_insert_ne by done. fold (osds_in_state ix st). f_equal.
        apply if_bool_decide_ext. set_solver.
    + intros st. rewrite Hkey, Hobs0.
      destruct (decide (st = st0)) as [->|Hne].
      * rewrite lookup_insert_eq. split; [intros _; right; set_solver|].
        intros _. left. by eexists.
      * rewrite lookup_insert_ne by done. set_solver.
    + intros o st. rewrite Hst, Hst0, occurrences_cons.
      destruct (decide (o ∈ acting_set)) as [Ho|Ho].
      * rewrite (bool_decide_eq_true_2 (o ∈ acting_set)) by done.
        destruct (String.eqb_spec st st0) as [->|Hne].
        -- rewrite bool_decide_eq_true_2 by done. lia.
        -- rewrite bool_decide_eq_false_2 by (intros [_ ?]; done). lia.
      * rewrite (bool_decide_eq_false_2 (o ∈ acting_set)) by done.
        rewrite bool_decide_eq_false_2 by (intros [? _]; done). lia.
    + intros o. rewrite Hpl, Hpl0.
      destruct (decide (o ∈ acting_set)) as [Ho|Ho].
      * rewrite (bool_decide_eq_true_2 (o ∈ acting_set)) by done.
        rewrite (bool_decide_eq_true_2 (o ∈ acting_set /\ st0 :: sts <> [])) by done.
        destruct (bool_decide (o ∈ acting_set /\ sts <> [])); set_solver.
      * rewrite (bool_decide_eq_false_2 (o ∈ acting_set)) by done.
        rewrite !bool_decide_eq_false_2 by (intros [? _]; done). set_solver.
Qed.

Lemma count_acting (acting_set : gset Z) (counts : gmap Z Z) (o : Z) :
  default 0 (set_fold (fun osd_id m => <[osd_id := default 0 (m !! osd_id) + 1]> m)
                      counts acting_set !! o)
  = default 0 (counts !! o) + (if bool_decide (o ∈ acting_set) then 1 else 0).
Proof.
  set (P := fun (r : gmap Z Z) (X : gset Z) =>
    forall o, default 0 (r !! o)
              = default 0 (counts !! o) + (if bool_decide (o ∈ X) then 1 else 0)).
  match goal with |- context [set_fold ?f ?b acting_set] =>
    enough (HP : P (set_fold f b acting_set) acting_set) by apply HP;
    apply (set_fold_ind_L P f b); unfold P
  end.
  - intros o'. rewrite bool_decide_eq_false_2 by set_solver. lia.
  - intros x X r Hx Hr o'. destruct (decide (o' = x)) as [->|Hne].
    + rewrite lookup_insert_eq, default_Some, Hr.
      rewrite bool_decide_eq_false_2 by done.
      rewrite bool_decide_eq_true_2 by set_solver. lia.
    + rewrite lookup_insert_ne by done. rewrite Hr. f_equal.
      apply if_bool_decide_ext. set_solver.
Qed.

Lemma index_pg_spec (ix ix' : PgIndexes) (pg : PgRecord) :
  index_pg pools_by_id ix pg = Return ix' ->
  (forall o, pg_count_of ix' o = pg_count_of ix o + (if acts_in o pg then 1 else 0))
  /\ (forall st o, o ∈ osds_in_state ix' st
                   <-> o ∈ osds_in_state ix st
                       \/ (st ∈ pg_states pg /\ acts_in o pg = true))
  /\ (forall st, is_Some (osds_by_pg_state_idx ix' !! st)
                 <-> is_Some (osds_by_pg_state_idx ix !! st) \/ st ∈ pg_states pg)
  /\ (forall o st, pg_states_of ix' o st
                   = pg_states_of ix o st
                     + (if acts_in o pg then occurrences st (pg_states pg) else 0))
  /\ (forall o pname, pname ∈ pools_of ix' o
                      <-> pname ∈ pools_of ix o
                          \/ (acts_in o pg = true /\ pool_name_of pools_by_id pg = Some pname)).
Proof.
  unfold index_pg, pool_name_of.
  destruct (PyStr.to_int _) as [pool_id|]; [|discriminate]. intros [= <-].
  match goal with |- context [fold_left _ (pg_states pg) ?ix0] =>
    destruct (index_states_spec pool_id (list_to_set (pg_acting pg)) (pg_states pg) ix0)
      as (Hc & Hin & Hkey & Hst & Hpl)
  end.
  assert (Hact : forall o, acts_in o pg
                           = bool_decide (o ∈ (list_to_set (pg_acting pg) : gset Z))).
  { intros o. unfold acts_in. apply bool_decide_ext. set_solver. }
  split; [|split; [|split; [|split]]].
  - intros o. unfold pg_count_of at 1. rewrite Hc. cbn [pg_counts_by_osd].
    rewrite count_acting, Hact. reflexivity.
  - intros st o. rewrite Hin, Hact.
    change (osds_in_state _ st) with (osds_in_state ix st) at 1.
    destruct (decide (st ∈ pg_states pg)).
    + rewrite bool_decide_eq_true_2 by done. rewrite elem_of_union.
      rewrite bool_decide_eq_true. tauto.
    + rewrite bool_decide_eq_false_2 by done. set_solver.
  - intros st. rewrite Hkey. reflexivity.
  - intros o st. rewrite Hst, Hact. reflexivity.
  - intros o pname. rewrite Hpl, Hact.
    change (pools_of _ o) with (pools_of ix o) at 1.
    rewrite elem_of_union.
    destruct (decide (pg_states pg = [])) as [Hnil|Hne].
    + rewrite bool_decide_eq_false_2 by (intros [_ ?]; done). set_solver.
    + destruct (decide (o ∈ (list_to_set (pg_acting pg) : gset Z))) as [Ho|Ho].
      * rewrite !bool_decide_eq_true_2 by done.
        destruct (pools_by_id !! pool_id); set_solver.
      * rewrite !bool_decide_eq_false_2 by tauto. set_solver.
Qed.

Lemma index_pgs_spec (pgs : list PgRecord) : forall ix ix',
  index_pgs pools_by_id ix pgs = Return ix' ->
  (forall o, pg_count_of ix' o = pg_count_of ix o + pgs_of o pgs)
  /\ (forall st o, o ∈ osds_in_state ix' st
                   <-> o ∈ osds_in_state ix st
                       \/ exists pg, In pg pgs /\ st ∈ pg_states pg /\ acts_in o pg = true)
  /\ (forall st, is_Some (osds_by_pg_state_idx ix' !! st)
                 <-> is_Some (osds_by_pg_state_idx ix !! st)
                     \/ exists pg, In pg pgs /\ st ∈ pg_states pg)
  /\ (forall o st, pg_states_of ix' o st = pg_states_of ix o st + pgs_of_in_state o st pgs)
  /\ (forall o pname, pname ∈ pools_of ix' o
                      <-> pname ∈ pools_of ix o
                          \/ exists pg, In pg pgs /\ acts_in o pg = true
                                        /\ pool_name_of pools_by_id pg = Some pname).
Proof.
  induction pgs as [|pg pgs IH]; intros ix ix'; cbn [index_pgs].
  - intros [= <-]. unfold pgs_of, pgs_of_in_state. cbn.
    split; [intros; lia|]. split; [intros; split; [tauto|intros [?|(? & [] & _)]; done]|].
    split; [intros; split; [tauto|intros [?|(? & [] & _)]; done]|].
    split; [intros; lia|]. intros; split; [tauto|intros [?|(? & [] & _)]; done].
  - destruct (index_pg pools_by_id ix pg) as [ix1|e] eqn:H1; [|discriminate].
    intros Hrest.
    destruct (index_pg_spec ix ix1 pg H1) as (Hc1 & Hin1 & Hkey1 & Hst1 & Hpl1).
    destruct (IH ix1 ix' Hrest) as (Hc & Hin & Hkey & Hst & Hpl).
    split; [|split; [|split; [|split]]].
    + intros o. rewrite Hc, Hc1. unfold pgs_of. cbn [List.filter].
      destruct (acts_in o pg); cbn [length]; lia.
    + intros st o. rewrite Hin, Hin1. split.
      * intros [[?|[? ?]]|(pg' & ? & ? & ?)]; [by left|right..].
        -- exists pg. split; [by left|done].
        -- exists pg'. split; [by right|done].
      * intros [?|(pg' & [<-|?] & ? & ?)]; [by left; left|by left; right|].
        right. by exists pg'.
    + intros st. rewrite Hkey, Hkey1. split.
      * intros [[?|?]|(pg' & ? & ?)]; [by left|right..].
        -- exists pg. split; [by left|done].
        -- exists pg'. split; [by right|done].
      * intros [?|(pg' & [<-|?] & ?)]; [by left; left|by left; right|].
        right. by exists pg'.
    + intros o st. rewrite Hst, Hst1. unfold pgs_of_in_state. cbn [foldr]. lia.
    + intros o pname. rewrite Hpl, Hpl1. split.
      * intros [[?|[? ?]]|(pg' & ? & ? & ?)]; [by left|right..].
        -- exists pg. split; [by left|done].
        -- exists pg'. split; [by right|done].
      * intros [?|(pg' & [<-|?] & ? & ?)]; [by left; left|by left; right|].
        right. by exists pg'.
Qed.

End Indexes.

(* ===================================================================== *)
(** ** The lists of PGs and OSDs *)
(* ===================================================================== *)

Lemma map_raising_Forall2 {A B} (f : A -> Outcome B) (xs : list A) : forall ys,
  map_raising f xs = Return ys -> Forall2 (fun x y => f x = Return y) xs ys.
Proof.
  induction xs as [|x xs IH]; intros ys; cbn [map_raising].
  - intros [= <-]. constructor.
  - destruct (f x) as [y|e] eqn:Hx; [|discriminate].
    destruct (map_raising f xs) as [ys'|e]; [|discriminate].
    intros [= <-]. constructor; [exact Hx|by apply IH].
Qed.

Lemma map_raising_returns {A B} (f : A -> Outcome B) (xs : list A) :
  (forall x, In x xs -> exists y, f x = Return y) ->
  exists ys, map_raising f xs = Return ys.
Proof.
  induction xs as [|x xs IH]; intros H; cbn [map_raising]; [by eexists|].
  destruct (H x) as [y ->]; [by left|].
  destruct IH as [ys ->]; [intros x' Hx'; apply H; by right|]. by eexists.
Qed.

Lemma empty_indexes_entries (o : Z) (st : string) :
  pg_count_of empty_indexes o = 0
  /\ pg_states_of empty_indexes o st = 0
  /\ pools_of empty_indexes o = ∅
  /\ osds_in_state empty_indexes st = ∅.
Proof.
  unfold pg_count_of, pg_states_of, pools_of, osds_in_state, empty_indexes.
  cbn [pg_counts_by_osd pg_states_by_osd pools_by_osd osds_by_pg_state_idx].
  by rewrite !lookup_empty.
Qed.

Section OsdsAndPgs.
Variable T : Telemetry.

Lemma populate_osds_unfold (s : St) :
  _populate_osds_and_pgs T s =
  match get_pg_stats T with
  | Raise e => (Raise e, s)
  | Return brief =>
      let s1 := on_cluster (set_pgs (Some (map fixup_pg brief))) s in
      match get_pools T with
      | Raise e => (Raise e, s1)
      | Return lspools =>
          match index_pgs (pools_by_id_of lspools) empty_indexes (map fixup_pg brief) with
          | Raise e => (Raise e, s1)
          | Return ix =>
              let s2 := on_cluster (set_osds_by_pg_state
                          (Some (elements <$> osds_by_pg_state_idx ix))) s1 in
              match get_osds T with
              | Raise e => (Raise e, s2)
              | Return osd_map =>
                  match map_raising (fixup_osd (_osd_name_to_server s) ix)
                                    (od_osds osd_map) with
                  | Raise e => (Raise e, s2)
                  | Return fixed =>
                      (Return tt, on_cluster (set_osds (Some fixed)) s2)
                  end
              end
          end
      end
  end.
Proof.
  unfold _populate_osds_and_pgs, bind, lift, modify, get, pools_by_id_of.
  destruct (get_pg_stats T) as [brief|e]; [|done].
  destruct (get_pools T) as [lspools|e]; [|done].
  destruct (index_pgs _ _ _) as [ix|e]; [|done].
  destruct (get_osds T) as [om|e]; [|done].
  cbn [_osd_name_to_server on_cluster]. by destruct (map_raising _ _).
Qed.

(** X21.  The OSD records of a snapshot agree with its PG records.  When
    [_populate_osds_and_pgs] returns, [cluster.pgs] holds the PGs of the
    brief dump, [cluster.osds] has one record for each OSD of the OSD map,
    in its order, and in the record of an OSD [pg_count] is the number of
    PGs whose acting set has the OSD, [pg_states] counts for each state the
    PGs in that state among these, and [pools] lists the names of the pools
    of these PGs that [lspools] knows. *)
Theorem populate_osds_records (s s' : St) :
  _populate_osds_and_pgs T s = (Return tt, s') ->
  exists brief lspools om recs,
    get_pg_stats T = Return brief
    /\ get_pools T = Return lspools
    /\ get_osds T = Return om
    /\ pgs (cluster s') = Some (map fixup_pg brief)
    /\ osds (cluster s') = Some recs
    /\ map o_id recs = map osd (od_osds om)
    /\ Forall (fun r =>
                 o_pg_count r = pgs_of (o_id r) (map fixup_pg brief)
                 /\ (forall st, default 0 (o_pg_states r !! st)
                                = pgs_of_in_state (o_id r) st (map fixup_pg brief))
                 /\ (forall pname,
                       pname ∈ o_pools r
                       <-> exists pg, In pg (map fixup_pg brief)
                                      /\ acts_in (o_id r) pg = true
                                      /\ pool_name_of (pools_by_id_of lspools) pg
                                         = Some pname))
              recs.
Proof.
  rewrite populate_osds_unfold.
  destruct (get_pg_stats T) as [brief|e]; [|discriminate].
  destruct (get_pools T) as [lspools|e]; [|discriminate]. cbn zeta.
  destruct (index_pgs _ _ _) as [ix|e] eqn:Hix; [|discriminate].
  destruct (get_osds T) as [om|e]; [|discriminate].
  destruct (map_raising _ _) as [fixed|e] eqn:Hfix; [|discriminate].
  intros [= <-]. exists brief, lspools, om, fixed.
  do 5 (split; [reflexivity|]).
  apply map_raising_Forall2 in Hfix.
  destruct (index_pgs_spec _ _ _ _ Hix) as (Hc & _ & _ & Hst & Hpl).
  induction Hfix as [|o r os rs Hr _ IH]; [split; [done|constructor]|].
  destruct IH as [IHid IHall]. cbn [map]. unfold fixup_osd in Hr.
  destruct (_osd_name_to_server s !! _) as [server|]; [|discriminate].
  injection Hr as <-. cbn [o_id]. split; [by rewrite IHid|].
  constructor; [|exact IHall]. cbn [o_id o_pg_count o_pg_states o_pools].
  split; [|split].
  - fold (pg_count_of ix (osd o)). rewrite Hc.
    rewrite (proj1 (empty_indexes_entries (osd o) "")). lia.
  - intros st. fold (pg_states_of ix (osd o) st). rewrite Hst.
    rewrite (proj1 (proj2 (empty_indexes_entries (osd o) st))). lia.
  - intros pname. rewrite elem_of_elements. fold (pools_of ix (osd o)).
    rewrite Hpl, (proj1 (proj2 (proj2 (empty_indexes_entries (osd o) "")))).
    set_solver.
Qed.

(** X22.  The index of OSDs by PG state of a snapshot.  When
    [_populate_osds_and_pgs] returns, a state is a key of
    [cluster.osds_by_pg_state] exactly when some PG of [cluster.pgs] is in
    that state, and its list names, each once, the OSDs of the acting sets
    of these PGs. *)
Theorem populate_osds_by_state (s s' : St) :
  _populate_osds_and_pgs T s = (Return tt, s') ->
  exists cluster_pgs by_state,
    pgs (cluster s') = Some cluster_pgs
    /\ osds_by_pg_state (cluster s') = Some by_state
    /\ forall st,
         (is_Some (by_state !! st)
          <-> exists pg, In pg cluster_pgs /\ st ∈ pg_states pg)
         /\ forall l, by_state !! st = Some l ->
              NoDup l
              /\ forall o, o ∈ l
                           <-> exists pg, In pg cluster_pgs /\ st ∈ pg_states pg
                                          /\ acts_in o pg = true.
Proof.
  rewrite populate_osds_unfold.
  destruct (get_pg_stats T) as [brief|e]; [|discriminate].
  destruct (get_pools T) as [lspools|e]; [|discriminate]. cbn zeta.
  destruct (index_pgs _ _ _) as [ix|e] eqn:Hix; [|discriminate].
  destruct (get_osds T) as [om|e]; [|discriminate].
  destruct (map_raising _ _) as [fixed|e]; [|discriminate].
  intros [= <-]. eexists _, _. split; [reflexivity|]. split; [reflexivity|].
  destruct (index_pgs_spec _ _ _ _ Hix) as (_ & Hin & Hkey & _ & _).
  intros st. split.
  - rewrite lookup_fmap, fmap_is_Some, Hkey. cbn [osds_by_pg_state_idx empty_indexes].
    rewrite lookup_empty. split; [intros [[? [=]]|?]; done|by right].
  - intros l. rewrite lookup_fmap. intros Hl.
    destruct (osds_by_pg_state_idx ix !! st) as [X|] eqn:HX; [|discriminate].
    injection Hl as <-. split; [apply NoDup_elements|].
    intros o. rewrite elem_of_elements.
    specialize (Hin st o).
    rewrite (proj2 (proj2 (proj2 (empty_indexes_entries 0 st)))) in Hin.
    unfold osds_in_state in Hin. rewrite HX, default_Some in Hin.
    rewrite Hin. set_solver.
Qed.

End OsdsAndPgs.

(** Two OSDs: [osd.0] acts in two PGs, [osd.1] in three. *)
Lemma populate_osds_records_witness :
  exists brief lspools om recs,
    get_pg_stats three_pgs = Return brief
    /\ get_pools three_pgs = Return lspools
    /\ get_osds three_pgs = Return om
    /\ pgs (cluster (snd (_populate_osds_and_pgs three_pgs reconciled_three_pgs)))
       = Some (map fixup_pg brief)
    /\ osds (cluster (snd (_populate_osds_and_pgs three_pgs reconciled_three_pgs)))
       = Some recs
    /\ map o_id recs = map osd (od_osds om)
    /\ Forall (fun r =>
                 o_pg_count r = pgs_of (o_id r) (map fixup_pg brief)
                 /\ (forall st, default 0 (o_pg_states r !! st)
                                = pgs_of_in_state (o_id r) st (map fixup_pg brief))
                 /\ (forall pname,
                       pname ∈ o_pools r
                       <-> exists pg, In pg (map fixup_pg brief)
                                      /\ acts_in (o_id r) pg = true
                                      /\ pool_name_of (pools_by_id_of lspools) pg
                                         = Some pname))
              recs.
Proof.
  apply (populate_osds_records three_pgs reconciled_three_pgs).
  vm_compute. reflexivity.
Defined.

Lemma populate_osds_by_state_witness :
  exists cluster_pgs by_state,
    pgs (cluster (snd (_populate_osds_and_pgs three_pgs reconciled_three_pgs)))
    = Some cluster_pgs
    /\ osds_by_pg_state
         (cluster (snd (_populate_osds_and_pgs three_pgs reconciled_three_pgs)))
       = Some by_state
    /\ forall st,
         (is_Some (by_state !! st)
          <-> exists pg, In pg cluster_pgs /\ st ∈ pg_states pg)
         /\ forall l, by_state !! st = Some l ->
              NoDup l
              /\ forall o, o ∈ l
                           <-> exists pg, In pg cluster_pgs /\ st ∈ pg_states pg
                                          /\ acts_in o pg = true.
Proof.
  apply (populate_osds_by_state three_pgs reconciled_three_pgs).
  vm_compute. reflexivity.
Defined.

(* ===================================================================== *)
(** ** From the reconciliation to the OSD records *)
(* ===================================================================== *)

Lemma names_kept_refl s : names_kept s s.
Proof. by intros n. Qed.

Lemma names_kept_trans s1 s2 s3 :
  names_kept s1 s2 -> names_kept s2 s3 -> names_kept s1 s3.
Proof. intros H12 H23 n Hn. by apply H23, H12. Qed.

Lemma names_kept_same {A} (m : M St A) :
  (forall s, _osd_name_to_server (snd (m s)) = _osd_name_to_server s) ->
  preserves names_kept m.
Proof. intros H s n. by rewrite H. Qed.

Lemma names_kept_for_fold {A B} (xs : list A) (body : B -> A -> M St B) :
  (forall b x, preserves names_kept (body b x)) ->
  forall b, preserves names_kept (for_fold xs body b).
Proof.
  intros Hb. induction xs as [|x xs IH]; intros b; cbn [for_fold].
  - intros s. apply names_kept_refl.
  - apply (preserves_bind _ names_kept_trans); [apply Hb|intros b'; apply IH].
Qed.

(** Walk through a method that only adds to [_osd_name_to_server]. *)
Ltac names_steps :=
  repeat first
    [ apply (preserves_pure _ names_kept_refl)
    | apply (preserves_get _ names_kept_refl)
    | apply (preserves_bind _ names_kept_trans); [|intros ?]
    | apply (preserves_for_each _ names_kept_refl names_kept_trans); intros ?
    | apply names_kept_for_fold; intros ? ?
    | (apply names_kept_same; intros ?; reflexivity) ].

Section Compose.
Variable E : Env.
Variable T : Telemetry.

Lemma names_kept_ret {A} (a : A) : preserves names_kept (@ret St A a).
Proof. intros s. apply names_kept_refl. Qed.

Lemma names_kept_orm {A} (m : M Store A) : preserves names_kept (orm m).
Proof. apply names_kept_same. intros s. unfold orm. by destruct (m (db s)). Qed.

Lemma names_kept_crush : preserves names_kept (crush_osd_hostnames E T).
Proof.
  unfold crush_osd_hostnames.
  apply (preserves_bind _ names_kept_trans); [apply (preserves_get _ names_kept_refl)|].
  intros s. destruct (_crush_osd_hostnames s); [apply names_kept_ret|].
  names_steps; try apply names_kept_ret.
  unfold crush_hosts_step.
  destruct (String.eqb _ _); [|apply names_kept_ret].
  destruct (String.eqb _ _); [apply names_kept_ret|]. names_steps.
Qed.

Lemma names_kept_guess a t n server :
  preserves names_kept (guess_hostname E T a t n server).
Proof.
  unfold guess_hostname, save_server.
  destruct (srv_hostname server); [apply names_kept_ret|].
  destruct t.
  - apply (preserves_bind _ names_kept_trans); [apply names_kept_crush|].
    intros crush. destruct (match srv_hostname _ with Some _ => _ | None => _ end);
      names_steps; try apply names_kept_ret.
  - destruct (_reverse_dns E a); names_steps; try apply names_kept_ret.
Qed.

Lemma names_kept_register a t i n :
  preserves names_kept (_register_service E T a t i n).
Proof.
  unfold _register_service.
  apply (preserves_bind _ names_kept_trans); [apply (preserves_get _ names_kept_refl)|].
  intros s0.
  apply (preserves_bind _ names_kept_trans); [apply names_kept_orm|]. intros sc.
  apply (preserves_bind _ names_kept_trans); [apply names_kept_orm|]. intros xc.
  apply (preserves_bind _ names_kept_trans).
  { destruct (snd xc); [|apply names_kept_ret].
    names_steps; try apply names_kept_guess; try apply names_kept_ret. }
  intros r. apply (preserves_bind _ names_kept_trans); [|intros; apply names_kept_ret].
  destruct t; [|apply names_kept_ret].
  intros s n' [x Hx]. cbn.
  destruct (decide (n' = n)) as [->|Hne];
    [rewrite lookup_insert_eq|rewrite lookup_insert_ne by done]; by eexists.
Qed.

Lemma names_kept_register_osd old o : preserves names_kept (register_osd E T old o).
Proof.
  unfold register_osd.
  apply (preserves_bind _ names_kept_trans);
    [apply names_kept_register|intros; apply names_kept_ret].
Qed.

Lemma names_kept_register_mon old m : preserves names_kept (register_mon E T old m).
Proof.
  unfold register_mon.
  apply (preserves_bind _ names_kept_trans);
    [apply names_kept_register|intros; apply names_kept_ret].
Qed.

(** An OSD that was registered has its server under its name. *)
Lemma register_osd_named a i n s s' row :
  _register_service E T a OSD i n s = (Return row, s') ->
  is_Some (_osd_name_to_server s' !! n).
Proof.
  unfold _register_service.
  intros (s0 & s1 & _ & H)%bind_returns.
  apply bind_returns in H as (sc & s2 & _ & H).
  apply bind_returns in H as (xc & s3 & _ & H).
  apply bind_returns in H as (r & s4 & _ & H).
  apply bind_returns in H as ([] & s5 & Hins & H).
  injection H as _ <-. injection Hins as <-. cbn.
  rewrite lookup_insert_eq. by eexists.
Qed.

Lemma register_loop_named (os : list Osd) : forall old old' s s',
  for_fold os (register_osd E T) old s = (Return old', s') ->
  names_kept s s'
  /\ forall o, In o os ->
       is_Some (_osd_name_to_server s' !! ("osd." ++ PyStr.of_Z (osd o))).
Proof.
  induction os as [|o os IH]; intros old old' s s'; cbn [for_fold].
  - intros [= _ <-]. split; [apply names_kept_refl|]. by intros o [].
  - intros (old1 & s1 & H1 & Hrest)%bind_returns.
    destruct (IH _ _ _ _ Hrest) as [Hkept Hall].
    assert (H01 : names_kept s s1).
    { pose proof (names_kept_register_osd old o s) as Hk.
      rewrite H1 in Hk. exact Hk. }
    split; [by eapply names_kept_trans|].
    intros o' [<-|Hin]; [|by apply Hall].
    apply Hkept. unfold register_osd in H1.
    apply bind_returns in H1 as (row & s2 & Hreg & Hret).
    injection Hret as _ <-. by eapply register_osd_named.
Qed.

(** X23.  The reconciliation prepares the OSD records.  When
    [_refresh_servers] has returned, the server of every OSD of the OSD map
    is found under the OSD's name, so that [fixup_osd] raises no [KeyError],
    and [_populate_osds_and_pgs] returns as soon as the dump of the PGs and
    the list of the pools arrive and every [pgid] starts with the number of
    its pool. *)
Theorem refresh_servers_names_osds (s s' : St) :
  _refresh_servers E T s = (Return tt, s') ->
  exists om,
    get_osds T = Return om
    /\ (forall o ix, In o (od_osds om) ->
          exists r, fixup_osd (_osd_name_to_server s') ix o = Return r
                    /\ o_id r = osd o)
    /\ (forall brief lspools ix,
          get_pg_stats T = Return brief -> get_pools T = Return lspools ->
          index_pgs (pools_by_id_of lspools) empty_indexes (map fixup_pg brief)
          = Return ix ->
          fst (_populate_osds_and_pgs T s') = Return tt).
Proof.
  unfold _refresh_servers.
  intros (ms & s1 & Hms & H)%bind_returns.
  apply bind_returns in H as (om & s2 & Hom & H).
  apply bind_returns in H as (s0 & s3 & _ & H).
  apply bind_returns in H as (old1 & s4 & Hosds & H).
  apply bind_returns in H as (old2 & s5 & Hmons & H).
  apply bind_returns in H as ([] & s6 & Hdel1 & Hdel2).
  unfold lift in Hom. destruct (get_osds T) as [om'|e] eqn:Hget; [|discriminate].
  injection Hom as -> ->. exists om. split; [reflexivity|].
  destruct (register_loop_named _ _ _ _ _ Hosds) as [_ Hnamed].
  assert (Hkept : names_kept s4 s').
  { eapply names_kept_trans.
    - pose proof (names_kept_for_fold (monmap_mons ms) (register_mon E T)
                    names_kept_register_mon old1 s4) as Hk.
      rewrite Hmons in Hk. exact Hk.
    - injection Hdel1 as <-. injection Hdel2 as <-. by intros n. }
  assert (Hfix : forall o ix, In o (od_osds om) ->
            exists r, fixup_osd (_osd_name_to_server s') ix o = Return r
                      /\ o_id r = osd o).
  { intros o ix Ho. destruct (Hkept _ (Hnamed o Ho)) as [server Hserver].
    unfold fixup_osd. rewrite Hserver. by eexists. }
  split; [exact Hfix|].
  intros brief lspools ix Hbrief Hls Hix. rewrite populate_osds_unfold.
  rewrite Hbrief, Hls. cbn zeta. rewrite Hix, Hget.
  destruct (map_raising_returns (fixup_osd (_osd_name_to_server s') ix) (od_osds om))
    as [fixed ->]; [|done].
  intros o Ho. destruct (Hfix o ix Ho) as (r & -> & _). by eexists.
Qed.

End Compose.

Lemma refresh_servers_names_osds_witness :
  exists om,
    get_osds three_pgs = Return om
    /\ (forall o ix, In o (od_osds om) ->
          exists r, fixup_osd (_osd_name_to_server reconciled_three_pgs) ix o = Return r
                    /\ o_id r = osd o)
    /\ (forall brief lspools ix,
          get_pg_stats three_pgs = Return brief -> get_pools three_pgs = Return lspools ->
          index_pgs (pools_by_id_of lspools) empty_indexes (map fixup_pg brief)
          = Return ix ->
          fst (_populate_osds_and_pgs three_pgs reconciled_three_pgs) = Return tt).
Proof.
  apply (refresh_servers_names_osds (quiet_env (fun _ => three_pgs)) three_pgs
           (adapter_on one_cluster) reconciled_three_pgs).
  vm_compute. reflexivity.
Defined.

(* ===================================================================== *)
(** ** The classifiers over the whole input *)
(* ===================================================================== *)

Lemma labelled_has_label (cls : gset string) (pg : PgByState) :
  labelled cls pg = true <-> has_label cls (pg_state_labels (state_name pg)).
Proof.
  unfold labelled, has_label. rewrite existsb_exists. split.
  - intros (l & Hl & Hc). exists l. split; [by apply list_elem_of_In|].
    by apply bool_decide_eq_true in Hc.
  - intros (l & Hl & Hc). exists l. split; [by apply list_elem_of_In|].
    by apply bool_decide_eq_true.
Qed.

Lemma credited_entry (cls : gset string) (pg : PgByState) (b b' : Bucket) (l : string) :
  credited cls (pg_state_labels (state_name pg)) (pbs_count pg) b b' ->
  count b' = count b + pbs_count pg
  /\ default 0 (states b' !! l)
     = default 0 (states b !! l) + (if with_label l cls pg then pbs_count pg else 0).
Proof.
  intros [Hc Hs]. split; [exact Hc|]. rewrite Hs. unfold with_label.
  destruct (decide (l ∈ cls /\ l ∈ pg_state_labels (state_name pg))) as [[H1 H2]|Hno].
  - by rewrite !bool_decide_eq_true_2.
  - destruct (decide (l ∈ cls)) as [H1|H1].
    + rewrite (bool_decide_eq_true_2 _ H1), bool_decide_eq_false_2 by tauto.
      cbn [andb]. lia.
    + rewrite (bool_decide_eq_false_2 _ H1). cbn [andb]. lia.
Qed.

(** One turn of the loop, on the three buckets. *)
Lemma pg_counters_step_totals (acc : Bucket * Bucket * Bucket) (pg : PgByState) :
  let r := pg_counters_step acc pg in
  let n (sel : PgByState -> bool) := if sel pg then pbs_count pg else 0 in
  (count (snd r) = count (snd acc) + n counted_critical
   /\ count (snd (fst r)) = count (snd (fst acc)) + n counted_warn
   /\ count (fst (fst r)) = count (fst (fst acc)) + n counted_ok)
  /\ forall l,
       default 0 (states (snd r) !! l)
       = default 0 (states (snd acc) !! l)
         + n (fun pg => counted_critical pg && with_label l CRIT_STATES pg)
       /\ default 0 (states (snd (fst r)) !! l)
          = default 0 (states (snd (fst acc)) !! l)
            + n (fun pg => counted_warn pg && with_label l WARN_STATES pg)
       /\ default 0 (states (fst (fst r)) !! l)
          = default 0 (states (fst (fst acc)) !! l)
            + n (fun pg => counted_ok pg && with_label l OKAY_STATES pg).
Proof.
  destruct acc as [[ok_ warn_] crit_]. cbn zeta. cbn [fst snd].
  unfold pg_counters_step, counted_critical, counted_warn, counted_ok.
  destruct (labelled CRIT_STATES pg) eqn:Hc.
  { apply labelled_has_label in Hc.
    destruct (_pg_counter_helper_hit CRIT_STATES _ (pbs_count pg) crit_ Hc)
      as (b' & -> & Hb). cbn [fst snd negb andb].
    split; [destruct (credited_entry _ _ _ _ "" Hb); repeat split; lia|].
    intros l. destruct (credited_entry _ _ _ _ l Hb) as [_ ->]. repeat split; lia. }
  assert (Hc' : ~ has_label CRIT_STATES (pg_state_labels (state_name pg))).
  { rewrite <- labelled_has_label. by rewrite Hc. }
  rewrite (_pg_counter_helper_miss CRIT_STATES) by exact Hc'.
  destruct (labelled WARN_STATES pg) eqn:Hw.
  { apply labelled_has_label in Hw.
    destruct (_pg_counter_helper_hit WARN_STATES _ (pbs_count pg) warn_ Hw)
      as (b' & -> & Hb). cbn [fst snd negb andb].
    split; [destruct (credited_entry _ _ _ _ "" Hb); repeat split; lia|].
    intros l. destruct (credited_entry _ _ _ _ l Hb) as [_ ->]. repeat split; lia. }
  assert (Hw' : ~ has_label WARN_STATES (pg_state_labels (state_name pg))).
  { rewrite <- labelled_has_label. by rewrite Hw. }
  rewrite (_pg_counter_helper_miss WARN_STATES) by exact Hw'.
  destruct (labelled OKAY_STATES pg) eqn:Ho.
  { apply labelled_has_label in Ho.
    destruct (_pg_counter_helper_hit OKAY_STATES _ (pbs_count pg) ok_ Ho)
      as (b' & -> & Hb). cbn [fst snd negb andb].
    split; [destruct (credited_entry _ _ _ _ "" Hb); repeat split; lia|].
    intros l. destruct (credited_entry _ _ _ _ l Hb) as [_ ->]. repeat split; lia. }
  assert (Ho' : ~ has_label OKAY_STATES (pg_state_labels (state_name pg))).
  { rewrite <- labelled_has_label. by rewrite Ho. }
  rewrite (_pg_counter_helper_miss OKAY_STATES) by exact Ho'.
  cbn [fst snd negb andb]. split; [repeat split; lia|]. intros l. repeat split; lia.
Qed.

Lemma pg_counters_loop_totals (pgs : list PgByState) :
  forall acc : Bucket * Bucket * Bucket,
    let r := fold_left pg_counters_step pgs acc in
    (count (snd r) = count (snd acc) + sum_counts counted_critical pgs
     /\ count (snd (fst r)) = count (snd (fst acc)) + sum_counts counted_warn pgs
     /\ count (fst (fst r)) = count (fst (fst acc)) + sum_counts counted_ok pgs)
    /\ forall l,
         default 0 (states (snd r) !! l)
         = default 0 (states (snd acc) !! l)
           + sum_counts (fun pg => counted_critical pg && with_label l CRIT_STATES pg) pgs
         /\ default 0 (states (snd (fst r)) !! l)
            = default 0 (states (snd (fst acc)) !! l)
              + sum_counts (fun pg => counted_warn pg && with_label l WARN_STATES pg) pgs
         /\ default 0 (states (fst (fst r)) !! l)
            = default 0 (states (fst (fst acc)) !! l)
              + sum_counts (fun pg => counted_ok pg && with_label l OKAY_STATES pg) pgs.
Proof.
  induction pgs as [|pg pgs IH]; intros acc; cbn zeta.
  - cbn [fold_left sum_counts foldr]. split; [repeat split; lia|].
    intros l. repeat split; lia.
  - cbn [fold_left]. destruct (IH (pg_counters_step acc pg)) as [(H1 & H2 & H3) Hl].
    destruct (pg_counters_step_totals acc pg) as [(K1 & K2 & K3) Kl].
    cbn zeta in *. unfold sum_counts in *. cbn [foldr].
    split; [repeat split; lia|]. intros l.
    destruct (Hl l) as (L1 & L2 & L3), (Kl l) as (M1 & M2 & M3).
    repeat split; lia.
Qed.

(** X24.  The PG classifier over the whole of [pgs_by_state].  Every entry
    is counted in one bucket at most: in [critical] when it has a critical
    label, else in [warn] when it has a warn label, else in [ok] when it has
    an ok label, and nowhere otherwise; so each bucket's count is the sum of
    the counts of its entries.  The sub-count of a label in a bucket is the
    sum over the entries of the bucket that have the label, for the labels
    of the bucket's class, and there is none for other labels. *)
Theorem pg_counters_totals (pgs : list PgByState) :
  let r := _calculate_pg_counters pgs in
  count (critical r) = sum_counts counted_critical pgs
  /\ count (warn r) = sum_counts counted_warn pgs
  /\ count (ok r) = sum_counts counted_ok pgs
  /\ forall l,
       default 0 (states (critical r) !! l)
       = sum_counts (fun pg => counted_critical pg && with_label l CRIT_STATES pg) pgs
       /\ default 0 (states (warn r) !! l)
          = sum_counts (fun pg => counted_warn pg && with_label l WARN_STATES pg) pgs
       /\ default 0 (states (ok r) !! l)
          = sum_counts (fun pg => counted_ok pg && with_label l OKAY_STATES pg) pgs.
Proof.
  cbn zeta. unfold _calculate_pg_counters.
  destruct (pg_counters_loop_totals pgs (empty_bucket, empty_bucket, empty_bucket))
    as [(H1 & H2 & H3) Hl].
  destruct (fold_left pg_counters_step pgs _) as [[ok_ warn_] crit_].
  cbn [fst snd count states empty_bucket ok warn critical] in *.
  split; [lia|]. split; [lia|]. split; [lia|]. intros l.
  destruct (Hl l) as (L1 & L2 & L3). rewrite lookup_empty in L1, L2, L3.
  change (default 0 None) with 0 in L1, L2, L3. repeat split; lia.
Qed.

(* ===================================================================== *)
(** ** The labels of the OSD counters *)
(* ===================================================================== *)

Lemma how_many_nonneg (cell : Osd -> bool) (os : list Osd) : 0 <= how_many cell os.
Proof. unfold how_many. lia. Qed.

Lemma states_if_nonzero_lookup (label l : string) (n : Z) :
  states_if_nonzero label n !! l
  = if bool_decide (l = label /\ n <> 0) then Some n else None.
Proof.
  unfold states_if_nonzero. destruct (Z.eqb_spec n 0) as [Hz|Hnz].
  - rewrite lookup_empty, bool_decide_eq_false_2; [done|tauto].
  - destruct (decide (l = label)) as [->|Hne].
    + by rewrite lookup_singleton_eq, bool_decide_eq_true_2.
    + rewrite lookup_singleton_ne by done.
      rewrite bool_decide_eq_false_2; [done|tauto].
Qed.

(** X25.  The labels of the OSD counters.  A bucket names a cell of the
    (up, in) table exactly when some OSD is in the cell, and then with the
    number of these OSDs: [up/in] in [ok], [up/out] and [down/in] in [warn],
    [down/out] in [critical].  No label has the value 0 and no other label
    occurs. *)
Theorem osd_counters_labels (os : list Osd) (l : string) :
  let r := _calculate_osd_counters os in
  states (ok r) !! l
  = (if bool_decide (l = "up/in" /\ how_many is_up_in os <> 0)
     then Some (how_many is_up_in os) else None)
  /\ states (warn r) !! l
     = (if bool_decide (l = "up/out" /\ how_many is_up_out os <> 0)
        then Some (how_many is_up_out os)
        else if bool_decide (l = "down/in" /\ how_many is_down_in os <> 0)
             then Some (how_many is_down_in os) else None)
  /\ states (critical r) !! l
     = (if bool_decide (l = "down/out" /\ how_many is_down_out os <> 0)
        then Some (how_many is_down_out os) else None).
Proof.
  cbn zeta. unfold _calculate_osd_counters, osd_tally. cbn [states ok warn critical].
  destruct (osd_tally_fold os
    {| total := Z.of_nat (length os); not_up_not_in := 0; not_up_in := 0;
       up_not_in := 0; up_in := 0 |}) as (_ & H1 & H2 & H3 & H4).
  cbn [up_in up_not_in not_up_in not_up_not_in] in *.
  rewrite H1, H2, H3, H4, !Z.add_0_l, !states_if_nonzero_lookup.
  split; [done|]. split; [|done].
  pose proof (how_many_nonneg is_up_out os) as Huo.
  pose proof (how_many_nonneg is_down_in os) as Hdi.
  destruct (Z.ltb_spec 0 (how_many is_up_out os)) as [Ha|Ha];
    destruct (Z.ltb_spec 0 (how_many is_down_in os)) as [Hb|Hb];
    (destruct (Z.eqb_spec (how_many is_up_out os + how_many is_down_in os) 0);
       [try lia|]).
  - destruct (decide (l = "down/in")) as [->|Hl1].
    + rewrite lookup_insert_eq, bool_decide_eq_false_2 by (intros [[=] _]).
      rewrite bool_decide_eq_true_2; [done|split; [done|lia]].
    + rewrite lookup_insert_ne by done.
      rewrite (bool_decide_eq_false_2 (l = "down/in" /\ _)) by tauto.
      destruct (decide (l = "up/out")) as [->|Hl2].
      * rewrite lookup_insert_eq, bool_decide_eq_true_2; [done|split; [done|lia]].
      * rewrite lookup_insert_ne, lookup_empty by done.
        rewrite bool_decide_eq_false_2; [done|tauto].
  - rewrite (bool_decide_eq_false_2 (l = "down/in" /\ _)) by (intros [_ ?]; lia).
    destruct (decide (l = "up/out")) as [->|Hl2].
    + rewrite lookup_insert_eq, bool_decide_eq_true_2; [done|split; [done|lia]].
    + rewrite lookup_insert_ne, lookup_empty by done.
      rewrite bool_decide_eq_false_2; [done|tauto].
  - rewrite (bool_decide_eq_false_2 (l = "up/out" /\ _)) by (intros [_ ?]; lia).
    destruct (decide (l = "down/in")) as [->|Hl1].
    + rewrite lookup_insert_eq, bool_decide_eq_true_2; [done|split; [done|lia]].
    + rewrite lookup_insert_ne, lookup_empty by done.
      rewrite bool_decide_eq_false_2; [done|tauto].
  - rewrite lookup_empty.
    rewrite !bool_decide_eq_false_2; [done|intros [_ ?]; lia|intros [_ ?]; lia].
  - lia.
Qed.

(* ===================================================================== *)
(** ** The counters of a snapshot *)
(* ===================================================================== *)

Section PopulateCounters.
Variable E : Env.
Variable T : Telemetry.

(** X26.  [_populate_counters] needs three documents and nothing else.
    When the statistics of the pools, the OSD map and the status arrive,
    the step returns and assigns the five groups of counters, those of the
    monitors being what the monitor classifier returns: no monitor that
    refuses, or fails during, the probe makes the step fail.  When the
    step raises, it raises what the first of the three requests that failed
    raised, and the [Cluster] object keeps the counters it had. *)
Theorem populate_counters_needs_documents (s : St) :
  (forall pg_pools om st,
     get_pg_pools T = Return pg_pools -> get_osds T = Return om ->
     get_status T = Return st ->
     exists c,
       _populate_counters E T s = (Return tt, on_cluster (set_counters (Some c)) s)
       /\ c_pool c = _calculate_pool_counters pg_pools
       /\ c_osd c = _calculate_osd_counters (od_osds om)
       /\ c_mds c = _calculate_mds_counters (mdsmap st)
       /\ _calculate_mon_counters E st = Return (c_mon c)
       /\ c_pg c = _calculate_pg_counters (pgs_by_state st))
  /\ (forall e,
        fst (_populate_counters E T s) = Raise e ->
        snd (_populate_counters E T s) = s
        /\ (get_pg_pools T = Raise e
            \/ (returned (get_pg_pools T) = true /\ get_osds T = Raise e)
            \/ (returned (get_pg_pools T) = true /\ returned (get_osds T) = true
                /\ get_status T = Raise e))).
Proof.
  unfold _populate_counters, calculate_counters, bind, lift, _calculate_mon_counters.
  split.
  - intros pg_pools om st -> -> ->.
    destruct (mon_tally_sums E (quorum st) (status_mons st) 0 0 0)
      as (a & b & c & -> & _). eexists. split; [reflexivity|]. by repeat split.
  - intros e. destruct (get_pg_pools T) as [pg_pools|e1]; [|cbn; intros [= ->]; auto].
    destruct (get_osds T) as [om|e2]; [|cbn; intros [= ->]; auto].
    destruct (get_status T) as [st|e3]; [|cbn; intros [= ->]; auto 6].
    destruct (mon_tally_sums E (quorum st) (status_mons st) 0 0 0)
      as (a & b & c & -> & _). discriminate.
Qed.

End PopulateCounters.

(* ===================================================================== *)
(** ** The bookkeeping of [handle] *)
(* ===================================================================== *)

Lemma same_bookkeeping_refl c : same_bookkeeping c c.
Proof. by repeat split. Qed.

Lemma same_bookkeeping_trans c1 c2 c3 :
  same_bookkeeping c1 c2 -> same_bookkeeping c2 c3 -> same_bookkeeping c1 c3.
Proof. unfold same_bookkeeping. intuition congruence. Qed.

Lemma snapshot_only_refl s : snapshot_only s s.
Proof. split; [done|apply same_bookkeeping_refl]. Qed.

Lemma snapshot_only_trans s1 s2 s3 :
  snapshot_only s1 s2 -> snapshot_only s2 s3 -> snapshot_only s1 s3.
Proof.
  intros [H1 K1] [H2 K2]. split; [congruence|by eapply same_bookkeeping_trans].
Qed.

(** Walk through a method that assigns to the snapshot. *)
Ltac snapshot_steps :=
  repeat first
    [ apply (preserves_pure _ snapshot_only_refl)
    | apply (preserves_get _ snapshot_only_refl)
    | apply (preserves_bind _ snapshot_only_trans); [|intros ?]
    | (intros ?; split; [reflexivity|by repeat split]) ].

Section Bookkeeping.
Variable E : Env.

Lemma snapshot_only_populate_pools T : preserves snapshot_only (_populate_pools T).
Proof.
  intros s. unfold _populate_pools, bind, lift.
  destruct (get_osds T) as [om|e]; [|apply snapshot_only_refl].
  destruct (get_space_stats T) as [df|e]; [|apply snapshot_only_refl].
  destruct (df_pools df) as [usage|]; [|apply snapshot_only_refl].
  cbn [getitem get modify snd]. split; [|apply same_bookkeeping_refl].
  cbn [db on_db].
  by destruct (populate_loop_other_tables (cl_id (cluster s)) usage (od_pools om)
                 (set_pools (Models.delete_rows (fun p =>
                    negb (existsb (fun q => pool q =? p_pool_id p) (od_pools om))
                    && (p_cluster_id p =? cl_id (cluster s)))) (db s)))
    as (_ & _ & ->).
Qed.

Lemma snapshot_only_call_attr T attr : preserves snapshot_only (call_attr E T attr).
Proof.
  unfold call_attr.
  destruct (String.eqb attr _); [unfold _populate_space; snapshot_steps|].
  destruct (String.eqb attr _); [unfold _populate_health; snapshot_steps|].
  destruct (String.eqb attr _); [apply snapshot_only_populate_pools|].
  destruct (String.eqb attr _).
  { intros s. rewrite populate_osds_unfold.
    destruct (get_pg_stats T); [|apply snapshot_only_refl].
    destruct (get_pools T); [|by split].
    cbn zeta. destruct (index_pgs _ _ _); [|by split].
    destruct (get_osds T); [|by split].
    destruct (map_raising _ _); by split. }
  destruct (String.eqb attr _); [unfold _populate_counters; snapshot_steps|].
  by intros s.
Qed.

(** The table of clusters after a pass: as before, or with the row of the
    cluster saved once. *)
Lemma refresh_saves_own_row T (s : St) :
  let s' := snd (refresh E T s) in
  same_bookkeeping (cluster s) (cluster s')
  /\ (clusters (db s') = clusters (db s)
      \/ clusters (db s') = Models.save_row cl_id (cluster s') (clusters (db s))).
Proof.
  cbn zeta. unfold refresh, bind.
  destruct (keeps_refresh_servers E T s) as (Hc & _ & Ht & _).
  destruct (_refresh_servers E T s) as [[[]|e] s1]; cbn [snd] in *.
  2:{ rewrite Hc. split; [apply same_bookkeeping_refl|by left]. }
  pose proof (preserves_for_each _ snapshot_only_refl snapshot_only_trans
                (List.filter (PyStr.startswith "_populate_") dir_self)
                (call_attr E T) (snapshot_only_call_attr T) s1) as [Ht2 Hb2].
  rewrite Hc in Hb2. rewrite Ht in Ht2.
  destruct (for_each _ _ s1) as [[[]|e] s2]; cbn [snd] in *.
  - unfold cluster_save. cbn [snd cluster on_db db clusters set_clusters].
    split; [exact Hb2|]. right. by rewrite Ht2.
  - split; [exact Hb2|by left].
Qed.

Lemma save_row_twice {R} (pk : R -> Z) (r1 r2 : R) (rows : list R) :
  pk r1 = pk r2 ->
  Models.save_row pk r2 (Models.save_row pk r1 rows) = Models.save_row pk r2 rows.
Proof.
  intros Hpk. unfold Models.save_row. rewrite Hpk.
  destruct (existsb (fun x => pk x =? pk r2) rows) eqn:Hex.
  - rewrite existsb_map_comp.
    rewrite (existsb_ext_In _ (fun x => pk x =? pk r2)).
    + rewrite Hex, map_map. apply map_ext. intros x.
      destruct (pk x =? pk r2) eqn:Hx; [|by rewrite Hx].
      by rewrite Hpk, Z.eqb_refl.
    + intros x _. destruct (pk x =? pk r2) eqn:Hx; [|done].
      by rewrite Hpk, Z.eqb_refl.
  - rewrite existsb_app. cbn [existsb]. rewrite Hex, Hpk, Z.eqb_refl. cbn [orb].
    rewrite map_app. cbn [map]. rewrite Hpk, Z.eqb_refl. f_equal.
    rewrite <- (map_id rows) at 2. apply map_ext_in. intros x Hx.
    destruct (pk x =? pk r2) eqn:Hpx; [|done].
    assert (existsb (fun x => pk x =? pk r2) rows = true); [|congruence].
    apply existsb_exists. by exists x.
Qed.

Lemma save_row_present {R} (pk : R -> Z) (r : R) (rows : list R) :
  pk r ∈ map pk rows ->
  Models.save_row pk r rows = map (fun x => if pk x =? pk r then r else x) rows.
Proof.
  intros Hin. unfold Models.save_row.
  replace (existsb (fun x => pk x =? pk r) rows) with true; [done|].
  symmetry. apply existsb_exists.
  apply list_elem_of_In, in_map_iff in Hin as (x & Hx & Hin).
  exists x. split; [done|]. by apply Z.eqb_eq.
Qed.

(** One turn: the row of the cluster is saved with its stamps, and no
    other row changes. *)
Lemma handle_turn_stamps (i : nat) (c : Cluster) (d : Store) :
  exists c' d',
    handle_cluster_turn E i c d = Return d'
    /\ clusters d' = Models.save_row cl_id c' (clusters d)
    /\ stamped E (utcnow E i) c d c'.
Proof.
  unfold stamped, pass_outcome, handle_cluster_turn, _handle_cluster.
  destruct (CephRestClient E _) as [T|e].
  - match goal with |- context [refresh E T ?s0] =>
      destruct (refresh_saves_own_row T s0) as [Hb Ht];
      destruct (refresh E T s0) as [[[]|e] s']
    end; cbn [snd cluster db] in Hb, Ht;
      destruct Hb as (H1 & H2 & H3 & H4 & H5 & H6 & H7);
      cbn [cl_id cl_name api_base_url cluster_update_time set_bookkeeping
           cluster_update_error_isclient cluster_update_error_msg
           cluster_update_attempt_time] in *;
      rewrite ?is_Exception_all; eexists _, _; (split; [reflexivity|]);
      cbn [clusters set_clusters].
    + split.
      * destruct Ht as [->| ->]; [done|]. by apply save_row_twice.
      * cbn. repeat split; try done; by rewrite ?H5, ?H6.
    + split.
      * destruct Ht as [->| ->]; [done|]. by apply save_row_twice.
      * cbn. by repeat split.
  - rewrite is_Exception_all. eexists _, _. split; [reflexivity|].
    cbn [clusters set_clusters db cluster]. split; [reflexivity|].
    cbn. by repeat split.
Qed.

Lemma Forall2_diag {A} (P : A -> A -> Prop) (l : list A) :
  (forall x, P x x) -> Forall2 P l l.
Proof. intros H. induction l; constructor; auto. Qed.

Lemma handle_loop_stamps (cs : list Cluster) : forall i d,
  NoDup (map cl_id cs) ->
  (forall c, c ∈ cs -> cl_id c ∈ map cl_id (clusters d)) ->
  exists d',
    handle_loop E i cs d = Return d'
    /\ Forall2 (fun r r' =>
                  cl_id r' = cl_id r
                  /\ (forall j c, cs !! j = Some c -> cl_id c = cl_id r ->
                        exists dj,
                          handle_loop E i (take j cs) d = Return dj
                          /\ stamped E (utcnow E (i + j)) c dj r')
                  /\ (cl_id r ∉ map cl_id cs -> r' = r))
               (clusters d) (clusters d').
Proof.
  induction cs as [|c cs IH]; intros i d Hnd Hin; cbn [handle_loop].
  - exists d. split; [done|]. apply Forall2_diag. intros r.
    split; [done|]. split; [|done]. by intros j c [=].
  - destruct (handle_turn_stamps i c d) as (c' & d1 & Hturn & Ht & Hst).
    rewrite Hturn. cbn [map] in Hnd. apply NoDup_cons in Hnd as [Hc Hnd].
    assert (Hid : cl_id c' = cl_id c) by apply Hst.
    rewrite save_row_present in Ht
      by (rewrite Hid; apply Hin; by apply list_elem_of_here).
    assert (Hpks : map cl_id (clusters d1) = map cl_id (clusters d)).
    { rewrite Ht, map_map. apply map_ext. intros r.
      destruct (Z.eqb_spec (cl_id r) (cl_id c')); congruence. }
    destruct (IH (S i) d1 Hnd) as (d' & -> & Hall).
    { intros c2 Hc2. rewrite Hpks. apply Hin. by apply list_elem_of_further. }
    exists d'. split; [done|]. rewrite Ht in Hall.
    change (map ?f ?l) with (f <$> l) in Hall. apply Forall2_fmap_l in Hall.
    eapply Forall2_impl; [exact Hall|]. cbn beta.
    intros r r' (H1 & H2 & H3). rewrite Hid in *.
    destruct (Z.eqb_spec (cl_id r) (cl_id c)) as [Heq|Hne].
    + assert (Hr' : r' = c').
      { apply H3. by rewrite Hid. }
      subst r'. split; [congruence|]. split.
      * intros [|j] c2; cbn [lookup list_lookup].
        -- intros [= <-] _. exists d. split; [done|]. by rewrite Nat.add_0_r.
        -- intros Hj Hc2. destruct Hc. rewrite <- Heq, <- Hc2.
           apply list_elem_of_In, in_map, list_elem_of_In.
           by eapply list_elem_of_lookup_2.
      * intros Hout. destruct Hout. rewrite Heq. cbn [map]. apply list_elem_of_here.
    + split; [done|]. split.
      * intros [|j] c2; cbn [lookup list_lookup].
        -- intros [= <-] Hc2. by destruct Hne.
        -- intros Hj Hc2. destruct (H2 j c2 Hj Hc2) as (dj & Hdj & Hsj).
           exists dj. rewrite Nat.add_succ_r. split; [|exact Hsj].
           cbn [take handle_loop]. by rewrite Hturn.
      * intros Hout. apply H3. intros Hin2. apply Hout. cbn [map].
        by apply list_elem_of_further.
Qed.

(** X27.  Every cluster has its turn and its stamps.  When the clusters of
    the database have distinct keys, [handle] returns, the table keeps its
    rows in their places, and the row of the [k]-th cluster carries the
    time of the [k]-th turn as the time of the last attempt.  The other
    stamps follow the outcome of its pass on the database that the turns
    before it left: no error and that time as the time of the last update
    when the pass completed, and when it raised, the text of the exception,
    whether it came from the Requests library, and the old time of the last
    update.  A failure in one cluster does not stop the turns of the
    others. *)
Theorem handle_stamps_every_cluster (d : Store) :
  NoDup (map cl_id (clusters d)) ->
  exists d',
    handle E d = Return d'
    /\ length (clusters d') = length (clusters d)
    /\ forall k c,
         clusters d !! k = Some c ->
         exists dk c',
           handle_loop E 0 (take k (clusters d)) d = Return dk
           /\ clusters d' !! k = Some c'
           /\ stamped E (utcnow E k) c dk c'.
Proof.
  intros Hnd. unfold handle.
  destruct (handle_loop_stamps (clusters d) 0 d Hnd) as (d' & -> & Hall).
  { intros c Hc. by apply list_elem_of_In, in_map, list_elem_of_In. }
  exists d'. split; [done|]. split; [symmetry; by eapply Forall2_length|].
  intros k c Hk. destruct (Forall2_lookup_l _ _ _ _ _ Hall Hk) as (c' & Hk' & _ & H2 & _).
  destruct (H2 k c Hk eq_refl) as (dk & Hdk & Hsk). by exists dk, c'.
Qed.

End Bookkeeping.

(** Two clusters: the pass of the first completes, the URL of the second is
    empty and its pass raises [IndexError]. *)
Lemma handle_stamps_every_cluster_witness :
  let E := quiet_env (fun _ => answers [] [] [] []) in
  exists d',
    handle E two_clusters = Return d'
    /\ length (clusters d') = length (clusters two_clusters)
    /\ forall k c,
         clusters two_clusters !! k = Some c ->
         exists dk c',
           handle_loop E 0 (take k (clusters two_clusters)) two_clusters = Return dk
           /\ clusters d' !! k = Some c'
           /\ stamped E (utcnow E k) c dk c'.
Proof.
  cbn zeta. apply handle_stamps_every_cluster.
  cbn [two_clusters clusters map cl_id never_refreshed].
  apply NoDup_cons. split; [|apply NoDup_singleton].
  by intros [=]%list_elem_of_singleton.
Defined.

(* ===================================================================== *)
(** ** The base URL of the REST client *)
(* ===================================================================== *)

Lemma length_append_slash (s : string) :
  String.length (s ++ "/") = S (String.length s).
Proof.
  induction s as [|c s IH]; [reflexivity|].
  change (String c s ++ "/") with (String c (s ++ "/")). cbn [String.length].
  by rewrite IH.
Qed.

Lemma get_append_slash (s : string) :
  String.get (String.length s) (s ++ "/") = Some "/"%char.
Proof.
  induction s as [|c s IH]; [reflexivity|].
  change (String c s ++ "/") with (String c (s ++ "/")). exact IH.
Qed.

Section RestClient.
Variable E : Env.

(** X28.  The base URL of a client.  An empty URL makes the constructor
    raise [IndexError].  For any other URL the client is made; its base is
    the URL itself when that ends with a slash and the URL followed by a
    slash otherwise, so the base always ends with a slash, and a URL given
    with or without the final slash yields the same client. *)
Theorem rest_client_base_url (url : string) :
  (url = "" ->
   CephRestClient E url = Raise (Exn IndexError "string index out of range"))
  /\ (url <> "" ->
      exists base,
        CephRestClient E url = Return (rest_api E base)
        /\ (base = url \/ base = url ++ "/")
        /\ String.get (Nat.pred (String.length base)) base = Some "/"%char
        /\ CephRestClient E base = Return (rest_api E base)).
Proof.
  unfold CephRestClient. split; [by intros ->|]. intros Hne.
  destruct (String.get (Nat.pred (String.length url)) url) as [c|] eqn:Hget.
  - destruct (Ascii.eqb_spec c "/") as [->|Hc].
    + exists url. split; [done|]. split; [by left|]. split; [done|].
      by rewrite Hget.
    + exists (url ++ "/"). split; [done|]. split; [by right|].
      rewrite length_append_slash. cbn [Nat.pred]. rewrite get_append_slash.
      by split.
  - exfalso. destruct url as [|c url]; [done|]. cbn [String.length Nat.pred] in Hget.
    clear Hne. revert c Hget. induction url as [|d url IH]; intros c; [done|].
    cbn [String.length String.get]. apply IH.
Qed.

End RestClient.

(* ===================================================================== *)
(** ** The registry after a pass *)
(* ===================================================================== *)

Lemma NoDup_pk_inj {R} (pk : R -> Z) (rows : list R) (x y : R) :
  NoDup (map pk rows) -> In x rows -> In y rows -> pk x = pk y -> x = y.
Proof.
  induction rows as [|r rows IH]; [done|]. cbn [map].
  intros [Hr Hnd]%NoDup_cons [<-|Hx] [<-|Hy] Hpk; [done| | |by apply IH].
  - destruct Hr. rewrite Hpk. by apply list_elem_of_In, in_map.
  - destruct Hr. rewrite <- Hpk. by apply list_elem_of_In, in_map.
Qed.

Lemma save_row_pks {R} (pk : R -> Z) (r : R) (rows : list R) :
  pk r ∈ map pk rows -> map pk (Models.save_row pk r rows) = map pk rows.
Proof.
  intros Hin. rewrite save_row_present by done. rewrite map_map.
  apply map_ext. intros x. destruct (Z.eqb_spec (pk x) (pk r)); congruence.
Qed.

Lemma save_row_other {R} (pk : R -> Z) (r x : R) (rows : list R) :
  In x rows -> pk x <> pk r -> In x (Models.save_row pk r rows).
Proof.
  intros Hx Hne. unfold Models.save_row. destruct (existsb _ rows).
  - apply in_map_iff. exists x. split; [|done].
    by destruct (Z.eqb_spec (pk x) (pk r)).
  - apply in_or_app. by left.
Qed.

Lemma save_row_from {R} (pk : R -> Z) (r x : R) (rows : list R) :
  In x (Models.save_row pk r rows) -> x = r \/ In x rows.
Proof.
  unfold Models.save_row. destruct (existsb _ rows).
  - intros (y & Hy & Hin)%in_map_iff. destruct (pk y =? pk r); [by left|].
    right. by subst.
  - intros [?|[<-|[]]]%in_app_or; auto.
Qed.

Lemma delete_rows_In {R} (sel : R -> bool) (x : R) (rows : list R) :
  In x (Models.delete_rows sel rows) <-> In x rows /\ sel x = false.
Proof.
  unfold Models.delete_rows. rewrite filter_In, negb_true_iff. tauto.
Qed.

Lemma NoDup_pk_delete {R} (pk : R -> Z) (sel : R -> bool) (rows : list R) :
  NoDup (map pk rows) -> NoDup (map pk (Models.delete_rows sel rows)).
Proof.
  unfold Models.delete_rows. induction rows as [|r rows IH]; [done|].
  cbn [map List.filter]. intros [Hr Hnd]%NoDup_cons.
  destruct (sel r); cbn [negb]; [by apply IH|].
  cbn [map]. apply NoDup_cons. split; [|by apply IH].
  intros Hin. apply Hr. apply list_elem_of_In, in_map_iff in Hin as (y & Hy & Hin).
  apply filter_In in Hin as [Hin _]. rewrite <- Hy. by apply list_elem_of_In, in_map.
Qed.

Lemma keeps_registered_refl d : keeps_registered d d.
Proof. by intros cid a t i k. Qed.

Lemma keeps_registered_trans d1 d2 d3 :
  keeps_registered d1 d2 -> keeps_registered d2 d3 -> keeps_registered d1 d3.
Proof. intros H12 H23 cid a t i k H. by apply H23, H12. Qed.

(** Saving a service row over the row with its key, when the two agree on
    what identifies the service. *)
Lemma save_service_ok (d : Store) (x' x0 : ServiceStatus) :
  keys_sound d ->
  In x0 (services d) -> ss_id x0 = ss_id x' -> ss_server x0 = ss_server x' ->
  ss_type x0 = ss_type x' -> ss_service_id x0 = ss_service_id x' ->
  let d' := set_services (Models.save_row ss_id x') d in
  keys_sound d' /\ keeps_registered d d'.
Proof.
  intros (Hs1 & Hs2 & Hx1 & Hx2) Hx0 Hid Hsrv Hty Hsi. cbn zeta.
  assert (Hpk : ss_id x' ∈ map ss_id (services d)).
  { rewrite <- Hid. by apply list_elem_of_In, in_map. }
  split.
  - split; [exact Hs1|]. split; [exact Hs2|]. cbn [services set_services next_service_pk].
    split; [by rewrite save_row_pks|].
    intros x [->|Hx]%save_row_from; [rewrite <- Hid|]; by apply Hx2.
  - intros cid a t i k (srv & x & H1 & H2 & H3 & H4 & H5 & H6 & H7 & H8).
    destruct (decide (ss_id x = ss_id x')) as [Heq|Hne].
    + assert (x = x0) as -> by (eapply (NoDup_pk_inj ss_id); eauto; congruence).
      exists srv, x'. cbn [servers services set_services].
      repeat split; try done; try congruence. apply (save_row_In ss_id).
    + exists srv, x. cbn [servers services set_services].
      repeat split; try done. by apply save_row_other.
Qed.

(** Deleting service rows. *)
Lemma delete_services_ok (d : Store) (sel : ServiceStatus -> bool) :
  keys_sound d ->
  let d' := set_services (Models.delete_rows sel) d in
  keys_sound d'
  /\ forall cid a t i k,
       registered d cid a t i k ->
       (forall x, In x (services d) -> ss_id x = k -> sel x = false) ->
       registered d' cid a t i k.
Proof.
  intros (Hs1 & Hs2 & Hx1 & Hx2). cbn zeta. split.
  - split; [exact Hs1|]. split; [exact Hs2|]. cbn [services set_services next_service_pk].
    split; [by apply NoDup_pk_delete|].
    intros x [Hx _]%delete_rows_In. by apply Hx2.
  - intros cid a t i k (srv & x & H1 & H2 & H3 & H4 & H5 & H6 & H7 & H8) Hsel.
    exists srv, x. cbn [servers services set_services].
    repeat split; try done. apply delete_rows_In. split; [done|by apply Hsel].
Qed.

(** Saving a server over the row with its key, when the two agree on
    cluster and address. *)
Lemma save_server_ok (d : Store) (server' server : Server) :
  keys_sound d ->
  In server (servers d) -> srv_id server' = srv_id server ->
  srv_cluster server' = srv_cluster server -> srv_addr server' = srv_addr server ->
  let d' := set_servers (Models.save_row srv_id server') d in
  keys_sound d' /\ keeps_registered d d'.
Proof.
  intros (Hs1 & Hs2 & Hx1 & Hx2) Hin Hid Hcl Haddr. cbn zeta.
  assert (Hpk : srv_id server' ∈ map srv_id (servers d)).
  { rewrite Hid. by apply list_elem_of_In, in_map. }
  split.
  - unfold keys_sound.
    cbn [servers services set_servers next_server_pk next_service_pk].
    split; [by rewrite save_row_pks|]. split; [|by split].
    intros r [->|Hr]%save_row_from; [rewrite Hid|]; by apply Hs2.
  - intros cid a t i k (srv & x & H1 & H2 & H3 & H4 & H5 & H6 & H7 & H8).
    destruct (decide (srv_id srv = srv_id server')) as [Heq|Hne].
    + assert (srv = server) as -> by (eapply (NoDup_pk_inj srv_id); eauto; congruence).
      exists server', x. cbn [servers services set_servers].
      repeat split; try done; try congruence. apply (save_row_In srv_id).
    + exists srv, x. cbn [servers services set_servers].
      repeat split; try done. by apply save_row_other.
Qed.

Lemma keys_sound_new_server (d : Store) (cid : Z) (a : string) :
  keys_sound d ->
  keys_sound
    {| servers := servers d ++ [{| srv_id := next_server_pk d; srv_cluster := cid;
                                   srv_addr := a; srv_name := None;
                                   srv_hostname := None |}];
       services := services d; pools := pools d; clusters := clusters d;
       next_server_pk := next_server_pk d + 1;
       next_service_pk := next_service_pk d; next_pool_pk := next_pool_pk d |}.
Proof.
  intros (Hs1 & Hs2 & Hx1 & Hx2). unfold keys_sound.
  cbn [servers services next_server_pk next_service_pk].
  split; [|split; [|by split]].
  - rewrite map_app. cbn [map srv_id]. apply NoDup_app. split; [exact Hs1|].
    split; [|apply NoDup_singleton].
    intros pk Hpk ->%list_elem_of_singleton.
    apply list_elem_of_In, in_map_iff in Hpk as (r & Hr & Hin).
    specialize (Hs2 r Hin). lia.
  - intros r [Hr|[<-|[]]]%in_app_or; [specialize (Hs2 r Hr); lia|cbn; lia].
Qed.

Lemma keys_sound_new_service (d : Store) (sid : Z) (t : ServiceType) (i : Z) :
  keys_sound d ->
  keys_sound
    {| servers := servers d;
       services := services d ++ [{| ss_id := next_service_pk d; ss_server := sid;
                                     ss_type := t; ss_service_id := i;
                                     ss_name := None |}];
       pools := pools d; clusters := clusters d;
       next_server_pk := next_server_pk d;
       next_service_pk := next_service_pk d + 1; next_pool_pk := next_pool_pk d |}.
Proof.
  intros (Hs1 & Hs2 & Hx1 & Hx2). unfold keys_sound.
  cbn [servers services next_server_pk next_service_pk].
  split; [exact Hs1|]. split; [exact Hs2|]. split.
  - rewrite map_app. cbn [map ss_id]. apply NoDup_app. split; [exact Hx1|].
    split; [|apply NoDup_singleton].
    intros pk Hpk ->%list_elem_of_singleton.
    apply list_elem_of_In, in_map_iff in Hpk as (r & Hr & Hin).
    specialize (Hx2 r Hin). lia.
  - intros r [Hr|[<-|[]]]%in_app_or; [specialize (Hx2 r Hr); lia|cbn; lia].
Qed.

Lemma ServiceType_eqb_eq (a b : ServiceType) : ServiceType_eqb a b = true <-> a = b.
Proof. destruct a, b; cbn; split; congruence. Qed.

Lemma server_get_or_create_ok (cid : Z) (a : string) (d d' : Store)
    (server : Server) (created : bool) :
  keys_sound d ->
  Models.Server_get_or_create cid a d = (Return (server, created), d') ->
  keys_sound d' /\ keeps_registered d d' /\ services d' = services d
  /\ In server (servers d') /\ srv_cluster server = cid /\ srv_addr server = a
  /\ (forall srv, In srv (servers d') -> srv_cluster srv = cid -> srv_addr srv = a ->
                  srv = server).
Proof.
  intros Hk. unfold Models.Server_get_or_create.
  destruct (List.filter _ (servers d)) as [|s0 [|s1 rest]] eqn:Hf; [| |discriminate].
  - intros [= <- <- <-]. split; [by apply keys_sound_new_server|]. split.
    { intros cid' a' t i k (srv & x & H1 & H2).
      exists srv, x. cbn [servers services]. split; [|exact H2].
      apply in_or_app. by left. }
    cbn [servers services srv_cluster srv_addr]. split; [done|].
    split; [apply in_or_app; right; by left|]. split; [done|]. split; [done|].
    intros srv [Hin|[<-|[]]]%in_app_or Hc Ha; [|done].
    assert (In srv []) as []. rewrite <- Hf. apply filter_In. split; [done|].
    rewrite Hc, Ha, Z.eqb_refl, String.eqb_refl. done.
  - intros [= <- <- <-].
    assert (Hin : In s0 (List.filter
              (fun s => (srv_cluster s =? cid) && String.eqb (srv_addr s) a)
              (servers d))) by (rewrite Hf; by left).
    apply filter_In in Hin as [Hin Hp]. apply andb_prop in Hp as [Hc Ha].
    apply Z.eqb_eq in Hc. apply String.eqb_eq in Ha.
    split; [done|]. split; [apply keeps_registered_refl|]. split; [done|].
    split; [done|]. split; [done|]. split; [done|].
    intros srv Hsrv Hc' Ha'.
    assert (Hin' : In srv [s0]).
    { rewrite <- Hf. apply filter_In. split; [done|].
      by rewrite Hc', Ha', Z.eqb_refl, String.eqb_refl. }
    by destruct Hin' as [<-|[]].
Qed.

Lemma service_get_or_create_ok (server : Server) (t : ServiceType) (i : Z)
    (d d' : Store) (x : ServiceStatus) (created : bool) :
  keys_sound d ->
  Models.ServiceStatus_get_or_create server t i d = (Return (x, created), d') ->
  keys_sound d' /\ keeps_registered d d' /\ servers d' = servers d
  /\ In x (services d') /\ ss_server x = srv_id server /\ ss_type x = t
  /\ ss_service_id x = i.
Proof.
  intros Hk. unfold Models.ServiceStatus_get_or_create.
  destruct (List.filter _ (services d)) as [|x0 [|x1 rest]] eqn:Hf; [| |discriminate].
  - intros [= <- <- <-]. split; [by apply keys_sound_new_service|]. split.
    { intros cid' a' t' i' k (srv & x & H1 & H2 & H3 & H4 & H5).
      exists srv, x. cbn [servers services]. do 3 (split; [done|]).
      split; [|exact H5]. apply in_or_app. by left. }
    cbn [servers services ss_server ss_type ss_service_id]. split; [done|].
    split; [apply in_or_app; right; by left|]. by repeat split.
  - intros [= <- <- <-].
    assert (Hin : In x0 (List.filter
              (fun x => (ss_server x =? srv_id server) && ServiceType_eqb (ss_type x) t
                        && (ss_service_id x =? i))
              (services d))) by (rewrite Hf; by left).
    apply filter_In in Hin as [Hin Hp].
    apply andb_prop in Hp as [[H1 H2]%andb_prop H3].
    apply Z.eqb_eq in H1, H3. apply ServiceType_eqb_eq in H2.
    split; [done|]. split; [apply keeps_registered_refl|]. by repeat split.
Qed.

Lemma orm_returns {A} (m : M Store A) (s s' : St) (a : A) :
  orm m s = (Return a, s') ->
  exists d', m (db s) = (Return a, d') /\ s' = on_db (fun _ => d') s.
Proof.
  unfold orm. destruct (m (db s)) as [o d']. intros [= -> <-]. by exists d'.
Qed.

Section Registry.
Variable E : Env.
Variable T : Telemetry.

(** What the guesses at a hostname do to the database: nothing, or they
    save the server under its key, cluster and address. *)
Lemma guess_hostname_db (a n : string) (t : ServiceType) (server : Server)
    (s s' : St) (o : Outcome Server) :
  guess_hostname E T a t n server s = (o, s') ->
  db s' = db s
  \/ exists server',
       srv_id server' = srv_id server /\ srv_cluster server' = srv_cluster server
       /\ srv_addr server' = srv_addr server
       /\ db s' = set_servers (Models.save_row srv_id server') (db s).
Proof.
  unfold guess_hostname.
  destruct (srv_hostname server); [intros [= _ <-]; by left|]. destruct t.
  - unfold bind at 1. pose proof (crush_osd_hostnames_same_db E T s) as Hdb.
    unfold same_db in Hdb.
    destruct (crush_osd_hostnames E T s) as [[crush|e] s1]; cbn [snd] in *;
      [|intros [= _ <-]; by left].
    destruct (match srv_hostname (set_srv_hostname (crush !! n) server) with
              | Some h => String.eqb h "localhost" | None => true end);
      (intros [= _ <-]; right; eexists; (split; [|split; [|split]]);
       [| | |cbn [db on_db]; rewrite Hdb; reflexivity]; reflexivity).
  - destruct (_reverse_dns E a);
      (intros [= _ <-]; right; eexists;
       (split; [|split; [|split]]); [| | |reflexivity]; reflexivity).
Qed.

(** One registration on a database with sound keys: the keys stay sound,
    the service is registered by the row returned, and what was registered
    stays, except possibly an OSD with the same identity at another
    address. *)
Lemma register_step (a n : string) (t : ServiceType) (i : Z) (s s' : St)
    (row : ServiceStatus) :
  keys_sound (db s) ->
  _register_service E T a t i n s = (Return row, s') ->
  keys_sound (db s')
  /\ registered (db s') (cl_id (cluster s)) a t i (ss_id row)
  /\ forall a0 t0 i0 k,
       registered (db s) (cl_id (cluster s)) a0 t0 i0 k ->
       t0 = MON \/ i0 <> i \/ a0 = a ->
       registered (db s') (cl_id (cluster s)) a0 t0 i0 k.
Proof.
  intros Hk H. set (cid := cl_id (cluster s)). unfold _register_service in H.
  apply bind_returns in H as (s0 & s1 & Hget & H). injection Hget as <- <-.
  fold cid in H.
  apply bind_returns in H as ([server sc] & s2 & HA & H).
  apply orm_returns in HA as (dA & HA & ->).
  destruct (server_get_or_create_ok _ _ _ _ _ _ Hk HA)
    as (HkA & HrA & HsvA & HinA & HclA & HadA & HuA).
  cbn [fst snd] in H.
  apply bind_returns in H as ([x created] & s3 & HB & H).
  apply orm_returns in HB as (dB & HB & ->). cbn [db on_db] in HB.
  destruct (service_get_or_create_ok _ _ _ _ _ _ _ HkA HB)
    as (HkB & HrB & HsrvB & HinB & Hx1 & Hx2 & Hx3).
  cbn [fst snd] in H.
  apply bind_returns in H as ([x' server'] & s4 & Htail & H).
  apply bind_returns in H as ([] & s5 & Hn2s & Hret).
  cbn [fst snd] in Hret, Hn2s. injection Hret as <- <-.
  assert (Hdb5 : db s5 = db s4).
  { destruct t; injection Hn2s as <-; reflexivity. }
  rewrite Hdb5. clear Hn2s Hdb5 s5.
  (* from the two lookups to the end of the step *)
  assert (Hpres : keys_sound (db s4) /\ ss_id x' = ss_id x
            /\ forall a0 t0 i0 k,
                 registered dB cid a0 t0 i0 k ->
                 t0 = MON \/ i0 <> i \/ a0 = a ->
                 registered (db s4) cid a0 t0 i0 k).
  { destruct created.
    2:{ cbv beta iota delta [ret] in Htail. injection Htail as <- _ <-.
        split; [exact HkB|]. split; [reflexivity|]. intros ? ? ? ? Hr _. exact Hr. }
    apply bind_returns in Htail as ([] & sC & HC & Htail). injection HC as <-.
    apply bind_returns in Htail as ([] & sD & HD & Htail). injection HD as <-.
    apply bind_returns in Htail as (srv_g & sE & HE & Htail).
    injection Htail as <- _ <-.
    apply guess_hostname_db in HE. cbn [db on_db] in HE.
    destruct (save_service_ok dB (set_ss_name (Some n) x) x HkB HinB
                eq_refl eq_refl eq_refl eq_refl) as [HkC HrC].
    set (dC := set_services (Models.save_row ss_id (set_ss_name (Some n) x)) dB) in *.
    match type of HE with context [set_services (Models.delete_rows ?sel) dC] =>
      destruct (delete_services_ok dC sel HkC) as [HkD HrD];
      set (dD := set_services (Models.delete_rows sel) dC) in *
    end.
    assert (HinD : In server (servers dD)).
    { cbn [servers dD dC set_services]. by rewrite HsrvB. }
    assert (HE' : keys_sound (db sE) /\ keeps_registered dD (db sE)).
    { destruct HE as [->|(server'' & E1 & E2 & E3 & ->)].
      - split; [exact HkD|apply keeps_registered_refl].
      - by apply (save_server_ok dD server'' server). }
    destruct HE' as [HkE HrE].
    split; [exact HkE|]. split; [reflexivity|].
    intros a0 t0 i0 k Hreg Hcond. apply HrE, HrD; [by apply HrC|].
    apply HrC in Hreg. destruct Hreg as (srv & y0 & R1 & R2 & R3 & R4 & R5 & R6 & R7 & R8).
    intros y Hy Hyk.
    assert (y = y0) as ->.
    { apply (NoDup_pk_inj ss_id (services dC)); [apply HkC|done..|congruence]. }
    destruct Hcond as [->|[Hi| ->]].
    + rewrite R7. cbn [ServiceType_eqb]. by rewrite andb_false_r.
    + rewrite R8. destruct (Z.eqb_spec i0 i); [done|]. by rewrite andb_false_r.
    + assert (srv = server) as ->.
      { apply HuA; [|done..]. cbn [servers dC set_services] in R1.
        by rewrite HsrvB in R1. }
      by rewrite R6, Z.eqb_refl. }
  destruct Hpres as (HkE & Hid & Hpres). rewrite Hid.
  split; [exact HkE|]. split.
  - apply Hpres; [|by right; right].
    exists server, x. rewrite HsrvB. by repeat split.
  - intros a0 t0 i0 k Hreg Hcond. apply Hpres; [|done]. by apply HrB, HrA.
Qed.

Lemma register_loop_complete {X} (kind : ServiceType) (addr_of : X -> string)
    (ident_of : X -> Z) (name_of : X -> string) (xs : list X) :
  forall old old' s s',
    keys_sound (db s) ->
    for_fold xs (register_with E T kind addr_of ident_of name_of) old s
    = (Return old', s') ->
    keys_sound (db s') /\ cluster s' = cluster s
    /\ (fst old' ⊆ fst old) /\ (snd old' ⊆ snd old)
    /\ (kind = MON \/ NoDup (map ident_of xs) ->
        forall x, In x xs ->
          exists k, registered (db s') (cl_id (cluster s)) (addr_of x) kind (ident_of x) k
                    /\ (k ∉ fst old') /\ (addr_of x ∉ snd old'))
    /\ (forall a0 t0 i0 k,
          registered (db s) (cl_id (cluster s)) a0 t0 i0 k ->
          (forall x, In x xs -> t0 = MON \/ i0 <> ident_of x \/ a0 = addr_of x) ->
          registered (db s') (cl_id (cluster s)) a0 t0 i0 k).
Proof.
  induction xs as [|x xs IH]; intros old old' s s' Hk; cbn [for_fold].
  - intros [= <- <-]. split; [done|]. split; [done|]. split; [done|]. split; [done|].
    split; [by intros _ x []|]. by intros.
  - intros (old1 & s1 & H1 & Hrest)%bind_returns.
    unfold register_with in H1. apply bind_returns in H1 as (row & s2 & Hreg & Hret).
    injection Hret as <- <-.
    destruct (register_step _ _ _ _ _ _ _ Hk Hreg) as (Hk2 & Hrow & Hpres).
    assert (Hcl : cluster s2 = cluster s).
    { pose proof (keeps_register_service E T (addr_of x) kind (ident_of x) (name_of x) s)
        as (Hc & _). by rewrite Hreg in Hc. }
    destruct (IH _ _ _ _ Hk2 Hrest) as (Hk' & Hcl' & Hsub1 & Hsub2 & Hall & Hpres').
    rewrite Hcl in Hall, Hpres'. cbn [fst snd] in Hsub1, Hsub2.
    split; [exact Hk'|]. split; [congruence|].
    split; [set_solver|]. split; [set_solver|]. split.
    + intros Hkind y [<-|Hy].
      * exists (ss_id row). split; [|split; set_solver].
        apply Hpres'; [exact Hrow|]. intros y Hy.
        destruct Hkind as [->|Hnd]; [by left|]. right. left.
        cbn [map] in Hnd. apply NoDup_cons in Hnd as [Hx _]. intros Heq.
        apply Hx. rewrite Heq. by apply list_elem_of_In, in_map.
      * apply Hall; [|done]. destruct Hkind as [->|Hnd]; [by left|]. right.
        cbn [map] in Hnd. by apply NoDup_cons in Hnd as [_ Hnd].
    + intros a0 t0 i0 k Hreg0 Hcond. apply Hpres'.
      * apply Hpres; [done|]. apply Hcond. by left.
      * intros y Hy. apply Hcond. by right.
Qed.

Lemma delete_servers_ok (d : Store) (addrs : gset string) :
  keys_sound d ->
  let d' := Models.Server_delete_addr_in addrs d in
  keys_sound d'
  /\ forall cid a t i k,
       registered d cid a t i k -> a ∉ addrs -> registered d' cid a t i k.
Proof.
  intros (Hs1 & Hs2 & Hx1 & Hx2). cbn zeta. unfold Models.Server_delete_addr_in.
  split.
  - unfold keys_sound.
    cbn [servers services set_servers set_services next_server_pk next_service_pk].
    split; [by apply NoDup_pk_delete|].
    split; [intros r [Hr _]%delete_rows_In; by apply Hs2|].
    split; [by apply NoDup_pk_delete|].
    intros x [Hx _]%delete_rows_In. by apply Hx2.
  - intros cid a t i k (srv & x & H1 & H2 & H3 & H4 & H5 & H6 & H7 & H8) Ha.
    exists srv, x. cbn [servers services set_servers set_services].
    split; [apply delete_rows_In; split; [done|]; subst a;
            by apply bool_decide_eq_false|].
    do 2 (split; [done|]). split; [|done].
    apply delete_rows_In. split; [done|].
    destruct (existsb _ _) eqn:Hex; [|done]. exfalso.
    apply existsb_exists in Hex as (srv0 & Hgone & Heq).
    apply filter_In in Hgone as [Hin0 Hsel]. apply Z.eqb_eq in Heq.
    assert (srv0 = srv) as ->.
    { apply (NoDup_pk_inj srv_id (servers d)); [done..|congruence]. }
    apply bool_decide_eq_true in Hsel. by subst a.
Qed.

(** X29.  What a pass registers.  On a database with sound primary keys,
    when [_refresh_servers] returns, the keys are sound again; every
    monitor of the monitor map has a server of the cluster under the key of
    its address and a monitor row with its rank on that server; and, when
    the OSD map lists each OSD once, so has every OSD whose id is not the
    rank of a monitor registered under another key.  The key of an address
    is [server_key]: what [_short_addr] makes of the text before the first
    colon, the IP for an IPv4 address.  (The condition on ranks is there
    because a newly created monitor row removes the OSD rows with its
    number from the other servers of the cluster.) *)
Theorem refresh_servers_registers (s s' : St) :
  keys_sound (db s) ->
  _refresh_servers E T s = (Return tt, s') ->
  exists om ms,
    get_osds T = Return om /\ get_mon_status T = Return ms
    /\ keys_sound (db s')
    /\ (forall m, In m (monmap_mons ms) ->
          exists k, registered (db s') (cl_id (cluster s))
                      (server_key (mon_addr m)) MON (rank m) k)
    /\ (NoDup (map osd (od_osds om)) ->
        forall o, In o (od_osds om) ->
          (forall m, In m (monmap_mons ms) ->
             rank m <> osd o \/ server_key (mon_addr m) = server_key (public_addr o)) ->
          exists k, registered (db s') (cl_id (cluster s))
                      (server_key (public_addr o)) OSD (osd o) k).
Proof.
  intros Hk. unfold _refresh_servers.
  intros (ms & s1 & Hms & H)%bind_returns.
  apply bind_returns in H as (om & s2 & Hom & H).
  apply bind_returns in H as (s0 & s3 & Hget & H).
  apply bind_returns in H as (old1 & s4 & Hosds & H).
  apply bind_returns in H as (old2 & s5 & Hmons & H).
  apply bind_returns in H as ([] & s6 & Hdel1 & Hdel2).
  unfold lift in Hms, Hom.
  destruct (get_mon_status T) as [ms'|e]; [|discriminate]. injection Hms as -> <-.
  destruct (get_osds T) as [om'|e]; [|discriminate]. injection Hom as -> <-.
  injection Hget as <- <-.
  exists om, ms. split; [reflexivity|]. split; [reflexivity|].
  change (register_osd E T)
    with (register_with E T OSD (fun o : Osd => server_key (public_addr o)) osd
            (fun o : Osd => "osd." ++ PyStr.of_Z (osd o))) in Hosds.
  change (register_mon E T)
    with (register_with E T MON (fun m : Mon => server_key (mon_addr m)) rank
            (fun m : Mon => "mon." ++ mon_name m)) in Hmons.
  destruct (register_loop_complete _ _ _ _ _ _ _ _ _ Hk Hosds)
    as (Hk4 & Hcl4 & _ & _ & Hosd_all & _).
  destruct (register_loop_complete _ _ _ _ _ _ _ _ _ Hk4 Hmons)
    as (Hk5 & Hcl5 & Hsub1 & Hsub2 & Hmon_all & Hmon_pres).
  rewrite Hcl4 in Hmon_all, Hmon_pres.
  injection Hdel1 as <-. injection Hdel2 as <-. cbn [db on_db].
  destruct (delete_services_ok (db s5)
              (fun x => bool_decide (ss_id x ∈ fst old2)) Hk5) as [Hk6 Hr6].
  destruct (delete_servers_ok _ (snd old2) Hk6) as [Hk7 Hr7].
  split; [exact Hk7|].
  assert (Hfinal : forall a t i k,
            registered (db s5) (cl_id (cluster s)) a t i k ->
            k ∉ fst old2 -> a ∉ snd old2 ->
            registered
              (Models.Server_delete_addr_in (snd old2)
                 (set_services
                    (Models.delete_rows (fun x => bool_decide (ss_id x ∈ fst old2)))
                    (db s5)))
              (cl_id (cluster s)) a t i k).
  { intros a t i k Hreg Hk' Ha. apply Hr7; [|done]. apply Hr6; [done|].
    intros x _ <-. by apply bool_decide_eq_false. }
  split.
  - intros m Hm. destruct (Hmon_all (or_introl eq_refl) m Hm) as (k & Hreg & Hk' & Ha).
    exists k. by apply Hfinal.
  - intros Hnd o Ho Hcond.
    destruct (Hosd_all (or_intror Hnd) o Ho) as (k & Hreg & Hk' & Ha).
    exists k. apply Hfinal; [|set_solver..].
    apply Hmon_pres; [exact Hreg|]. intros m Hm. right.
    destruct (Hcond m Hm) as [Hne|Heq]; [left; congruence|right; congruence].
Qed.

End Registry.

(** The first pass on an empty registry: [osd.0] and the monitor of rank 0
    on one host, [osd.1] on another.  All three are registered. *)
Lemma refresh_servers_registers_witness :
  let T := answers [osd_at 0 "10.0.0.1:6800/0"; osd_at 1 "10.0.0.2:6800/0"]
             [mon_at 0 "a" "10.0.0.1:6789/0"] [] [] in
  let E := quiet_env (fun _ => T) in
  let d' := db (snd (_refresh_servers E T (adapter_on one_cluster))) in
  keys_sound d'
  /\ (exists k, registered d' 1 "10.0.0.1" MON 0 k)
  /\ (exists k, registered d' 1 "10.0.0.1" OSD 0 k)
  /\ (exists k, registered d' 1 "10.0.0.2" OSD 1 k).
Proof.
  cbn zeta.
  match goal with |- keys_sound (db (snd (_refresh_servers ?E ?T ?s))) /\ _ =>
    destruct (refresh_servers_registers E T s (snd (_refresh_servers E T s)))
      as (om & ms & Hom & Hms & Hkeys & Hmons & Hosds)
  end.
  - unfold keys_sound. cbn. split; [constructor|]. split; [by intros r []|].
    split; [constructor|]. by intros x [].
  - vm_compute. reflexivity.
  - injection Hom as <-. injection Hms as <-.
    split; [exact Hkeys|]. split; [|split].
    + apply (Hmons (mon_at 0 "a" "10.0.0.1:6789/0")). by left.
    + apply (Hosds ltac:(repeat constructor; set_solver)
               (osd_at 0 "10.0.0.1:6800/0") ltac:(by left)).
      intros m [<-|[]]. by right.
    + apply (Hosds ltac:(repeat constructor; set_solver)
               (osd_at 1 "10.0.0.2:6800/0") ltac:(right; by left)).
      intros m [<-|[]]. by left.
Defined.

(* ===================================================================== *)
(** ** The monitors outside the quorum *)
(* ===================================================================== *)

Section MonReach.
Variable E : Env.

Lemma probe_accepts (mon : Mon) : fst (try_mon_connect E mon) = Return (accepts E mon).
Proof.
  unfold try_mon_connect, accepts.
  destruct (mon_addr_match (mon_addr mon)) as [[ip port_text]|] eqn:Hm; [|reflexivity].
  destruct (mon_addr_match_port _ _ _ Hm) as [port Hport].
  unfold try_mon_connect_body. rewrite Hport. fold (ignored ip).
  destruct (ignored ip); [reflexivity|].
  destruct (create_connection E ip port) as [e|]; cbn [negb andb].
  - cbn. by rewrite is_Exception_all.
  - unfold try_mon_connect_finally.
    destruct (sock_close E ip port); [by rewrite is_Exception_all|done].
Qed.

Lemma how_many_mons_cons (sel : Mon -> bool) (mon : Mon) (mons : list Mon) :
  how_many_mons sel (mon :: mons) = (if sel mon then 1 else 0) + how_many_mons sel mons.
Proof.
  unfold how_many_mons. cbn [List.filter]. destruct (sel mon); [|lia].
  cbn [length]. lia.
Qed.

Lemma mon_tally_reach (qrm : list Z) (mons : list Mon) : forall a b c,
  mon_tally E qrm mons (a, b, c)
  = Return (a + how_many_mons (in_quorum qrm) mons,
            b + how_many_mons (fun m => negb (in_quorum qrm m) && accepts E m) mons,
            c + how_many_mons (fun m => negb (in_quorum qrm m) && negb (accepts E m)) mons).
Proof.
  induction mons as [|mon mons IH]; intros a b c; cbn [mon_tally].
  - unfold how_many_mons. cbn. by rewrite !Z.add_0_r.
  - rewrite !how_many_mons_cons. fold (in_quorum qrm mon).
    destruct (in_quorum qrm mon); cbn [negb andb].
    + rewrite IH. f_equal. rewrite !pair_equal_spec. lia.
    + rewrite probe_accepts. destruct (accepts E mon); cbn [negb];
        rewrite IH; f_equal; rewrite !pair_equal_spec; lia.
Qed.

(** X30.  The monitor counters say which monitors can be reached.  [ok]
    counts the monitors in the quorum; of the others, [warn] counts those
    whose address can be parsed, is not an unset address, and accepts a
    connection, and [critical] counts the rest.  The bucket names its count
    under ['in'], ['up'] or ['out'] when the count is not 0. *)
Theorem mon_counters_by_reachability (st : StatusDoc) :
  let out m := negb (in_quorum (quorum st) m) in
  exists r,
    _calculate_mon_counters E st = Return r
    /\ count (ok r) = how_many_mons (in_quorum (quorum st)) (status_mons st)
    /\ count (warn r)
       = how_many_mons (fun m => out m && accepts E m) (status_mons st)
    /\ count (critical r)
       = how_many_mons (fun m => out m && negb (accepts E m)) (status_mons st)
    /\ forall l,
         states (ok r) !! l
         = (if bool_decide (l = "in" /\ count (ok r) <> 0) then Some (count (ok r)) else None)
         /\ states (warn r) !! l
            = (if bool_decide (l = "up" /\ count (warn r) <> 0)
               then Some (count (warn r)) else None)
         /\ states (critical r) !! l
            = (if bool_decide (l = "out" /\ count (critical r) <> 0)
               then Some (count (critical r)) else None).
Proof.
  cbn zeta. unfold _calculate_mon_counters. rewrite mon_tally_reach.
  eexists. split; [reflexivity|]. cbn [count states ok warn critical].
  rewrite !Z.add_0_l. do 3 (split; [reflexivity|]).
  intros l. by rewrite !states_if_nonzero_lookup.
Qed.

End MonReach.
